(** * nest-backend: the session lifecycle of [AuthService], [UserService]
      and [JwtStrategy], embedded over an in-memory model of the [users]
      table.

    The services are [async] TypeScript methods that talk to three
    collaborators: the Prisma client (the [users] table of
    [prisma/schema.prisma]), [JwtService] (jsonwebtoken) and bcrypt.  Every
    method becomes a computation in a small state-and-exception monad over
    a [World]: the table, its id sequence, the wall clock and the state of
    the database link. *)

From Stdlib Require Import ZArith List Bool Lia.
From stdpp Require Import base decidable option list strings gmap fin_maps.

Local Open Scope string_scope.
Local Open Scope list_scope.
Local Open Scope Z_scope.

(** ** Tokens

    jsonwebtoken serialises a token as [header.payload.signature].  With the
    HS256 default the signature is a function of the header, the payload
    and the secret, so two tokens are the same string exactly when they
    carry the same claims and were signed with the same secret.  A token is
    therefore kept in structured form; [Opaque] stands for every string
    that is not a well-formed signed token. *)

Module JwtPayload.
Record t : Type := mk
  { email : string;   (* payload.email *)
    sub : Z;          (* payload.sub *)
    iat : Z;          (* issued at, seconds since the epoch *)
    exp : Z }.        (* expiry, seconds since the epoch *)

#[global] Instance eq_dec : EqDecision t.
Proof. solve_decision. Defined.
End JwtPayload.

Inductive Token : Type :=
| Opaque (raw : string)
| Jws (claims : JwtPayload.t) (key : string).

#[global] Instance Token_eq_dec : EqDecision Token.
Proof. solve_decision. Defined.

(** JavaScript truthiness of a string: only the empty string is falsy. *)
Definition truthy (t : Token) : bool :=
  match t with
  | Opaque "" => false
  | _ => true
  end.

(** ** The [User] model of [prisma/schema.prisma] *)

Module User.
Record t : Type := mk
  { id : Z;                        (* Int @id @default(autoincrement()) *)
    email : string;                (* String @unique *)
    name : string;
    password : string;
    age : option Z;                (* Int? *)
    refreshToken : option Token;   (* String? *)
    createdAt : Z;                 (* DateTime @default(now()), in ms *)
    updatedAt : Z }.               (* DateTime @updatedAt, in ms *)

#[global] Instance eq_dec : EqDecision t.
Proof. solve_decision. Defined.
End User.

(** ** Exceptions *)

Inductive PrismaCode : Type :=
| P1001   (* can't reach database server *)
| P2002   (* unique constraint failed *)
| P2025.  (* record to update or delete not found *)

Inductive Exception : Type :=
| UnauthorizedException (message : string)
| ConflictException (message : string)
| PrismaClientKnownRequestError (code : PrismaCode)
| JsonWebTokenError
| TokenExpiredError.

#[global] Instance PrismaCode_eq_dec : EqDecision PrismaCode.
Proof. solve_decision. Defined.

#[global] Instance Exception_eq_dec : EqDecision Exception.
Proof. solve_decision. Defined.

(** ** The world and the monad *)

(** The link to the database is part of the world, so that a failed
    query is an outcome the services can be observed to handle:
    [Some n] answers [n] more queries and is unreachable after that,
    [None] never fails. *)
Record World : Type := mkWorld
  { users : list User.t;     (* the rows of table users *)
    users_id_seq : Z;        (* next value of the autoincrement sequence *)
    clock : Z;               (* Date.now(), milliseconds *)
    link : option nat }.     (* queries left before the link drops *)

Inductive Result (A : Type) : Type :=
| Return (a : A)
| Throw (e : Exception).
Arguments Return {A} a.
Arguments Throw {A} e.

Definition M (A : Type) : Type := World -> Result A * World.

Definition ret {A} (a : A) : M A := fun w => (Return a, w).
Definition throw {A} (e : Exception) : M A := fun w => (Throw e, w).
Definition bind {A B} (m : M A) (k : A -> M B) : M B :=
  fun w => match m w with
           | (Return a, w') => k a w'
           | (Throw e, w') => (Throw e, w')
           end.
(** [try { m } catch (error) { h error }] *)
Definition try_catch {A} (m : M A) (h : Exception -> M A) : M A :=
  fun w => match m w with
           | (Return a, w') => (Return a, w')
           | (Throw e, w') => h e w'
           end.

#[global] Instance M_ret : MRet M := @ret.
#[global] Instance M_bind : MBind M := fun A B k m => bind m k.

Definition get : M World := fun w => (Return w, w).
Definition put (w' : World) : M unit := fun _ => (Return tt, w').

(** The outcome and the final world of a computation. *)
Definition outcome {A} (r : Result A * World) : Result A := fst r.
Definition after {A} (r : Result A * World) : World := snd r.

(** No outage is scheduled: every query is answered. *)
Definition healthy (w : World) : Prop := link w = None.

(** Wall-clock time passing between two requests. *)
Definition elapse (ms : Z) (w : World) : World :=
  mkWorld (users w) (users_id_seq w) (clock w + ms) (link w).

(** ** JavaScript objects returned under a Prisma [select] *)

Inductive Value : Type :=
| VNull
| VNumber (n : Z)
| VString (s : string)
| VDate (ms : Z)
| VToken (t : Token).

(** The object Prisma materialises for a full row. *)
Definition row_object (u : User.t) : gmap string Value :=
  list_to_map
    [ ("id", VNumber (User.id u));
      ("email", VString (User.email u));
      ("name", VString (User.name u));
      ("password", VString (User.password u));
      ("age", from_option VNumber VNull (User.age u));
      ("refreshToken", from_option VToken VNull (User.refreshToken u));
      ("createdAt", VDate (User.createdAt u));
      ("updatedAt", VDate (User.updatedAt u)) ].

(** A [select] literal, the fields in source order. *)
Definition Select : Type := list (string * bool).

Fixpoint selected (sel : Select) (k : string) : bool :=
  match sel with
  | [] => false
  | (k', b) :: sel' => if String.eqb k' k then b else selected sel' k
  end.

(** Prisma returns exactly the fields whose entry in [select] is [true]. *)
Definition apply_select (sel : Select) (o : gmap string Value)
  : gmap string Value :=
  filter (fun kv => selected sel (fst kv) = true) o.

(** Property reads [o.k] at the types the callers use them. *)
Definition number_prop (o : gmap string Value) (k : string) : Z :=
  match o !! k with Some (VNumber n) => n | _ => 0 end.
Definition string_prop (o : gmap string Value) (k : string) : string :=
  match o !! k with Some (VString s) => s | _ => "" end.

(** The literal that [findAll], [findOne], [create] and [update] each pass
    as [select]. *)
Definition select_public : Select :=
  [ ("id", true);
    ("email", true);
    ("name", true);
    ("age", true);
    ("createdAt", true);
    ("updatedAt", true);
    ("password", false);
    ("refreshToken", false) ].

(** ** Request and response shapes of [auth.dto.ts] and [user.service.ts] *)

(** The interfaces are erased by the compiler and [main.ts] installs no
    validation pipe, so a handler receives the parsed JSON body as it is,
    and the services hand it on to the Prisma client.  The client checks
    [data] against the columns of the model: next to the declared fields
    it accepts [id], [refreshToken], [createdAt] and [updatedAt].  A body
    is therefore modelled as the declared fields, at their declared types,
    plus these four columns.  A body with a key that is no column, or with
    a value of another type, makes the client throw before any query; such
    bodies are left out.  A declared DTO is the body that carries none of
    the four. *)

(** What reaches [prisma.user.create] as [data]. *)
Module UserUncheckedCreateInput.
Record t : Type := mk
  { email : string;
    password : string;
    name : string;
    age : option Z;
    id : option Z;
    refreshToken : option Token;
    createdAt : option Z;
    updatedAt : option Z }.

(** [{ ...o, password }] *)
Definition with_password (o : t) (password : string) : t :=
  mk (email o) password (name o) (age o) (id o) (refreshToken o)
     (createdAt o) (updatedAt o).
End UserUncheckedCreateInput.

(** What reaches [prisma.user.update] as [data]: an absent property is
    [None], so [refreshToken: null] is [Some None]. *)
Module UserUncheckedUpdateInput.
Record t : Type := mk
  { email : option string;
    name : option string;
    password : option string;
    age : option Z;
    id : option Z;
    refreshToken : option (option Token);
    createdAt : option Z;
    updatedAt : option Z }.

(** [{}] *)
Definition no_keys (d : t) : bool :=
  match email d, name d, password d, age d, id d, refreshToken d,
        createdAt d, updatedAt d with
  | None, None, None, None, None, None, None, None => true
  | _, _, _, _, _, _, _, _ => false
  end.
End UserUncheckedUpdateInput.

Module CreateUserDto.
Record t : Type := mk
  { email : string; name : string; password : string; age : option Z }.

Definition body (d : t) : UserUncheckedCreateInput.t :=
  UserUncheckedCreateInput.mk (email d) (password d) (name d) (age d)
                              None None None None.
End CreateUserDto.
Coercion CreateUserDto.body : CreateUserDto.t >-> UserUncheckedCreateInput.t.

(** [Partial<CreateUserDto>]: an absent property is [None]. *)
Module PartialCreateUserDto.
Record t : Type := mk
  { email : option string;
    name : option string;
    password : option string;
    age : option Z }.

Definition body (d : t) : UserUncheckedUpdateInput.t :=
  UserUncheckedUpdateInput.mk (email d) (name d) (password d) (age d)
                              None None None None.
End PartialCreateUserDto.
Coercion PartialCreateUserDto.body
  : PartialCreateUserDto.t >-> UserUncheckedUpdateInput.t.

Module LoginDto.
Record t : Type := mk { email : string; password : string }.
End LoginDto.

Module RegisterDto.
Record t : Type := mk
  { email : string; password : string; name : string; age : option Z }.

Definition body (d : t) : UserUncheckedCreateInput.t :=
  UserUncheckedCreateInput.mk (email d) (password d) (name d) (age d)
                              None None None None.
End RegisterDto.
Coercion RegisterDto.body : RegisterDto.t >-> UserUncheckedCreateInput.t.

(** The [user] member of the responses: [{ id, email, name }]. *)
Module AuthUser.
Record t : Type := mk { id : Z; email : string; name : string }.
End AuthUser.

Module AuthResponse.
Record t : Type := mk
  { access_token : Token; refresh_token : Token; user : AuthUser.t }.
End AuthResponse.

Module TokenResponse.
Record t : Type := mk { access_token : Token; refresh_token : Token }.
End TokenResponse.

(** [{ tokens: TokenResponse; user: any }] *)
Module CookieAuth.
Record t : Type := mk { tokens : TokenResponse.t; user : AuthUser.t }.
End CookieAuth.

(** ** The Prisma client on table [users]

    The generated client is a library; its operations are modelled as
    Prisma documents them.  [findUnique] answers [null] when no row
    matches.  [update] and [delete] throw P2025 when the row to change does
    not exist.  [create] and [update] throw P2002 when the write would
    break the primary key on [id] or [@unique] on [email].  [create] draws
    the id from the sequence unless [data] names one, and a value drawn is
    spent also when the insert fails; it stamps [createdAt] and
    [updatedAt] unless [data] names them.  [update] stamps [updatedAt]
    unless [data] names it, and writes nothing when [data] is empty.  Each
    operation is one query over the link.

    Ids are taken within the range of the [Int] column: for a value outside
    it the client throws P2020, which is not modelled, so the properties of
    ids no row carries are stated for ids in range.  The order in which
    [findMany] lists the rows is that of the list; the database promises
    none, and no property depends on it. *)

Module prisma.
Module user.

(** One round trip to the database; it fails once the link is down. *)
Definition query : M unit := fun w =>
  match link w with
  | None => (Return tt, w)
  | Some (S n) =>
      (Return tt, mkWorld (users w) (users_id_seq w) (clock w) (Some n))
  | Some O => (Throw (PrismaClientKnownRequestError P1001), w)
  end.

(** [where: { id }] and [where: { email }] *)
Inductive UserWhereUniqueInput : Type :=
| WhereId (id : Z)
| WhereEmail (email : string).

Definition matches (wh : UserWhereUniqueInput) (u : User.t) : bool :=
  match wh with
  | WhereId i => Z.eqb (User.id u) i
  | WhereEmail e => String.eqb (User.email u) e
  end.

(** [data] of the updates the services build themselves; an absent
    property is [None], so [refreshToken: null] is [Some None]. *)
Record UserUpdateInput : Type := mkUpdate
  { email : option string;
    name : option string;
    password : option string;
    age : option Z;
    refreshToken : option (option Token) }.

Definition typed (d : UserUpdateInput) : UserUncheckedUpdateInput.t :=
  UserUncheckedUpdateInput.mk (email d) (name d) (password d) (age d)
                              None (refreshToken d) None None.

Definition patch (t : Z) (d : UserUpdateInput) (u : User.t) : User.t :=
  User.mk (User.id u)
          (default (User.email u) (email d))
          (default (User.name u) (name d))
          (default (User.password u) (password d))
          (match age d with Some a => Some a | None => User.age u end)
          (default (User.refreshToken u) (refreshToken d))
          (User.createdAt u)
          t.

(** The row [u] after [data] has been written over it at time [t]. *)
Definition overwrite (t : Z) (d : UserUncheckedUpdateInput.t) (u : User.t)
  : User.t :=
  User.mk (default (User.id u) (UserUncheckedUpdateInput.id d))
          (default (User.email u) (UserUncheckedUpdateInput.email d))
          (default (User.name u) (UserUncheckedUpdateInput.name d))
          (default (User.password u) (UserUncheckedUpdateInput.password d))
          (match UserUncheckedUpdateInput.age d with
           | Some a => Some a
           | None => User.age u
           end)
          (default (User.refreshToken u)
                   (UserUncheckedUpdateInput.refreshToken d))
          (default (User.createdAt u) (UserUncheckedUpdateInput.createdAt d))
          (default t (UserUncheckedUpdateInput.updatedAt d)).

(** Would writing [d] over row [u] give it the email or the id of another
    row? *)
Definition unique_taken (rows : list User.t) (u : User.t)
           (d : UserUncheckedUpdateInput.t) : bool :=
  match UserUncheckedUpdateInput.email d with
  | None => false
  | Some e =>
      existsb (fun r => negb (Z.eqb (User.id r) (User.id u))
                        && String.eqb (User.email r) e) rows
  end
  || match UserUncheckedUpdateInput.id d with
     | None => false
     | Some i =>
         existsb (fun r => negb (Z.eqb (User.id r) (User.id u))
                           && Z.eqb (User.id r) i) rows
     end.

(** Replace the rows of the table. *)
Definition store (rows : list User.t) (w : World) : World :=
  mkWorld rows (users_id_seq w) (clock w) (link w).

Definition findMany : M (list User.t) :=
  _ ← query;
  w ← get;
  mret (users w).

Definition findUnique (wh : UserWhereUniqueInput) : M (option User.t) :=
  _ ← query;
  w ← get;
  mret (List.find (matches wh) (users w)).

(** The row an insert of [data] writes in world [w]. *)
Definition inserted (data : UserUncheckedCreateInput.t) (w : World)
  : User.t :=
  User.mk (default (users_id_seq w) (UserUncheckedCreateInput.id data))
          (UserUncheckedCreateInput.email data)
          (UserUncheckedCreateInput.name data)
          (UserUncheckedCreateInput.password data)
          (UserUncheckedCreateInput.age data)
          (UserUncheckedCreateInput.refreshToken data)
          (default (clock w) (UserUncheckedCreateInput.createdAt data))
          (default (clock w) (UserUncheckedCreateInput.updatedAt data)).

(** The sequence after an insert of [data]: a default id spends a value,
    whether the insert succeeds or not; an id named in [data] spends
    none. *)
Definition drawn (data : UserUncheckedCreateInput.t) (w : World) : Z :=
  match UserUncheckedCreateInput.id data with
  | None => users_id_seq w + 1
  | Some _ => users_id_seq w
  end.

Definition create (data : UserUncheckedCreateInput.t) : M User.t :=
  _ ← query;
  w ← get;
  let u := inserted data w in
  if existsb (fun r => String.eqb (User.email r) (User.email u)
                       || Z.eqb (User.id r) (User.id u)) (users w)
  then
    _ ← put (mkWorld (users w) (drawn data w) (clock w) (link w));
    throw (PrismaClientKnownRequestError P2002)
  else
    _ ← put (mkWorld (users w ++ [u]) (drawn data w) (clock w) (link w));
    mret u.

Definition update (wh : UserWhereUniqueInput)
           (data : UserUncheckedUpdateInput.t) : M User.t :=
  _ ← query;
  w ← get;
  match List.find (matches wh) (users w) with
  | None => throw (PrismaClientKnownRequestError P2025)
  | Some u =>
      if UserUncheckedUpdateInput.no_keys data
      then mret u
      else if unique_taken (users w) u data
      then throw (PrismaClientKnownRequestError P2002)
      else
        _ ← put (store (List.map (fun r => if matches wh r
                                           then overwrite (clock w) data r
                                           else r) (users w)) w);
        mret (overwrite (clock w) data u)
  end.

Definition delete (wh : UserWhereUniqueInput) : M User.t :=
  _ ← query;
  w ← get;
  match List.find (matches wh) (users w) with
  | None => throw (PrismaClientKnownRequestError P2025)
  | Some u =>
      _ ← put (store (List.filter (fun r => negb (matches wh r))
                                  (users w)) w);
      mret u
  end.

(** The object returned for a row under [select]. *)
Definition project (sel : Select) (u : User.t) : gmap string Value :=
  apply_select sel (row_object u).

End user.
End prisma.

(** ** [UserService] *)

Module UserService.
Import prisma.user.

Definition findAll : M (list (gmap string Value)) :=
  rows ← prisma.user.findMany;
  mret (List.map (project select_public) rows).

Definition findOne (id : Z) : M (option (gmap string Value)) :=
  row ← prisma.user.findUnique (WhereId id);
  mret (option_map (project select_public) row).

(** [data] is typed [CreateUserDto]; what arrives is the body. *)
Definition create (data : UserUncheckedCreateInput.t)
  : M (gmap string Value) :=
  row ← prisma.user.create data;
  mret (project select_public row).

(** [data] is typed [Partial<CreateUserDto>]; what arrives is the body. *)
Definition update (id : Z) (data : UserUncheckedUpdateInput.t)
  : M (option (gmap string Value)) :=
  row ← prisma.user.update (WhereId id) data;
  mret (Some (project select_public row)).

Definition remove (id : Z) : M unit :=
  _ ← prisma.user.delete (WhereId id);
  mret tt.

Definition findByEmail (email : string) : M (option User.t) :=
  prisma.user.findUnique (WhereEmail email).

Definition updateRefreshToken (userId : Z) (refreshToken : option Token)
  : M unit :=
  _ ← prisma.user.update (WhereId userId)
        (typed (mkUpdate None None None None (Some refreshToken)));
  mret tt.

End UserService.

(** ** [JwtService] (jsonwebtoken behind @nestjs/jwt)

    The registration of [JwtModule] is not among the sources, so the secret
    it signs and verifies with is a parameter. *)

Class JwtModuleOptions : Type := { secret : string }.

(** The [expiresIn] option: ['15m'] is [Minutes 15], ['7d'] is [Days 7]. *)
Inductive ExpiresIn : Type :=
| Minutes (n : Z)
| Days (n : Z).

Definition seconds (e : ExpiresIn) : Z :=
  match e with
  | Minutes n => n * 60
  | Days n => n * 86400
  end.

(** The object handed to [sign]: [{ email, sub }]. *)
Module Payload.
Record t : Type := mk { email : string; sub : Z }.
End Payload.

(** jsonwebtoken's clock: whole seconds, [Math.floor(Date.now() / 1000)]. *)
Definition clockTimestamp (w : World) : Z := clock w / 1000.

(** [jwt.sign(payload, key, { expiresIn })]: stamps [iat] with the current
    second and [exp] with [iat + expiresIn].  Nothing else goes into the
    token (no [jti]), so signing the same payload twice within one second
    yields the same token. *)
Definition jwt_sign (key : string) (payload : Payload.t) (e : ExpiresIn)
  : M Token :=
  w ← get;
  let iat := clockTimestamp w in
  mret (Jws (JwtPayload.mk (Payload.email payload) (Payload.sub payload)
                           iat (iat + seconds e))
            key).

(** [jwt.verify(token, key)]: the signature first, then the expiry
    ([clockTimestamp >= payload.exp] is expired). *)
Definition jwt_verify (key : string) (token : Token) : M JwtPayload.t :=
  w ← get;
  match token with
  | Opaque _ => throw JsonWebTokenError
  | Jws claims k =>
      if String.eqb k key
      then if JwtPayload.exp claims <=? clockTimestamp w
           then throw TokenExpiredError
           else mret claims
      else throw JsonWebTokenError
  end.

Module JwtService.
Definition sign `{JwtModuleOptions} (payload : Payload.t) (e : ExpiresIn)
  : M Token := jwt_sign secret payload e.
Definition verify `{JwtModuleOptions} (token : Token) : M JwtPayload.t :=
  jwt_verify secret token.
End JwtService.

(** ** bcrypt, as an interface: [hash(data, rounds)] and
       [compare(data, encrypted)] *)

Module bcrypt.
Class impl : Type :=
  { hash : string -> Z -> string;
    compare : string -> string -> bool }.
End bcrypt.

(** ** [AuthService] *)

Module AuthService.
Section methods.
Context `{bcrypt.impl} `{JwtModuleOptions}.

Definition validateUser (email password : string) : M (option User.t) :=
  user ← UserService.findByEmail email;
  match user with
  | Some u =>
      if bcrypt.compare password (User.password u)
      then mret (Some u)
      else mret None
  | None => mret None
  end.

Definition login (loginDto : LoginDto.t) : M AuthResponse.t :=
  user ← validateUser (LoginDto.email loginDto) (LoginDto.password loginDto);
  match user with
  | None => throw (UnauthorizedException "Invalid credentials")
  | Some user =>
      let payload := Payload.mk (User.email user) (User.id user) in
      access_token ← JwtService.sign payload (Minutes 15);
      refresh_token ← JwtService.sign payload (Days 7);
      _ ← UserService.updateRefreshToken (User.id user) (Some refresh_token);
      mret (AuthResponse.mk access_token refresh_token
              (AuthUser.mk (User.id user) (User.email user)
                           (User.name user)))
  end.

Definition loginWithCookies (loginDto : LoginDto.t) : M CookieAuth.t :=
  user ← validateUser (LoginDto.email loginDto) (LoginDto.password loginDto);
  match user with
  | None => throw (UnauthorizedException "Invalid credentials")
  | Some user =>
      let payload := Payload.mk (User.email user) (User.id user) in
      access_token ← JwtService.sign payload (Minutes 15);
      refresh_token ← JwtService.sign payload (Days 7);
      _ ← UserService.updateRefreshToken (User.id user) (Some refresh_token);
      mret (CookieAuth.mk (TokenResponse.mk access_token refresh_token)
              (AuthUser.mk (User.id user) (User.email user)
                           (User.name user)))
  end.

(** [registerDto] is typed [RegisterDto]; what arrives is the body, and
    the spread hands all of it to [create]. *)
Definition register (registerDto : UserUncheckedCreateInput.t)
  : M AuthResponse.t :=
  existingUser ← UserService.findByEmail
                   (UserUncheckedCreateInput.email registerDto);
  match existingUser with
  | Some _ => throw (UnauthorizedException "User already exists")
  | None =>
      let hashedPassword :=
        bcrypt.hash (UserUncheckedCreateInput.password registerDto) 10 in
      user ← UserService.create
               (UserUncheckedCreateInput.with_password registerDto
                                                       hashedPassword);
      let payload :=
        Payload.mk (string_prop user "email") (number_prop user "id") in
      access_token ← JwtService.sign payload (Minutes 15);
      refresh_token ← JwtService.sign payload (Days 7);
      _ ← UserService.updateRefreshToken (number_prop user "id")
            (Some refresh_token);
      mret (AuthResponse.mk access_token refresh_token
              (AuthUser.mk (number_prop user "id")
                           (string_prop user "email")
                           (string_prop user "name")))
  end.

Definition registerWithCookies (registerDto : UserUncheckedCreateInput.t)
  : M CookieAuth.t :=
  existingUser ← UserService.findByEmail
                   (UserUncheckedCreateInput.email registerDto);
  match existingUser with
  | Some _ => throw (UnauthorizedException "User already exists")
  | None =>
      let hashedPassword :=
        bcrypt.hash (UserUncheckedCreateInput.password registerDto) 10 in
      user ← UserService.create
               (UserUncheckedCreateInput.with_password registerDto
                                                       hashedPassword);
      let payload :=
        Payload.mk (string_prop user "email") (number_prop user "id") in
      access_token ← JwtService.sign payload (Minutes 15);
      refresh_token ← JwtService.sign payload (Days 7);
      _ ← UserService.updateRefreshToken (number_prop user "id")
            (Some refresh_token);
      mret (CookieAuth.mk (TokenResponse.mk access_token refresh_token)
              (AuthUser.mk (number_prop user "id")
                           (string_prop user "email")
                           (string_prop user "name")))
  end.

Definition refreshTokens (refreshToken : Token) : M TokenResponse.t :=
  try_catch
    (payload ← JwtService.verify refreshToken;
     user ← UserService.findByEmail (JwtPayload.email payload);
     match user with
     | None => throw (UnauthorizedException "Invalid refresh token")
     | Some user =>
         if bool_decide (User.refreshToken user = Some refreshToken)
         then
           let newPayload := Payload.mk (User.email user) (User.id user) in
           access_token ← JwtService.sign newPayload (Minutes 15);
           refresh_token ← JwtService.sign newPayload (Days 7);
           _ ← UserService.updateRefreshToken (User.id user)
                 (Some refresh_token);
           mret (TokenResponse.mk access_token refresh_token)
         else throw (UnauthorizedException "Invalid refresh token")
     end)
    (fun error => throw (UnauthorizedException "Invalid refresh token")).

Definition refreshTokensWithCookies (refreshToken : Token)
  : M TokenResponse.t :=
  try_catch
    (payload ← JwtService.verify refreshToken;
     user ← UserService.findByEmail (JwtPayload.email payload);
     match user with
     | None => throw (UnauthorizedException "Invalid refresh token")
     | Some user =>
         if bool_decide (User.refreshToken user = Some refreshToken)
         then
           let newPayload := Payload.mk (User.email user) (User.id user) in
           access_token ← JwtService.sign newPayload (Minutes 15);
           refresh_token ← JwtService.sign newPayload (Days 7);
           _ ← UserService.updateRefreshToken (User.id user)
                 (Some refresh_token);
           mret (TokenResponse.mk access_token refresh_token)
         else throw (UnauthorizedException "Invalid refresh token")
     end)
    (fun error => throw (UnauthorizedException "Invalid refresh token")).

Definition logout (userId : Z) : M unit :=
  UserService.updateRefreshToken userId None.

End methods.
End AuthService.

(** ** [JwtStrategy] and the guard that runs it *)

Class ProcessEnv : Type := { JWT_SECRET : option string }.

(** What the guard reads from an express request. *)
Inductive AuthScheme : Type := Bearer | OtherScheme (name : string).

Record Request : Type := mkRequest
  { cookies : option (gmap string Token);          (* req.cookies *)
    authorization : option (AuthScheme * Token) }. (* parsed header *)

(** [req.user] *)
Record RequestUser : Type := mkRequestUser { userId : Z; email : string }.

Module JwtStrategy.
Section methods.
Context `{ProcessEnv}.

(** [process.env.JWT_SECRET || 'default-secret-key'] *)
Definition secretOrKey : string :=
  match JWT_SECRET with
  | Some s => if String.eqb s "" then "default-secret-key" else s
  | None => "default-secret-key"
  end.

Definition extractJWTFromCookie (req : Request) : option Token :=
  match cookies req with
  | Some jar =>
      match jar !! "access_token" with
      | Some t => if truthy t then Some t else None
      | None => None
      end
  | None => None
  end.

Definition fromAuthHeaderAsBearerToken (req : Request) : option Token :=
  match authorization req with
  | Some (Bearer, t) => Some t
  | _ => None
  end.

(** [ExtractJwt.fromExtractors]: the first extractor that yields a
    token wins. *)
Fixpoint fromExtractors (extractors : list (Request -> option Token))
         (req : Request) : option Token :=
  match extractors with
  | [] => None
  | extract :: rest =>
      match extract req with
      | Some t => Some t
      | None => fromExtractors rest req
      end
  end.

Definition jwtFromRequest : Request -> option Token :=
  fromExtractors [extractJWTFromCookie; fromAuthHeaderAsBearerToken].

Definition validate (payload : JwtPayload.t) : M RequestUser :=
  user ← UserService.findOne (JwtPayload.sub payload);
  match user with
  | None => throw (UnauthorizedException "Unauthorized")
  | Some _ =>
      mret (mkRequestUser (JwtPayload.sub payload)
                          (JwtPayload.email payload))
  end.

(** Modelled from the spec: [jwt-auth.guard.ts] is not among the sources.
    The gate takes the token from the request, has it verified under the
    strategy's key with expiry checked, and rejects with
    [UnauthorizedException] when there is no token or verification fails;
    then [validate] decides, and whatever it throws reaches the caller as
    it is. *)
Definition canActivate (req : Request) : M RequestUser :=
  match jwtFromRequest req with
  | None => throw (UnauthorizedException "Unauthorized")
  | Some token =>
      payload ← try_catch (jwt_verify secretOrKey token)
                  (fun _ => throw (UnauthorizedException "Unauthorized"));
      validate payload
  end.

End methods.
End JwtStrategy.

(** ** Notions the properties are stated with *)

(** The rows of user [uid] and the refresh-token slots they hold. *)
Definition rows_of (w : World) (uid : Z) : list User.t :=
  List.filter (fun u => Z.eqb (User.id u) uid) (users w).

Definition slot (w : World) (uid : Z) : list (option Token) :=
  List.map User.refreshToken (rows_of w uid).

(** The subject a signed token names. *)
Definition token_sub (t : Token) : option Z :=
  match t with
  | Jws c _ => Some (JwtPayload.sub c)
  | Opaque _ => None
  end.

(** A response object carries neither secret. *)
Definition hides_secrets (o : gmap string Value) : Prop :=
  o !! "password" = None /\ o !! "refreshToken" = None.

(** [P] holds of the value a computation returned, if it returned one. *)
Definition on_return {A} (P : A -> Prop) (r : Result A) : Prop :=
  match r with
  | Return a => P a
  | Throw _ => True
  end.

(** A row with every column but the system-managed [updatedAt]. *)
Definition without_updatedAt (u : User.t) : User.t :=
  User.mk (User.id u) (User.email u) (User.name u) (User.password u)
          (User.age u) (User.refreshToken u) (User.createdAt u) 0.

(** The world with the database link in state [l]. *)
Definition relink (l : option nat) (w : World) : World :=
  mkWorld (users w) (users_id_seq w) (clock w) l.

(** Weakest precondition of a computation: [Q] for the value it returns,
    [E] for the exception it throws. *)
Definition wp {A} (m : M A) (Q : A -> World -> Prop)
           (E : Exception -> World -> Prop) (w : World) : Prop :=
  match m w with
  | (Return a, w') => Q a w'
  | (Throw e, w') => E e w'
  end.

(** [w'] is [w] with table [rows']: the sequence and the clock are
    the same, and the link is still up if it was. *)
Definition writes (rows' : list User.t) (w w' : World) : Prop :=
  users w' = rows'
  /\ users_id_seq w' = users_id_seq w
  /\ clock w' = clock w
  /\ (healthy w -> healthy w').

(** The cookie variants return the same tokens and user, repackaged. *)
Definition repackage (r : AuthResponse.t) : CookieAuth.t :=
  CookieAuth.mk
    (TokenResponse.mk (AuthResponse.access_token r)
                      (AuthResponse.refresh_token r))
    (AuthResponse.user r).

Definition map_result {A B} (f : A -> B) (r : Result A * World)
  : Result B * World :=
  match r with
  | (Return a, w) => (Return (f a), w)
  | (Throw e, w) => (Throw e, w)
  end.

(** [e] is the error of a query sent over a link that is down. *)
Definition outage (e : Exception) (w : World) : Prop :=
  e = PrismaClientKnownRequestError P1001 /\ ~ healthy w.

(** [w'] is [w] up to the state of the link. *)
Definition drift (w w' : World) : Prop := writes (users w) w w'.

(** The table after [updateRefreshToken(userId, refreshToken)] at time
    [t]. *)
Definition set_refreshToken (t : Z) (userId : Z) (refreshToken : option Token)
           (rows : list User.t) : list User.t :=
  List.map
    (fun r => if prisma.user.matches (prisma.user.WhereId userId) r
              then prisma.user.patch t
                     (prisma.user.mkUpdate None None None None
                        (Some refreshToken)) r
              else r)
    rows.

(** The token [JwtService.sign({ email, sub }, { expiresIn })] yields in
    world [w]. *)
Definition issued `{JwtModuleOptions} (w : World) (email : string) (sub : Z)
           (e : ExpiresIn) : Token :=
  Jws (JwtPayload.mk email sub (clockTimestamp w)
                     (clockTimestamp w + seconds e))
      secret.

(** ** The service as a transition system *)

(** The calls a client can cause. *)
Inductive Call : Type :=
| CallRegister (registerDto : UserUncheckedCreateInput.t)
| CallRegisterWithCookies (registerDto : UserUncheckedCreateInput.t)
| CallLogin (loginDto : LoginDto.t)
| CallLoginWithCookies (loginDto : LoginDto.t)
| CallRefreshTokens (refreshToken : Token)
| CallRefreshTokensWithCookies (refreshToken : Token)
| CallLogout (userId : Z)
| CallFindAll
| CallFindOne (id : Z)
| CallUpdate (id : Z) (data : UserUncheckedUpdateInput.t)
| CallRemove (id : Z).

Section transitions.
Context `{bcrypt.impl} `{JwtModuleOptions}.

(** The world a call leaves behind, whether it returned or threw. *)
Definition serve (c : Call) (w : World) : World :=
  match c with
  | CallRegister d => after (AuthService.register d w)
  | CallRegisterWithCookies d => after (AuthService.registerWithCookies d w)
  | CallLogin d => after (AuthService.login d w)
  | CallLoginWithCookies d => after (AuthService.loginWithCookies d w)
  | CallRefreshTokens t => after (AuthService.refreshTokens t w)
  | CallRefreshTokensWithCookies t =>
      after (AuthService.refreshTokensWithCookies t w)
  | CallLogout i => after (AuthService.logout i w)
  | CallFindAll => after (UserService.findAll w)
  | CallFindOne i => after (UserService.findOne i w)
  | CallUpdate i d => after (UserService.update i d w)
  | CallRemove i => after (UserService.remove i w)
  end.

(** A call is served, time passes, or the link changes state. *)
Inductive step : World -> World -> Prop :=
| step_call (c : Call) (w : World) : step w (serve c w)
| step_time (ms : Z) (w : World) : 0 <= ms -> step w (elapse ms w)
| step_link (l : option nat) (w : World) : step w (relink l w).

(** The service starts on an empty table whose sequence is at 1. *)
Definition initial (w : World) : Prop :=
  users w = [] /\ users_id_seq w = 1.

Inductive reachable : World -> Prop :=
| reachable_initial (w : World) : initial w -> reachable w
| reachable_step (w w' : World) : reachable w -> step w w' -> reachable w'.

(** [t] can be exchanged, in [w], for a fresh pair of user [uid]. *)
Definition redeemable (w : World) (uid : Z) (t : Token) : Prop :=
  exists r,
    outcome (AuthService.refreshTokens t w) = Return r
    /\ token_sub (TokenResponse.refresh_token r) = Some uid.

End transitions.

(** The invariant of the table is its primary key: no two rows carry
    the same id.  Nothing ties the ids to the sequence or a stored token
    to the row that stores it, since a body can name [id] and
    [refreshToken]. *)
Definition wf (w : World) : Prop := NoDup (List.map User.id (users w)).

(** ** Fixtures for the concrete scenarios *)

Module Scenario.

(** A stand-in for bcrypt that tags the plaintext. *)
#[export] Instance tagging : bcrypt.impl :=
  {| bcrypt.hash := fun data _ => "$2b$10$" +:+ data;
     bcrypt.compare := fun data encrypted =>
                         String.eqb ("$2b$10$" +:+ data) encrypted |}.

#[export] Instance options : JwtModuleOptions := {| secret := "s3cret" |}.

#[export] Instance env : ProcessEnv := {| JWT_SECRET := Some "s3cret" |}.

(** An empty table, shortly after 2023-11-14T22:13:20Z. *)
Definition empty : World := mkWorld [] 1 1700000000250 None.

Definition alice : RegisterDto.t := RegisterDto.mk "a@x.com" "p1" "A" None.

(** The table once Alice has registered, and her first refresh token. *)
Definition registered : World :=
  Eval vm_compute in after (AuthService.register alice empty).

Definition alice_refresh : Token :=
  Jws (JwtPayload.mk "a@x.com" 1 1700000000 1700604800) "s3cret".

Definition alice_access : Token :=
  Jws (JwtPayload.mk "a@x.com" 1 1700000000 1700000900) "s3cret".

(** Alice's row after [PUT /users/1 { email: 'b@x.com' }]: it still
    holds the refresh token issued to a@x.com. *)
Definition renamed : World :=
  Eval vm_compute in
    after (UserService.update 1
             (PartialCreateUserDto.mk (Some "b@x.com") None None None)
             registered).

(** The table after [DELETE /users/1]. *)
Definition deleted : World :=
  Eval vm_compute in after (UserService.remove 1 registered).

(** A request that carries Alice's access token in its cookie. *)
Definition with_cookie : Request :=
  mkRequest (Some {[ "access_token" := alice_access ]}) None.

(** An empty cookie, and Alice's token in the Bearer header. *)
Definition with_header : Request :=
  mkRequest (Some {[ "access_token" := Opaque "" ]})
            (Some (Bearer, alice_access)).


(** The link is down. *)
Definition down : World :=
  Eval vm_compute in relink (Some 0%nat) (elapse 2000 registered).

End Scenario.

(** ** The HTTP handlers

    A handler works on an exchange: the world and the response under
    construction.  What [res.cookie] has written stays written when a later
    step throws, so the response is state, not a result. *)

Module CookieOptions.
Record t : Type := mk
  { httpOnly : bool;
    secure : bool;
    sameSite : string;
    maxAge : option Z;     (* milliseconds *)
    expires : option Z }.  (* a Date, milliseconds since the epoch *)
End CookieOptions.

(** One call of [res.cookie(name, value, options)]. *)
Record SetCookie : Type := mkSetCookie
  { cookie_name : string;
    cookie_value : Token;
    cookie_options : CookieOptions.t }.

Record Exchange : Type := mkExchange
  { world : World;
    response : list SetCookie }.   (* the calls of res.cookie, in order *)

Definition H (A : Type) : Type := Exchange -> Result A * Exchange.

Definition H_unit {A} (a : A) : H A := fun x => (Return a, x).
Definition H_then {A B} (m : H A) (k : A -> H B) : H B :=
  fun x => match m x with
           | (Return a, x') => k a x'
           | (Throw e, x') => (Throw e, x')
           end.

#[global] Instance H_ret : MRet H := @H_unit.
#[global] Instance H_bind : MBind H := fun A B k m => H_then m k.

(** [await] of a service call inside a handler. *)
Definition await {A} (m : M A) : H A :=
  fun x => match m (world x) with
           | (r, w') => (r, mkExchange w' (response x))
           end.

Definition H_throw {A} (e : Exception) : H A := fun x => (Throw e, x).

Definition res_cookie (name : string) (value : Token)
           (options : CookieOptions.t) : H unit :=
  fun x => (Return tt,
            mkExchange (world x)
                       (response x ++ [mkSetCookie name value options])).

Class NodeEnv : Type := { NODE_ENV : option string }.

(** [process.env.NODE_ENV === 'production'] *)
Definition production `{NodeEnv} : bool :=
  match NODE_ENV with
  | Some s => String.eqb s "production"
  | None => false
  end.

(** [{ user, message }] and [{ message }] *)
Module CookieAuthResponse.
Record t : Type := mk { user : AuthUser.t; message : string }.
End CookieAuthResponse.

Module MessageResponse.
Record t : Type := mk { message : string }.
End MessageResponse.

(** [req.cookies?.refresh_token] *)
Definition refresh_token_cookie (req : Request) : option Token :=
  match cookies req with
  | Some jar => jar !! "refresh_token"
  | None => None
  end.

Module AuthController.
Section methods.
Context `{bcrypt.impl} `{JwtModuleOptions} `{NodeEnv}.

Definition setCookies (access_token refresh_token : Token) : H unit :=
  _ ← res_cookie "access_token" access_token
        (CookieOptions.mk true production "strict"
                          (Some (15 * 60 * 1000)) None);
  res_cookie "refresh_token" refresh_token
    (CookieOptions.mk true production "strict"
                      (Some (7 * 24 * 60 * 60 * 1000)) None).

Definition clearCookies : H unit :=
  _ ← res_cookie "access_token" (Opaque "")
        (CookieOptions.mk true production "strict" None (Some 0));
  res_cookie "refresh_token" (Opaque "")
    (CookieOptions.mk true production "strict" None (Some 0)).

Definition register (registerDto : UserUncheckedCreateInput.t)
  : H CookieAuthResponse.t :=
  r ← await (AuthService.registerWithCookies registerDto);
  _ ← setCookies (TokenResponse.access_token (CookieAuth.tokens r))
                 (TokenResponse.refresh_token (CookieAuth.tokens r));
  mret (CookieAuthResponse.mk (CookieAuth.user r) "Registration successful").

(** The body of [login]; [LocalAuthGuard], which runs before it, is not
    among the sources. *)
Definition login (loginDto : LoginDto.t) : H CookieAuthResponse.t :=
  r ← await (AuthService.loginWithCookies loginDto);
  _ ← setCookies (TokenResponse.access_token (CookieAuth.tokens r))
                 (TokenResponse.refresh_token (CookieAuth.tokens r));
  mret (CookieAuthResponse.mk (CookieAuth.user r) "Login successful").

Definition refresh (req : Request) : H MessageResponse.t :=
  match refresh_token_cookie req with
  | None => H_throw (UnauthorizedException "Refresh token not found")
  | Some refreshToken =>
      if truthy refreshToken
      then
        tokens ← await (AuthService.refreshTokensWithCookies refreshToken);
        _ ← setCookies (TokenResponse.access_token tokens)
                       (TokenResponse.refresh_token tokens);
        mret (MessageResponse.mk "Tokens refreshed successfully")
      else H_throw (UnauthorizedException "Refresh token not found")
  end.

(** The bodies of [logout] and [getProfile], given [req.user]. *)
Definition logout (user : RequestUser) : H MessageResponse.t :=
  _ ← await (AuthService.logout (userId user));
  _ ← clearCookies;
  mret (MessageResponse.mk "Logged out successfully").

Definition getProfile (user : RequestUser) : H RequestUser := mret user.

End methods.
End AuthController.

(** [@UseGuards(JwtAuthGuard)]: the guard runs first and hands [req.user]
    to the handler. *)
Definition UseGuards `{ProcessEnv} {A} (req : Request)
           (handler : RequestUser -> H A) : H A :=
  user ← await (JwtStrategy.canActivate req);
  handler user.

(** ** [UserController]: every route is behind the guard *)

Module UserController.
Section methods.
Context `{ProcessEnv}.

Definition findAll (req : Request) : H (list (gmap string Value)) :=
  UseGuards req (fun _ => await UserService.findAll).

Definition findOne (req : Request) (id : Z)
  : H (option (gmap string Value)) :=
  UseGuards req (fun _ => await (UserService.findOne id)).

Definition update (req : Request) (id : Z)
           (updateUserDto : UserUncheckedUpdateInput.t)
  : H (option (gmap string Value)) :=
  UseGuards req (fun _ => await (UserService.update id updateUserDto)).

Definition remove (req : Request) (id : Z) : H unit :=
  UseGuards req (fun _ => await (UserService.remove id)).

End methods.
End UserController.

(** ** [AppController.getHealth] *)

(** [process.uptime()], a reading the model does not interpret. *)
Class Process : Type := { uptime : World -> Z }.

Module HealthReport.
Record t : Type := mk
  { status : string;
    timestamp : Z;        (* new Date(), milliseconds *)
    uptime : Z;
    database : string }.
End HealthReport.

Module AppController.

(** [this.prisma.$queryRaw`SELECT 1`]: one query over the link. *)
Definition queryRaw : M unit := prisma.user.query.

(** [dbStatus] starts as ['disconnected'] and is assigned in the [try]
    or in the [catch]. *)
Definition getHealth `{Process} : M HealthReport.t :=
  let dbStatus := "disconnected" in
  dbStatus ← try_catch (_ ← queryRaw; mret "connected")
               (fun error => mret "error");
  w ← get;
  mret (HealthReport.mk "OK" (clock w) (uptime w) dbStatus).

End AppController.

(** ** Further notions *)

(** The range of an [Int] column.  The client throws P2020 for a number
    outside it, which the model of the client leaves out; what is stated
    of ids no row carries, and of bodies, is stated within the range. *)
Definition int4 (n : Z) : Prop := -2147483648 <= n <= 2147483647.

Definition update_in_range (d : UserUncheckedUpdateInput.t) : Prop :=
  from_option int4 True (UserUncheckedUpdateInput.id d)
  /\ from_option int4 True (UserUncheckedUpdateInput.age d).

Definition create_in_range (d : UserUncheckedCreateInput.t) : Prop :=
  from_option int4 True (UserUncheckedCreateInput.id d)
  /\ from_option int4 True (UserUncheckedCreateInput.age d).

(** The lifetime a signed token carries, in milliseconds. *)
Definition lifetime_ms (t : Token) : option Z :=
  match t with
  | Jws c _ => Some (1000 * (JwtPayload.exp c - JwtPayload.iat c))
  | Opaque _ => None
  end.

(** [req] carries cookie [name] with value [value]. *)
Definition sends (name : string) (value : Token) (req : Request) : Prop :=
  exists jar, cookies req = Some jar /\ jar !! name = Some value.

(** A cookie that hands a token to the client: hidden from scripts,
    same-site only, and kept exactly as long as the token it carries
    lives. *)
Definition session_cookie `{NodeEnv} (name : string) (c : SetCookie)
  : Prop :=
  cookie_name c = name
  /\ CookieOptions.httpOnly (cookie_options c) = true
  /\ CookieOptions.secure (cookie_options c) = production
  /\ CookieOptions.sameSite (cookie_options c) = "strict"
  /\ CookieOptions.expires (cookie_options c) = None
  /\ (exists ms, CookieOptions.maxAge (cookie_options c) = Some ms
                 /\ lifetime_ms (cookie_value c) = Some ms).

(** A cookie that takes a token away: empty, and expired at the epoch. *)
Definition clearing_cookie (name : string) (c : SetCookie) : Prop :=
  cookie_name c = name
  /\ cookie_value c = Opaque ""
  /\ CookieOptions.maxAge (cookie_options c) = None
  /\ CookieOptions.expires (cookie_options c) = Some 0.

(** Handler [h] writes two cookies, related by [pair], when it returns,
    and none when it throws. *)
Definition cookies_on_success_only {A} (h : H A)
           (pair : SetCookie -> SetCookie -> Prop) : Prop :=
  forall x,
    match h x with
    | (Return _, x') =>
        exists a b, response x' = response x ++ [a; b] /\ pair a b
    | (Throw _, x') => response x' = response x
    end.

(** The fixtures of the handlers' scenarios. *)
Module Walkthrough.
Import Scenario.

#[export] Instance development : NodeEnv := {| NODE_ENV := None |}.

#[export] Instance stopwatch : Process :=
  {| uptime := fun w => clock w - 1700000000000 |}.

Definition bob : RegisterDto.t := RegisterDto.mk "b@x.com" "p2" "B" (Some 30).

(** Bob registers 400 ms after Alice. *)
Definition two_users : World :=
  Eval vm_compute in
    after (AuthService.register bob (elapse 400 Scenario.registered)).

(** Alice logs in again five seconds after she registered. *)
Definition alice_login : LoginDto.t := LoginDto.mk "a@x.com" "p1".

Definition second_access : Token :=
  Jws (JwtPayload.mk "a@x.com" 1 1700000005 1700000905) "s3cret".

Definition second_refresh : Token :=
  Jws (JwtPayload.mk "a@x.com" 1 1700000005 1700604805) "s3cret".

Definition login_response : AuthResponse.t :=
  AuthResponse.mk second_access second_refresh (AuthUser.mk 1 "a@x.com" "A").

Definition logged_in : World :=
  Eval vm_compute in
    after (AuthService.login alice_login (elapse 5000 Scenario.registered)).

(** What Alice's browser holds after that login, and the exchange the
    login handler leaves. *)
Definition session_request : Request :=
  mkRequest (Some {[ "access_token" := second_access;
                     "refresh_token" := second_refresh ]}) None.

Definition login_exchange : Exchange :=
  Eval vm_compute in
    snd (AuthController.login alice_login
           (mkExchange (elapse 5000 Scenario.registered) [])).

End Walkthrough.

(** * Properties *)

Import Scenario.

(** ** Running the primitives *)

Ltac run :=
  unfold mbind, M_bind, bind, mret, M_ret, ret, throw, get, put, try_catch
    in *;
  cbv beta in *.

Ltac healthy_world w H :=
  let us := fresh "us" in
  let sq := fresh "sq" in
  let ck := fresh "ck" in
  let lk := fresh "lk" in
  destruct w as [us sq ck lk]; unfold healthy in H; simpl in H; subst lk.

Lemma findUnique_healthy wh (w : World) :
  healthy w ->
  prisma.user.findUnique wh w
  = (Return (List.find (prisma.user.matches wh) (users w)), w).
Proof. intros H. healthy_world w H. reflexivity. Qed.

Lemma delete_healthy wh (w : World) :
  healthy w ->
  prisma.user.delete wh w
  = match List.find (prisma.user.matches wh) (users w) with
    | None => (Throw (PrismaClientKnownRequestError P2025), w)
    | Some u =>
        (Return u,
         prisma.user.store
           (List.filter (fun r => negb (prisma.user.matches wh r)) (users w))
           w)
    end.
Proof.
  intros H. healthy_world w H. unfold prisma.user.delete. run. simpl.
  destruct (List.find _ us); reflexivity.
Qed.

Lemma findByEmail_healthy e (w : World) :
  healthy w ->
  UserService.findByEmail e w
  = (Return (List.find (prisma.user.matches (prisma.user.WhereEmail e))
                       (users w)), w).
Proof. apply findUnique_healthy. Qed.

Lemma find_WhereEmail_None e (rows : list User.t) :
  (forall u, In u rows -> User.email u <> e) ->
  List.find (prisma.user.matches (prisma.user.WhereEmail e)) rows = None.
Proof.
  intros Hno. destruct (List.find _ rows) as [u|] eqn:E; [|reflexivity].
  apply find_some in E as [Hin Hm]. simpl in Hm.
  apply String.eqb_eq in Hm. now apply Hno in Hin.
Qed.

Lemma find_WhereEmail_Some e (rows : list User.t) :
  (exists u, In u rows /\ User.email u = e) ->
  exists u, List.find (prisma.user.matches (prisma.user.WhereEmail e)) rows
            = Some u /\ In u rows /\ User.email u = e.
Proof.
  intros (u & Hin & He).
  destruct (List.find _ rows) as [u0|] eqn:E.
  - exists u0. apply find_some in E as [Hin0 Hm]. simpl in Hm.
    apply String.eqb_eq in Hm. auto.
  - eapply find_none in E; [|exact Hin]. simpl in E.
    rewrite He, String.eqb_refl in E. discriminate.
Qed.

Lemma find_WhereId_None i (rows : list User.t) :
  (forall u, In u rows -> User.id u <> i) ->
  List.find (prisma.user.matches (prisma.user.WhereId i)) rows = None.
Proof.
  intros Hno. destruct (List.find _ rows) as [u|] eqn:E; [|reflexivity].
  apply find_some in E as [Hin Hm]. simpl in Hm.
  apply Z.eqb_eq in Hm. now apply Hno in Hin.
Qed.

Lemma find_WhereId_Some i (rows : list User.t) :
  (exists u, In u rows /\ User.id u = i) ->
  exists u, List.find (prisma.user.matches (prisma.user.WhereId i)) rows
            = Some u /\ In u rows /\ User.id u = i.
Proof.
  intros (u & Hin & He).
  destruct (List.find _ rows) as [u0|] eqn:E.
  - exists u0. apply find_some in E as [Hin0 Hm]. simpl in Hm.
    apply Z.eqb_eq in Hm. auto.
  - eapply find_none in E; [|exact Hin]. simpl in E.
    rewrite He, Z.eqb_refl in E. discriminate.
Qed.

(** ** Lookup and removal of an id that is not in the table *)

(** C9: for an id in the range of the [Int] column that no row carries,
    [findOne] answers [null] and leaves the world as it is, whereas
    [remove] throws Prisma's own P2025 error, which it neither catches nor
    converts, and deletes nothing. *)
Theorem findOne_null_remove_throws (w : World) (id : Z) :
  healthy w ->
  int4 id ->
  (forall u, In u (users w) -> User.id u <> id) ->
  UserService.findOne id w = (Return None, w)
  /\ UserService.remove id w
     = (Throw (PrismaClientKnownRequestError P2025), w).
Proof.
  intros Hh _ Hno. apply find_WhereId_None in Hno.
  unfold UserService.findOne, UserService.remove. run.
  rewrite findUnique_healthy, delete_healthy, Hno by assumption.
  split; reflexivity.
Qed.

Lemma findOne_null_remove_throws_witness :
  UserService.findOne 7 Scenario.registered = (Return None, Scenario.registered)
  /\ UserService.remove 7 Scenario.registered
     = (Throw (PrismaClientKnownRequestError P2025), Scenario.registered).
Proof.
  apply (findOne_null_remove_throws Scenario.registered 7).
  - reflexivity.
  - unfold int4. lia.
  - intros u [<-|[]]. vm_compute. discriminate.
Defined.

(** ** Registering an email that is already taken *)

(** C1, as the code has it: when a row already carries the email, both
    [register] and [registerWithCookies] throw
    [UnauthorizedException('User already exists')] and the world, the
    earlier row included, is exactly what it was. *)
Theorem register_existing_email_unauthorized
        `{bcrypt.impl} `{JwtModuleOptions}
        (registerDto : RegisterDto.t) (w : World) :
  healthy w ->
  (exists u, In u (users w) /\ User.email u = RegisterDto.email registerDto) ->
  AuthService.register registerDto w
  = (Throw (UnauthorizedException "User already exists"), w)
  /\ AuthService.registerWithCookies registerDto w
     = (Throw (UnauthorizedException "User already exists"), w).
Proof.
  intros Hh Hex.
  apply find_WhereEmail_Some in Hex as (u & Hfind & _).
  unfold AuthService.register, AuthService.registerWithCookies. run.
  cbn [UserUncheckedCreateInput.email RegisterDto.body].
  rewrite findByEmail_healthy, Hfind by assumption.
  split; reflexivity.
Qed.

Lemma register_existing_email_unauthorized_witness :
  AuthService.register Scenario.alice Scenario.registered
  = (Throw (UnauthorizedException "User already exists"), Scenario.registered)
  /\ AuthService.registerWithCookies Scenario.alice Scenario.registered
     = (Throw (UnauthorizedException "User already exists"),
        Scenario.registered).
Proof.
  apply (register_existing_email_unauthorized Scenario.alice
           Scenario.registered).
  - reflexivity.
  - eexists. split; [left; reflexivity | reflexivity].
Defined.

(** C1 as stated fails: Alice's email is in the table, and registering it
    again does not throw a [ConflictException], in either variant. *)
Lemma register_existing_email_not_conflict :
  (exists u, In u (users Scenario.registered)
             /\ User.email u = RegisterDto.email Scenario.alice)
  /\ ~ (exists message,
          outcome (AuthService.register Scenario.alice Scenario.registered)
          = Throw (ConflictException message))
  /\ ~ (exists message,
          outcome (AuthService.registerWithCookies Scenario.alice
                     Scenario.registered)
          = Throw (ConflictException message)).
Proof.
  split; [|split].
  - eexists. split; [left; reflexivity | reflexivity].
  - intros [message Hm]. vm_compute in Hm. discriminate.
  - intros [message Hm]. vm_compute in Hm. discriminate.
Qed.

(** ** Refresh looks the user up by the email in the token *)

Lemma jwt_verify_Return key token payload (w : World) :
  outcome (jwt_verify key token w) = Return payload ->
  jwt_verify key token w = (Return payload, w)
  /\ token = Jws payload key
  /\ clockTimestamp w < JwtPayload.exp payload.
Proof.
  unfold jwt_verify, outcome. run.
  destruct token as [raw|claims k]; [discriminate|].
  destruct (String.eqb k key) eqn:Ek; [|discriminate].
  destruct (JwtPayload.exp claims <=? clockTimestamp w) eqn:Ee;
    [discriminate|].
  simpl. intros [= ->]. apply String.eqb_eq in Ek as ->.
  apply Z.leb_gt in Ee. auto.
Qed.

(** The query counter aside, a lookup leaves the world alone. *)
Lemma query_cases (w : World) :
  prisma.user.query w = (Throw (PrismaClientKnownRequestError P1001), w)
  \/ exists l, prisma.user.query w
               = (Return tt, mkWorld (users w) (users_id_seq w) (clock w) l).
Proof.
  unfold prisma.user.query. destruct w as [us sq ck [[|n]|]]; simpl; eauto.
Qed.

Lemma findUnique_cases wh (w : World) :
  prisma.user.findUnique wh w
  = (Throw (PrismaClientKnownRequestError P1001), w)
  \/ exists l, prisma.user.findUnique wh w
               = (Return (List.find (prisma.user.matches wh) (users w)),
                  mkWorld (users w) (users_id_seq w) (clock w) l).
Proof.
  unfold prisma.user.findUnique. run.
  destruct (query_cases w) as [-> | [l ->]]; [left|right; exists l];
    reflexivity.
Qed.

(** C10: a refresh token that verifies, but whose email claim no row
    currently carries, is refused with [UnauthorizedException] by both
    variants and the table is not touched, whatever the rows store, so
    also when the row named by [sub] still holds this very token. *)
Theorem refresh_unknown_email_unauthorized
        `{JwtModuleOptions} (refreshToken : Token) (payload : JwtPayload.t)
        (w : World) :
  outcome (JwtService.verify refreshToken w) = Return payload ->
  (forall u, In u (users w) -> User.email u <> JwtPayload.email payload) ->
  (outcome (AuthService.refreshTokens refreshToken w)
   = Throw (UnauthorizedException "Invalid refresh token")
   /\ users (after (AuthService.refreshTokens refreshToken w)) = users w)
  /\ (outcome (AuthService.refreshTokensWithCookies refreshToken w)
      = Throw (UnauthorizedException "Invalid refresh token")
      /\ users (after (AuthService.refreshTokensWithCookies refreshToken w))
         = users w).
Proof.
  intros Hv Hno. apply find_WhereEmail_None in Hno.
  unfold JwtService.verify in Hv.
  apply jwt_verify_Return in Hv as (Hv & _ & _).
  unfold AuthService.refreshTokens, AuthService.refreshTokensWithCookies,
    JwtService.verify, UserService.findByEmail. run.
  rewrite Hv.
  destruct (findUnique_cases (prisma.user.WhereEmail (JwtPayload.email payload))
              w) as [-> | [l ->]].
  - split; split; reflexivity.
  - rewrite Hno. split; split; reflexivity.
Qed.

Lemma refresh_unknown_email_unauthorized_witness :
  (outcome (AuthService.refreshTokens alice_refresh renamed)
   = Throw (UnauthorizedException "Invalid refresh token")
   /\ users (after (AuthService.refreshTokens alice_refresh renamed))
      = users renamed)
  /\ (outcome (AuthService.refreshTokensWithCookies alice_refresh renamed)
      = Throw (UnauthorizedException "Invalid refresh token")
      /\ users (after (AuthService.refreshTokensWithCookies alice_refresh
                         renamed))
         = users renamed).
Proof.
  apply (refresh_unknown_email_unauthorized alice_refresh
           (JwtPayload.mk "a@x.com" 1 1700000000 1700604800) renamed).
  - reflexivity.
  - intros u [<-|[]]. vm_compute. discriminate.
Defined.

(** In that scenario the row named by the token's [sub] still stores the
    presented token. *)
Example renamed_row_still_holds_token :
  slot renamed 1 = [Some alice_refresh].
Proof. reflexivity. Qed.

(** ** Weakest preconditions of the primitives *)

Lemma wp_ret {A} (a : A) Q E (w : World) : Q a w -> wp (mret a) Q E w.
Proof. auto. Qed.

Lemma wp_throw {A} e (Q : A -> World -> Prop) E (w : World) :
  E e w -> wp (throw e) Q E w.
Proof. auto. Qed.

Lemma wp_bind {A B} (m : M A) (k : A -> M B) Q E (w : World) :
  wp m (fun a w' => wp (k a) Q E w') E w -> wp (m ≫= k) Q E w.
Proof. unfold wp. run. destruct (m w) as [[a|e] w']; auto. Qed.

Lemma wp_try_catch {A} (m : M A) (h : Exception -> M A) Q E (w : World) :
  wp m Q (fun e w' => wp (h e) Q E w') w -> wp (try_catch m h) Q E w.
Proof. unfold wp. run. destruct (m w) as [[a|e] w']; auto. Qed.

Lemma wp_mono {A} (m : M A) (Q Q' : A -> World -> Prop)
      (E E' : Exception -> World -> Prop) (w : World) :
  wp m Q E w ->
  (forall a w', Q a w' -> Q' a w') ->
  (forall e w', E e w' -> E' e w') ->
  wp m Q' E' w.
Proof. unfold wp. destruct (m w) as [[a|e] w']; auto. Qed.

Lemma wp_get Q E (w : World) : Q w w -> wp get Q E w.
Proof. auto. Qed.

Lemma wp_put w' Q E (w : World) : Q tt w' -> wp (put w') Q E w.
Proof. auto. Qed.

Lemma wp_query Q E (w : World) :
  (link w = Some O -> E (PrismaClientKnownRequestError P1001) w) ->
  (forall l, (healthy w -> l = None) -> Q tt (relink l w)) ->
  wp prisma.user.query Q E w.
Proof.
  intros HE HQ. unfold wp, prisma.user.query.
  destruct w as [us sq ck [[|n]|]]; simpl.
  - now apply HE.
  - apply (HQ (Some n)). discriminate.
  - now apply (HQ None).
Qed.

Lemma wp_findUnique wh Q E (w : World) :
  (link w = Some O -> E (PrismaClientKnownRequestError P1001) w) ->
  (forall l, (healthy w -> l = None) ->
             Q (List.find (prisma.user.matches wh) (users w)) (relink l w)) ->
  wp (prisma.user.findUnique wh) Q E w.
Proof.
  intros HE HQ. unfold prisma.user.findUnique.
  apply wp_bind, wp_query; [exact HE|]. intros l Hl.
  apply wp_bind, wp_get, wp_ret. now apply HQ.
Qed.

Lemma wp_findMany Q E (w : World) :
  (link w = Some O -> E (PrismaClientKnownRequestError P1001) w) ->
  (forall l, (healthy w -> l = None) -> Q (users w) (relink l w)) ->
  wp prisma.user.findMany Q E w.
Proof.
  intros HE HQ. unfold prisma.user.findMany.
  apply wp_bind, wp_query; [exact HE|]. intros l Hl.
  apply wp_bind, wp_get, wp_ret. now apply HQ.
Qed.

Lemma wp_create data Q E (w : World) :
  (link w = Some O -> E (PrismaClientKnownRequestError P1001) w) ->
  (forall l, (healthy w -> l = None) ->
     let u := prisma.user.inserted data w in
     if existsb (fun r => String.eqb (User.email r) (User.email u)
                          || Z.eqb (User.id r) (User.id u)) (users w)
     then E (PrismaClientKnownRequestError P2002)
            (mkWorld (users w) (prisma.user.drawn data w) (clock w) l)
     else Q u (mkWorld (users w ++ [u]) (prisma.user.drawn data w)
                       (clock w) l)) ->
  wp (prisma.user.create data) Q E w.
Proof.
  intros HE HQ. unfold prisma.user.create.
  apply wp_bind, wp_query; [exact HE|]. intros l Hl.
  apply wp_bind, wp_get. specialize (HQ l Hl). cbv zeta in HQ |- *.
  change (prisma.user.inserted data (relink l w))
    with (prisma.user.inserted data w).
  change (prisma.user.drawn data (relink l w))
    with (prisma.user.drawn data w).
  cbn [users clock link relink].
  destruct (existsb _ (users w)).
  - apply wp_bind, wp_put, wp_throw. exact HQ.
  - apply wp_bind, wp_put, wp_ret. exact HQ.
Qed.

Lemma wp_update wh data Q E (w : World) :
  (link w = Some O -> E (PrismaClientKnownRequestError P1001) w) ->
  (forall l, (healthy w -> l = None) ->
     match List.find (prisma.user.matches wh) (users w) with
     | None => E (PrismaClientKnownRequestError P2025) (relink l w)
     | Some u =>
         if UserUncheckedUpdateInput.no_keys data
         then Q u (relink l w)
         else if prisma.user.unique_taken (users w) u data
         then E (PrismaClientKnownRequestError P2002) (relink l w)
         else Q (prisma.user.overwrite (clock w) data u)
                (prisma.user.store
                   (List.map (fun r => if prisma.user.matches wh r
                                       then prisma.user.overwrite (clock w)
                                                                  data r
                                       else r) (users w))
                   (relink l w))
     end) ->
  wp (prisma.user.update wh data) Q E w.
Proof.
  intros HE HQ. unfold prisma.user.update.
  apply wp_bind, wp_query; [exact HE|]. intros l Hl.
  apply wp_bind, wp_get. specialize (HQ l Hl). simpl.
  destruct (List.find _ (users w)) as [u|].
  - destruct (UserUncheckedUpdateInput.no_keys data).
    + now apply wp_ret.
    + destruct (prisma.user.unique_taken _ _ _).
      * now apply wp_throw.
      * apply wp_bind, wp_put, wp_ret. exact HQ.
  - now apply wp_throw.
Qed.

Lemma wp_delete wh Q E (w : World) :
  (link w = Some O -> E (PrismaClientKnownRequestError P1001) w) ->
  (forall l, (healthy w -> l = None) ->
     match List.find (prisma.user.matches wh) (users w) with
     | None => E (PrismaClientKnownRequestError P2025) (relink l w)
     | Some u =>
         Q u (prisma.user.store
                (List.filter (fun r => negb (prisma.user.matches wh r))
                             (users w))
                (relink l w))
     end) ->
  wp (prisma.user.delete wh) Q E w.
Proof.
  intros HE HQ. unfold prisma.user.delete.
  apply wp_bind, wp_query; [exact HE|]. intros l Hl.
  apply wp_bind, wp_get. specialize (HQ l Hl). simpl.
  destruct (List.find _ (users w)) as [u|].
  - apply wp_bind, wp_put, wp_ret. exact HQ.
  - now apply wp_throw.
Qed.

Lemma wp_jwt_verify key token Q E (w : World) :
  (forall payload,
      token = Jws payload key ->
      clockTimestamp w < JwtPayload.exp payload ->
      Q payload w) ->
  (forall payload, token = Jws payload key ->
                   JwtPayload.exp payload <= clockTimestamp w ->
                   E TokenExpiredError w) ->
  ((forall payload, token <> Jws payload key) -> E JsonWebTokenError w) ->
  wp (jwt_verify key token) Q E w.
Proof.
  intros HQ HX HJ. unfold wp, jwt_verify. run.
  destruct token as [raw|claims k]; [apply HJ; discriminate|].
  destruct (String.eqb k key) eqn:Ek.
  - apply String.eqb_eq in Ek as ->.
    destruct (JwtPayload.exp claims <=? clockTimestamp w) eqn:Ee.
    + apply Z.leb_le in Ee. eapply HX; eauto.
    + apply Z.leb_gt in Ee. now apply HQ.
  - apply String.eqb_neq in Ek. apply HJ. intros p [= -> ->]. now apply Ek.
Qed.

(** The weakest precondition read back as an equation. *)
Lemma wp_Return {A} (m : M A) Q E (w w' : World) a :
  wp m Q E w -> m w = (Return a, w') -> Q a w'.
Proof. unfold wp. intros H Hm. now rewrite Hm in H. Qed.

Lemma wp_Throw {A} (m : M A) Q E (w w' : World) e :
  wp m Q E w -> m w = (Throw e, w') -> E e w'.
Proof. unfold wp. intros H Hm. now rewrite Hm in H. Qed.

(** ** What the services do, whatever the state of the link *)

Lemma drift_refl (w : World) : drift w w.
Proof. repeat split; auto. Qed.

Lemma writes_drift rows (w w1 w2 : World) :
  drift w w1 -> writes rows w1 w2 -> writes rows w w2.
Proof.
  intros (Hu & Hs & Hc & Hh) (Hu' & Hs' & Hc' & Hh').
  repeat split; try congruence. auto.
Qed.

Lemma drift_trans (w w1 w2 : World) : drift w w1 -> drift w1 w2 -> drift w w2.
Proof.
  intros Hd (Hu & Hs & Hc & Hh). eapply writes_drift; [exact Hd|].
  repeat split; auto. destruct Hd as (Hu1 & _). congruence.
Qed.

Lemma drift_relink l (w : World) :
  (healthy w -> l = None) -> drift w (relink l w).
Proof. intros Hl. repeat split. exact Hl. Qed.

Lemma drift_healthy (w w' : World) : healthy w -> drift w w' -> w' = w.
Proof.
  intros Hh (Hu & Hs & Hc & Hl). specialize (Hl Hh).
  destruct w, w'; unfold healthy in *; simpl in *. congruence.
Qed.

Lemma writes_healthy rows (w w' : World) :
  healthy w -> writes rows w w' -> w' = prisma.user.store rows w.
Proof.
  intros Hh (Hu & Hs & Hc & Hl). specialize (Hl Hh).
  destruct w, w'; unfold healthy, prisma.user.store in *; simpl in *.
  congruence.
Qed.

Lemma issued_drift `{JwtModuleOptions} (w w' : World) email sub e :
  drift w w' -> issued w' email sub e = issued w email sub e.
Proof.
  intros (_ & _ & Hc & _). unfold issued, clockTimestamp. now rewrite Hc.
Qed.

Lemma wp_sign `{JwtModuleOptions} payload e Q E (w : World) :
  Q (issued w (Payload.email payload) (Payload.sub payload) e) w ->
  wp (JwtService.sign payload e) Q E w.
Proof. auto. Qed.

Lemma findByEmail_spec email (w : World) :
  wp (UserService.findByEmail email)
     (fun r w' =>
        r = List.find (prisma.user.matches (prisma.user.WhereEmail email))
                      (users w)
        /\ drift w w')
     (fun e w' => outage e w /\ w' = w)
     w.
Proof.
  apply wp_findUnique.
  - intros Hl. repeat split. unfold healthy. congruence.
  - intros l Hl. split; [reflexivity | now apply drift_relink].
Qed.

Lemma updateRefreshToken_spec userId refreshToken (w : World) :
  wp (UserService.updateRefreshToken userId refreshToken)
     (fun _ w' =>
        (exists u, In u (users w) /\ User.id u = userId)
        /\ writes (set_refreshToken (clock w) userId refreshToken (users w))
                  w w')
     (fun e w' =>
        drift w w'
        /\ (outage e w
            \/ (e = PrismaClientKnownRequestError P2025
                /\ forall u, In u (users w) -> User.id u <> userId)))
     w.
Proof.
  unfold UserService.updateRefreshToken.
  apply wp_bind, wp_update.
  - intros Hl. split; [apply drift_refl|]. left. split; [reflexivity|].
    unfold healthy. congruence.
  - intros l Hl.
    destruct (List.find _ (users w)) as [u|] eqn:Ef.
    + apply find_some in Ef as [Hin Hm]. simpl in Hm. apply Z.eqb_eq in Hm.
      simpl. apply wp_ret. split; [eauto|].
      repeat split. exact Hl.
    + split; [now apply drift_relink|]. right. split; [reflexivity|].
      intros u Hin Hid. eapply find_none in Ef; [|exact Hin].
      simpl in Ef. apply Z.eqb_neq in Ef. contradiction.
Qed.

(** ** The cookie variants run the same logic *)

Lemma loginWithCookies_login `{bcrypt.impl} `{JwtModuleOptions}
      (loginDto : LoginDto.t) (w : World) :
  AuthService.loginWithCookies loginDto w
  = map_result repackage (AuthService.login loginDto w).
Proof.
  unfold AuthService.loginWithCookies, AuthService.login,
    AuthService.validateUser. run.
  destruct (UserService.findByEmail _ w) as [[[u|]|e] w1]; simpl;
    try reflexivity.
  destruct (bcrypt.compare _ _); simpl; try reflexivity.
  destruct (UserService.updateRefreshToken _ _ w1) as [[[]|e] w2];
    reflexivity.
Qed.

Lemma registerWithCookies_register `{bcrypt.impl} `{JwtModuleOptions}
      (registerDto : UserUncheckedCreateInput.t) (w : World) :
  AuthService.registerWithCookies registerDto w
  = map_result repackage (AuthService.register registerDto w).
Proof.
  unfold AuthService.registerWithCookies, AuthService.register. run.
  destruct (UserService.findByEmail _ w) as [[[u|]|e] w1]; simpl;
    try reflexivity.
  destruct (UserService.create _ w1) as [[o|e] w2]; simpl; try reflexivity.
  destruct (UserService.updateRefreshToken _ _ w2) as [[[]|e] w3];
    reflexivity.
Qed.

Lemma refreshTokensWithCookies_refreshTokens `{JwtModuleOptions}
      (refreshToken : Token) (w : World) :
  AuthService.refreshTokensWithCookies refreshToken w
  = AuthService.refreshTokens refreshToken w.
Proof. reflexivity. Qed.

(** ** Login *)

Lemma login_spec `{bcrypt.impl} `{JwtModuleOptions}
      (loginDto : LoginDto.t) (w : World) :
  wp (AuthService.login loginDto)
     (fun r w' =>
        exists u,
          List.find (prisma.user.matches
                       (prisma.user.WhereEmail (LoginDto.email loginDto)))
                    (users w) = Some u
          /\ bcrypt.compare (LoginDto.password loginDto) (User.password u)
             = true
          /\ r = AuthResponse.mk
                   (issued w (User.email u) (User.id u) (Minutes 15))
                   (issued w (User.email u) (User.id u) (Days 7))
                   (AuthUser.mk (User.id u) (User.email u) (User.name u))
          /\ writes (set_refreshToken (clock w) (User.id u)
                       (Some (issued w (User.email u) (User.id u) (Days 7)))
                       (users w))
                    w w')
     (fun e w' =>
        drift w w'
        /\ (outage e w
            \/ (e = UnauthorizedException "Invalid credentials"
                /\ (List.find (prisma.user.matches
                                 (prisma.user.WhereEmail
                                    (LoginDto.email loginDto)))
                              (users w) = None
                    \/ exists u,
                      List.find (prisma.user.matches
                                   (prisma.user.WhereEmail
                                      (LoginDto.email loginDto)))
                                (users w) = Some u
                      /\ bcrypt.compare (LoginDto.password loginDto)
                                        (User.password u) = false))))
     w.
Proof.
  unfold AuthService.login, AuthService.validateUser.
  apply wp_bind, wp_bind.
  eapply wp_mono; [apply findByEmail_spec | |].
  2:{ intros e w' [Ho ->]. split; [apply drift_refl | now left]. }
  intros r w1 [-> Hd]. simpl.
  destruct (List.find _ (users w)) as [u|] eqn:Ef.
  2:{ apply wp_ret, wp_throw. split; [exact Hd|]. right. auto. }
  destruct (bcrypt.compare _ _) eqn:Ec.
  2:{ apply wp_ret, wp_throw. split; [exact Hd|]. right. eauto. }
  apply wp_ret. simpl.
  apply wp_bind, wp_sign, wp_bind, wp_sign, wp_bind. simpl.
  rewrite !(issued_drift w w1) by exact Hd.
  eapply wp_mono; [apply updateRefreshToken_spec | |].
  - intros _ w2 [_ Hw]. apply wp_ret. exists u.
    split; [reflexivity|]. split; [exact Ec|]. split; [reflexivity|].
    eapply writes_drift; [exact Hd|].
    destruct Hd as (Hu & _ & Hc & _). now rewrite Hu, Hc in Hw.
  - intros e w2 [Hd2 [Ho | [-> Hno]]].
    + split; [now apply (drift_trans w w1 w2)|]. left.
      destruct Ho as [-> Hn]. split; [reflexivity|].
      intros Hh. apply Hn. now apply Hd.
    + exfalso. apply find_some in Ef as [Hin _].
      apply (Hno u); [|reflexivity].
      destruct Hd as (Hu & _). now rewrite Hu.
Qed.

Lemma set_refreshToken_In t i tok rows (u' : User.t) :
  In u' (set_refreshToken t i tok rows) ->
  exists u, In u rows /\ User.id u' = User.id u
            /\ User.email u' = User.email u
            /\ (User.id u = i -> User.refreshToken u' = tok)
            /\ (User.id u <> i -> u' = u).
Proof.
  unfold set_refreshToken. intros Hin. apply in_map_iff in Hin as (u & <- & Hin).
  exists u. simpl. destruct (Z.eqb_spec (User.id u) i) as [Hi|Hi]; simpl.
  - repeat split; auto. contradiction.
  - repeat split; auto. contradiction.
Qed.

Lemma set_refreshToken_stored t i tok rows (u' : User.t) :
  In u' (set_refreshToken t i tok rows) ->
  User.id u' = i -> User.refreshToken u' = tok.
Proof.
  intros Hin Hi. apply set_refreshToken_In in Hin as (u & _ & Hid & _ & Hs & _).
  apply Hs. congruence.
Qed.

Lemma set_refreshToken_row t i tok rows :
  (exists u : User.t, In u rows /\ User.id u = i) ->
  exists u', In u' (set_refreshToken t i tok rows) /\ User.id u' = i.
Proof.
  intros (u & Hin & Hi).
  exists (prisma.user.patch t
            (prisma.user.mkUpdate None None None None (Some tok)) u).
  split; [|exact Hi]. unfold set_refreshToken. apply in_map_iff.
  exists u. split; [|exact Hin]. simpl.
  now rewrite (proj2 (Z.eqb_eq _ _) Hi).
Qed.

Lemma issued_verifies `{JwtModuleOptions} (w w' : World) email sub e :
  clock w' = clock w -> 0 < seconds e ->
  JwtService.verify (issued w email sub e) w'
  = (Return (JwtPayload.mk email sub (clockTimestamp w)
                           (clockTimestamp w + seconds e)), w').
Proof.
  intros Hc He. unfold JwtService.verify, jwt_verify, issued. run.
  rewrite String.eqb_refl. simpl.
  assert (Hc' : clockTimestamp w' = clockTimestamp w)
    by (unfold clockTimestamp; now rewrite Hc).
  rewrite Hc'.
  destruct (Z.leb_spec (clockTimestamp w + seconds e) (clockTimestamp w));
    [lia | reflexivity].
Qed.

(** C8: with the store reachable, [login] and [loginWithCookies] throw
    [UnauthorizedException] exactly when no row carries the email or the
    password does not verify against the stored hash; otherwise they return
    an access and a refresh token that [JwtService.verify] accepts for that
    user, and every row of the user then stores the returned refresh
    token. *)
Theorem login_unauthorized_iff_bad_credentials
        `{bcrypt.impl} `{JwtModuleOptions} (loginDto : LoginDto.t) (w : World) :
  healthy w ->
  let found := List.find (prisma.user.matches
                            (prisma.user.WhereEmail (LoginDto.email loginDto)))
                         (users w) in
  let bad :=
    (forall u, In u (users w) -> User.email u <> LoginDto.email loginDto)
    \/ exists u, found = Some u
                 /\ bcrypt.compare (LoginDto.password loginDto)
                                   (User.password u) = false in
  ((exists message, outcome (AuthService.login loginDto w)
                    = Throw (UnauthorizedException message)) <-> bad)
  /\ ((exists message, outcome (AuthService.loginWithCookies loginDto w)
                       = Throw (UnauthorizedException message)) <-> bad)
  /\ (~ bad ->
      exists r w',
        AuthService.login loginDto w = (Return r, w')
        /\ AuthService.loginWithCookies loginDto w = (Return (repackage r), w')
        /\ (exists p, outcome (JwtService.verify (AuthResponse.access_token r)
                                 w') = Return p
                      /\ JwtPayload.sub p = AuthUser.id (AuthResponse.user r)
                      /\ JwtPayload.email p
                         = AuthUser.email (AuthResponse.user r))
        /\ (exists p, outcome (JwtService.verify (AuthResponse.refresh_token r)
                                 w') = Return p
                      /\ JwtPayload.sub p = AuthUser.id (AuthResponse.user r)
                      /\ JwtPayload.email p
                         = AuthUser.email (AuthResponse.user r))
        /\ (exists u', In u' (users w')
                       /\ User.id u' = AuthUser.id (AuthResponse.user r)
                       /\ User.email u' = LoginDto.email loginDto)
        /\ (forall u', In u' (users w') ->
                       User.id u' = AuthUser.id (AuthResponse.user r) ->
                       User.refreshToken u'
                       = Some (AuthResponse.refresh_token r))).
Proof.
  intros Hh found bad.
  pose proof (login_spec loginDto w) as Hspec.
  rewrite !loginWithCookies_login.
  destruct (AuthService.login loginDto w) as [[r|e] w'] eqn:Hrun.
  - (* returned *)
    eapply wp_Return in Hspec; [|exact Hrun].
    destruct Hspec as (u & Hf & Hc & -> & Hw).
    assert (Hgood : ~ bad).
    { intros [Hno | (u0 & Hf0 & Hc0)].
      - apply find_some in Hf as [Hin Hm]. simpl in Hm.
        apply String.eqb_eq in Hm. now apply (Hno u).
      - unfold found in Hf0. congruence. }
    simpl. split; [|split].
    + split; [intros [m Hm]; discriminate | intros; contradiction].
    + split; [intros [m Hm]; discriminate | intros; contradiction].
    + intros _. eexists _, w'. split; [reflexivity|]. split; [reflexivity|].
      simpl. pose proof Hw as (Hu & Hs & Hck & _).
      split; [|split; [|split]].
      * eexists. rewrite issued_verifies by (auto || reflexivity).
        simpl. auto.
      * eexists. rewrite issued_verifies by (auto || reflexivity).
        simpl. auto.
      * apply find_some in Hf as [Hin Hm]. simpl in Hm.
        apply String.eqb_eq in Hm. rewrite Hu.
        exists (prisma.user.patch (clock w)
                  (prisma.user.mkUpdate None None None None
                     (Some (Some (issued w (User.email u) (User.id u)
                                    (Days 7))))) u).
        split; [|split; [reflexivity | exact Hm]].
        unfold set_refreshToken. apply in_map_iff. exists u.
        split; [|exact Hin]. simpl. now rewrite Z.eqb_refl.
      * intros u' Hin' Hid'. rewrite Hu in Hin'.
        now apply set_refreshToken_stored in Hin'.
  - (* threw *)
    eapply wp_Throw in Hspec; [|exact Hrun].
    destruct Hspec as (Hd & [[-> Ho] | (-> & Hb)]); [contradiction|].
    assert (Hbad : bad).
    { destruct Hb as [Hn | Hb]; [left | right; exact Hb].
      intros u Hin He. eapply find_none in Hn; [|exact Hin].
      simpl in Hn. rewrite He, String.eqb_refl in Hn. discriminate. }
    simpl. split; [|split].
    + split; [auto | eauto].
    + split; [auto | eauto].
    + intros Hn. contradiction.
Qed.

Lemma login_unauthorized_iff_bad_credentials_witness :
  (exists message,
      outcome (AuthService.login (LoginDto.mk "a@x.com" "wrong") registered)
      = Throw (UnauthorizedException message))
  /\ (exists message,
         outcome (AuthService.login (LoginDto.mk "z@x.com" "p1") registered)
         = Throw (UnauthorizedException message))
  /\ exists r w',
      AuthService.login (LoginDto.mk "a@x.com" "p1") (elapse 5000 registered)
      = (Return r, w')
      /\ slot w' 1 = [Some (AuthResponse.refresh_token r)]
      /\ AuthResponse.refresh_token r <> alice_refresh.
Proof.
  split; [|split].
  - pose proof (login_unauthorized_iff_bad_credentials
                  (LoginDto.mk "a@x.com" "wrong") registered eq_refl) as Hw.
    cbv zeta in Hw. destruct Hw as (Hw & _). apply Hw.
    right. eexists. split; reflexivity.
  - pose proof (login_unauthorized_iff_bad_credentials
                  (LoginDto.mk "z@x.com" "p1") registered eq_refl) as Hw.
    cbv zeta in Hw. destruct Hw as (Hw & _). apply Hw.
    left. intros u [<-|[]]. vm_compute. discriminate.
  - pose proof (login_unauthorized_iff_bad_credentials
                  (LoginDto.mk "a@x.com" "p1") (elapse 5000 registered)
                  eq_refl) as Hw.
    cbv zeta in Hw. destruct Hw as (_ & _ & Hw).
    destruct Hw as (r & w' & Hrun & _).
    + intros [Hno | (u & Hf & Hc)].
      * apply (Hno (User.mk 1 "a@x.com" "A" "$2b$10$p1" None
                            (Some alice_refresh) 1700000000250
                            1700000000250)); [left|]; reflexivity.
      * vm_compute in Hf. injection Hf as <-. vm_compute in Hc. discriminate.
    + exists r, w'. split; [exact Hrun|].
      vm_compute in Hrun. injection Hrun as <- <-.
      split; [reflexivity | vm_compute; discriminate].
Defined.

(** ** Refresh *)

Lemma refreshTokens_spec `{JwtModuleOptions} (refreshToken : Token) (w : World) :
  wp (AuthService.refreshTokens refreshToken)
     (fun r w' =>
        exists payload u,
          refreshToken = Jws payload secret
          /\ clockTimestamp w < JwtPayload.exp payload
          /\ List.find (prisma.user.matches
                          (prisma.user.WhereEmail (JwtPayload.email payload)))
                       (users w) = Some u
          /\ User.refreshToken u = Some refreshToken
          /\ r = TokenResponse.mk
                   (issued w (User.email u) (User.id u) (Minutes 15))
                   (issued w (User.email u) (User.id u) (Days 7))
          /\ writes (set_refreshToken (clock w) (User.id u)
                       (Some (issued w (User.email u) (User.id u) (Days 7)))
                       (users w))
                    w w')
     (fun e w' =>
        e = UnauthorizedException "Invalid refresh token"
        /\ drift w w'
        /\ (~ healthy w
            \/ (forall payload, refreshToken <> Jws payload secret)
            \/ exists payload,
                refreshToken = Jws payload secret
                /\ (JwtPayload.exp payload <= clockTimestamp w
                    \/ List.find (prisma.user.matches
                                    (prisma.user.WhereEmail
                                       (JwtPayload.email payload)))
                                 (users w) = None
                    \/ exists u,
                      List.find (prisma.user.matches
                                   (prisma.user.WhereEmail
                                      (JwtPayload.email payload)))
                                (users w) = Some u
                      /\ User.refreshToken u <> Some refreshToken)))
     w.
Proof.
  unfold AuthService.refreshTokens.
  apply wp_try_catch, wp_bind. unfold JwtService.verify.
  apply wp_jwt_verify.
  2:{ intros p -> Hexp. apply wp_throw. split; [reflexivity|].
      split; [apply drift_refl|]. right. right. eauto. }
  2:{ intros Hno. apply wp_throw. split; [reflexivity|].
      split; [apply drift_refl|]. auto. }
  intros payload -> Hexp. apply wp_bind.
  eapply wp_mono; [apply findByEmail_spec | |].
  2:{ intros e w' [[_ Ho] ->]. apply wp_throw. split; [reflexivity|].
      split; [apply drift_refl|]. now left. }
  intros r w1 [-> Hd]. simpl.
  destruct (List.find _ (users w)) as [u|] eqn:Ef.
  2:{ apply wp_throw. split; [reflexivity|]. split; [exact Hd|].
      right. right. eauto. }
  case_bool_decide as Hst.
  2:{ apply wp_throw. split; [reflexivity|]. split; [exact Hd|].
      right. right. exists payload. split; [reflexivity|]. right. right.
      eauto. }
  apply wp_bind, wp_sign, wp_bind, wp_sign, wp_bind. simpl.
  rewrite !(issued_drift w w1) by exact Hd.
  eapply wp_mono; [apply updateRefreshToken_spec | |].
  - intros _ w2 [_ Hw]. apply wp_ret. exists payload, u.
    repeat (split; [reflexivity || assumption|]).
    eapply writes_drift; [exact Hd|].
    destruct Hd as (Hu & _ & Hc & _). now rewrite Hu, Hc in Hw.
  - intros e w2 [Hd2 Hcause]. apply wp_throw. split; [reflexivity|].
    split; [now apply (drift_trans w w1 w2)|].
    destruct Hcause as [[_ Ho] | [_ Hno]].
    + left. intros Hh. apply Ho. now apply Hd.
    + exfalso. apply find_some in Ef as [Hin _].
      apply (Hno u); [|reflexivity].
      destruct Hd as (Hu & _). now rewrite Hu.
Qed.

Lemma find_set_refreshToken wh t i tok rows :
  (forall d (r : User.t),
      prisma.user.matches wh (prisma.user.patch t
         (prisma.user.mkUpdate None None None None d) r)
      = prisma.user.matches wh r) ->
  List.find (prisma.user.matches wh) (set_refreshToken t i tok rows)
  = option_map
      (fun r => if prisma.user.matches (prisma.user.WhereId i) r
                then prisma.user.patch t
                       (prisma.user.mkUpdate None None None None (Some tok)) r
                else r)
      (List.find (prisma.user.matches wh) rows).
Proof.
  intros Hm. unfold set_refreshToken.
  induction rows as [|r rows IH]; [reflexivity|]. simpl.
  destruct (User.id r =? i) eqn:Ei.
  - rewrite Hm. destruct (prisma.user.matches wh r); [|exact IH].
    simpl. now rewrite Ei.
  - destruct (prisma.user.matches wh r); [|exact IH].
    simpl. now rewrite Ei.
Qed.

Lemma matches_patch_token wh t d (r : User.t) :
  prisma.user.matches wh
    (prisma.user.patch t (prisma.user.mkUpdate None None None None d) r)
  = prisma.user.matches wh r.
Proof. destruct wh; reflexivity. Qed.

Lemma verify_Jws `{JwtModuleOptions} payload (w : World) :
  clockTimestamp w < JwtPayload.exp payload ->
  JwtService.verify (Jws payload secret) w = (Return payload, w).
Proof.
  intros Hexp. unfold JwtService.verify, jwt_verify. run.
  rewrite String.eqb_refl.
  destruct (Z.leb_spec (JwtPayload.exp payload) (clockTimestamp w));
    [lia | reflexivity].
Qed.

Lemma verify_throws `{JwtModuleOptions} token (w : World) :
  (forall payload, token <> Jws payload secret)
  \/ (exists payload, token = Jws payload secret
                      /\ JwtPayload.exp payload <= clockTimestamp w) ->
  exists e, outcome (JwtService.verify token w) = Throw e.
Proof.
  unfold JwtService.verify, jwt_verify, outcome. run.
  intros [Hno | (p & -> & Hexp)].
  - destruct token as [raw|claims k]; [eauto|].
    destruct (String.eqb_spec k secret) as [->|Hk]; [|eauto].
    now destruct (Hno claims).
  - rewrite String.eqb_refl.
    destruct (Z.leb_spec (JwtPayload.exp p) (clockTimestamp w)); [eauto|lia].
Qed.

(** The part of C2 the code keeps.  With the store reachable, Refresh (either
    variant) throws [UnauthorizedException] exactly when the token fails
    verification or the row resolved from its email claim, if any, does not
    store the presented token.  On success it returns the pair signed at
    the current second for the resolved row and writes the new refresh
    token over the slot.  Presenting the old token again, at any later
    time, is then refused provided the new refresh token differs from it,
    which it does whenever the old token does not carry the current second
    as its [iat]. *)
Theorem refresh_rotates_stored_token
        `{JwtModuleOptions} (refresh : Token -> M TokenResponse.t)
        (refreshToken : Token) (w : World) :
  refresh = AuthService.refreshTokens
  \/ refresh = AuthService.refreshTokensWithCookies ->
  healthy w ->
  let mismatch :=
    exists payload,
      outcome (JwtService.verify refreshToken w) = Return payload
      /\ forall u,
          outcome (UserService.findByEmail (JwtPayload.email payload) w)
          = Return (Some u) ->
          User.refreshToken u <> Some refreshToken in
  ((exists message, outcome (refresh refreshToken w)
                    = Throw (UnauthorizedException message))
   <-> (exists e, outcome (JwtService.verify refreshToken w) = Throw e)
       \/ mismatch)
  /\ (forall r w',
         refresh refreshToken w = (Return r, w') ->
         (exists u,
             In u (users w)
             /\ User.refreshToken u = Some refreshToken
             /\ TokenResponse.access_token r
                = issued w (User.email u) (User.id u) (Minutes 15)
             /\ TokenResponse.refresh_token r
                = issued w (User.email u) (User.id u) (Days 7)
             /\ forall u', In u' (users w') -> User.id u' = User.id u ->
                           User.refreshToken u'
                           = Some (TokenResponse.refresh_token r))
         /\ (forall payload key,
                refreshToken = Jws payload key ->
                JwtPayload.iat payload <> clockTimestamp w ->
                TokenResponse.refresh_token r <> refreshToken)
         /\ (TokenResponse.refresh_token r <> refreshToken ->
             forall ms, 0 <= ms ->
               refresh refreshToken (elapse ms w')
               = (Throw (UnauthorizedException "Invalid refresh token"),
                  elapse ms w'))).
Proof.
  intros Hrefresh Hh mismatch.
  assert (Hsame : refresh = AuthService.refreshTokens)
    by (destruct Hrefresh as [-> | ->]; reflexivity).
  subst refresh. clear Hrefresh.
  pose proof (refreshTokens_spec refreshToken w) as Hspec.
  split.
  - (* when it is refused *)
    destruct (AuthService.refreshTokens refreshToken w) as [[r|e] w'] eqn:Hrun.
    + eapply wp_Return in Hspec; [|exact Hrun].
      destruct Hspec as (p & u & -> & Hexp & Hf & Hst & _).
      split; [intros [m Hm]; discriminate|].
      intros [[e He] | (p' & Hv & Hmis)].
      * rewrite verify_Jws in He by exact Hexp. discriminate.
      * rewrite verify_Jws in Hv by exact Hexp. injection Hv as <-.
        exfalso. apply (Hmis u); [|exact Hst].
        rewrite findByEmail_healthy by exact Hh. simpl. now rewrite Hf.
    + eapply wp_Throw in Hspec; [|exact Hrun].
      destruct Hspec as (-> & _ & Hcause).
      split; [|intros _; simpl; eauto].
      intros _.
      destruct Hcause as [Hn | [Hno | (p & -> & [Hexp | Hrow])]];
        [contradiction | left | left |].
      * apply verify_throws. now left.
      * apply verify_throws. right. eauto.
      * destruct (Z.le_gt_cases (JwtPayload.exp p) (clockTimestamp w))
          as [Hexp | Hexp].
        { left. apply verify_throws. right. eauto. }
        right. exists p. rewrite verify_Jws by lia.
        split; [reflexivity|]. intros u.
        rewrite findByEmail_healthy by exact Hh. simpl.
        destruct Hrow as [-> | (u0 & -> & Hne)]; [discriminate|].
        now intros [= <-].
  - (* when it succeeds *)
    intros r w' Hrun.
    eapply wp_Return in Hspec; [|exact Hrun].
    destruct Hspec as (p & u & -> & Hexp & Hf & Hst & -> & Hw).
    apply writes_healthy in Hw; [|exact Hh]. subst w'. simpl.
    split; [|split].
    + exists u. apply find_some in Hf as Hin. destruct Hin as [Hin _].
      repeat (split; [reflexivity || assumption|]).
      intros u' Hin' Hid. now apply set_refreshToken_stored in Hin'.
    + intros p' k [= <- <-] Hiat Heq. unfold issued in Heq.
      injection Heq as Heq. apply Hiat. now rewrite <- Heq.
    + intros Hnew ms Hms.
      set (w2 := elapse ms _).
      assert (Hh2 : healthy w2) by exact Hh.
      pose proof (refreshTokens_spec (Jws p secret) w2) as Hspec2.
      destruct (AuthService.refreshTokens (Jws p secret) w2)
        as [[r2|e2] w3] eqn:Hrun2.
      * exfalso. eapply wp_Return in Hspec2; [|exact Hrun2].
        destruct Hspec2 as (p2 & u2 & [= <-] & _ & Hf2 & Hst2 & _).
        unfold w2 in Hf2. simpl in Hf2.
        rewrite find_set_refreshToken in Hf2
          by (intros; apply matches_patch_token).
        rewrite Hf in Hf2. simpl in Hf2. rewrite Z.eqb_refl in Hf2.
        injection Hf2 as <-. simpl in Hst2. congruence.
      * eapply wp_Throw in Hspec2; [|exact Hrun2].
        destruct Hspec2 as (-> & Hd & _).
        apply drift_healthy in Hd; [|exact Hh2]. now subst w3.
Qed.

Lemma refresh_rotates_stored_token_witness :
  exists r w',
    AuthService.refreshTokens alice_refresh (elapse 2000 registered)
    = (Return r, w')
    /\ TokenResponse.refresh_token r <> alice_refresh
    /\ AuthService.refreshTokens alice_refresh (elapse 500 w')
       = (Throw (UnauthorizedException "Invalid refresh token"),
          elapse 500 w').
Proof.
  destruct (refresh_rotates_stored_token AuthService.refreshTokens
              alice_refresh (elapse 2000 registered)
              (or_introl eq_refl) eq_refl) as [_ Hok].
  destruct (AuthService.refreshTokens alice_refresh (elapse 2000 registered))
    as [r w'] eqn:Hrun.
  vm_compute in Hrun. injection Hrun as <- <-.
  eexists _, _. split; [reflexivity|].
  destruct (Hok _ _ eq_refl) as (_ & Hnew & Hold).
  assert (Hdiff : TokenResponse.refresh_token
                    (TokenResponse.mk
                       (Jws (JwtPayload.mk "a@x.com" 1 1700000002 1700000902)
                            "s3cret")
                       (Jws (JwtPayload.mk "a@x.com" 1 1700000002 1700604802)
                            "s3cret"))
                  <> alice_refresh)
    by (apply (Hnew _ _ eq_refl); vm_compute; discriminate).
  split; [exact Hdiff|].
  apply (Hold Hdiff 500). lia.
Defined.

(** C2 at its failing input: Alice registers, and refreshes 300 ms later,
    within the second in which her token was issued.  The pair she gets
    back carries the very same refresh token, the overwrite leaves it in
    her slot, and presenting it once more, another 300 ms later, succeeds
    again instead of being refused. *)
Lemma refresh_same_second_token_survives :
  AuthService.register alice empty
  = (Return (AuthResponse.mk alice_access alice_refresh
               (AuthUser.mk 1 "a@x.com" "A")),
     registered)
  /\ exists r w',
      AuthService.refreshTokens alice_refresh (elapse 300 registered)
      = (Return r, w')
      /\ TokenResponse.refresh_token r = alice_refresh
      /\ slot w' 1 = [Some alice_refresh]
      /\ (exists r',
             outcome (AuthService.refreshTokens alice_refresh (elapse 300 w'))
             = Return r')
      /\ exists r',
          outcome (AuthService.refreshTokensWithCookies alice_refresh
                     (elapse 300 w'))
          = Return r'.
Proof.
  split; [reflexivity|].
  eexists _, _. split; [vm_compute; reflexivity|].
  split; [reflexivity|]. split; [reflexivity|].
  split; eexists; vm_compute; reflexivity.
Qed.

(** ** The guard *)

Lemma findOne_healthy id (w : World) :
  healthy w ->
  UserService.findOne id w
  = (Return (option_map (prisma.user.project select_public)
               (List.find (prisma.user.matches (prisma.user.WhereId id))
                          (users w))), w).
Proof.
  intros Hh. unfold UserService.findOne. run.
  now rewrite findUnique_healthy.
Qed.

(** C7: a request whose token verifies under the strategy's key is
    answered by the store: if no row carries the subject id, [validate]
    and the guard throw [UnauthorizedException]; if one does, they yield
    [{ userId, email }] as read from the token, and the world is as it
    was. *)
Theorem guard_rejects_deleted_subject
        `{ProcessEnv} (req : Request) (token : Token) (payload : JwtPayload.t)
        (w : World) :
  healthy w ->
  JwtStrategy.jwtFromRequest req = Some token ->
  outcome (jwt_verify JwtStrategy.secretOrKey token w) = Return payload ->
  ((forall u, In u (users w) -> User.id u <> JwtPayload.sub payload) ->
   JwtStrategy.validate payload w
   = (Throw (UnauthorizedException "Unauthorized"), w)
   /\ JwtStrategy.canActivate req w
      = (Throw (UnauthorizedException "Unauthorized"), w))
  /\ ((exists u, In u (users w) /\ User.id u = JwtPayload.sub payload) ->
      JwtStrategy.validate payload w
      = (Return (mkRequestUser (JwtPayload.sub payload)
                               (JwtPayload.email payload)), w)
      /\ JwtStrategy.canActivate req w
         = (Return (mkRequestUser (JwtPayload.sub payload)
                                  (JwtPayload.email payload)), w)).
Proof.
  intros Hh Hreq Hv. apply jwt_verify_Return in Hv as (Hv & _ & _).
  unfold JwtStrategy.canActivate. rewrite Hreq. run. rewrite Hv.
  unfold JwtStrategy.validate. run. rewrite findOne_healthy by exact Hh.
  split.
  - intros Hno. apply find_WhereId_None in Hno. rewrite Hno.
    split; reflexivity.
  - intros Hex. apply find_WhereId_Some in Hex as (u & -> & _).
    split; reflexivity.
Qed.

Lemma guard_rejects_deleted_subject_witness :
  JwtStrategy.canActivate with_cookie deleted
  = (Throw (UnauthorizedException "Unauthorized"), deleted)
  /\ JwtStrategy.canActivate with_header registered
     = (Return (mkRequestUser 1 "a@x.com"), registered)
  /\ JwtStrategy.canActivate with_cookie renamed
     = (Return (mkRequestUser 1 "a@x.com"), renamed).
Proof.
  split; [|split].
  - apply (guard_rejects_deleted_subject with_cookie alice_access
             (JwtPayload.mk "a@x.com" 1 1700000000 1700000900) deleted);
      try reflexivity.
    intros u [].
  - apply (guard_rejects_deleted_subject with_header alice_access
             (JwtPayload.mk "a@x.com" 1 1700000000 1700000900) registered);
      try reflexivity.
    eexists. split; [left; reflexivity | reflexivity].
  - apply (guard_rejects_deleted_subject with_cookie alice_access
             (JwtPayload.mk "a@x.com" 1 1700000000 1700000900) renamed);
      try reflexivity.
    eexists. split; [left; reflexivity | reflexivity].
Defined.

(** ** Public projections *)

Lemma project_public_hides (u : User.t) :
  hides_secrets (prisma.user.project select_public u).
Proof. split; reflexivity. Qed.

Lemma on_return_wp {A} (m : M A) (P : A -> Prop) (w : World) :
  wp m (fun a _ => P a) (fun _ _ => True) w -> on_return P (outcome (m w)).
Proof. unfold wp, outcome. now destruct (m w) as [[a|e] w']. Qed.

(** C4: whatever the table holds and whatever id and patch are given,
    the objects returned by [findAll], [findOne] and [update] have neither
    a [password] nor a [refreshToken] key. *)
Theorem public_projections_hide_secrets
        (w : World) (id : Z) (data : PartialCreateUserDto.t) :
  on_return (Forall hides_secrets) (outcome (UserService.findAll w))
  /\ on_return (from_option hides_secrets True)
               (outcome (UserService.findOne id w))
  /\ on_return (from_option hides_secrets True)
               (outcome (UserService.update id data w)).
Proof.
  split; [|split]; apply on_return_wp.
  - unfold UserService.findAll. apply wp_bind, wp_findMany; [auto|].
    intros l _. apply wp_ret. apply Forall_forall.
    intros o Hin. apply list_elem_of_In, in_map_iff in Hin as (u & <- & _).
    apply project_public_hides.
  - unfold UserService.findOne. apply wp_bind, wp_findUnique; [auto|].
    intros l _. apply wp_ret.
    destruct (List.find _ (users w)); simpl; [apply project_public_hides|auto].
  - unfold UserService.update. apply wp_bind, wp_update; [auto|].
    intros l _. destruct (List.find _ (users w)); [|auto].
    destruct (UserUncheckedUpdateInput.no_keys _);
      [apply wp_ret; simpl; apply project_public_hides|].
    destruct (prisma.user.unique_taken _ _ _); [auto|].
    apply wp_ret. simpl. apply project_public_hides.
Qed.

(** The projections are not empty: the public columns are all there. *)
Example findOne_alice :
  exists o, outcome (UserService.findOne 1 registered) = Return (Some o)
            /\ size o = 6%nat
            /\ o !! "id" = Some (VNumber 1)
            /\ o !! "email" = Some (VString "a@x.com")
            /\ o !! "name" = Some (VString "A")
            /\ o !! "age" = Some VNull
            /\ o !! "createdAt" = Some (VDate 1700000000250)
            /\ o !! "updatedAt" = Some (VDate 1700000000250).
Proof. eexists. repeat split. Qed.

(** ** Register *)

Lemma number_prop_public_id (u : User.t) :
  number_prop (prisma.user.project select_public u) "id" = User.id u.
Proof. reflexivity. Qed.

Lemma string_prop_public_email (u : User.t) :
  string_prop (prisma.user.project select_public u) "email" = User.email u.
Proof. reflexivity. Qed.

Lemma string_prop_public_name (u : User.t) :
  string_prop (prisma.user.project select_public u) "name" = User.name u.
Proof. reflexivity. Qed.

Lemma find_None_existsb e (rows : list User.t) :
  List.find (prisma.user.matches (prisma.user.WhereEmail e)) rows = None ->
  existsb (fun r => String.eqb (User.email r) e) rows = false.
Proof.
  induction rows as [|r rows IH]; [reflexivity|]. simpl.
  destruct (String.eqb (User.email r) e); [discriminate | exact IH].
Qed.

Lemma inserted_drift data (w w' : World) :
  drift w w' ->
  prisma.user.inserted data w' = prisma.user.inserted data w
  /\ prisma.user.drawn data w' = prisma.user.drawn data w.
Proof.
  intros (_ & Hs & Hc & _). unfold prisma.user.inserted, prisma.user.drawn.
  now rewrite Hs, Hc.
Qed.

Lemma register_spec `{bcrypt.impl} `{JwtModuleOptions}
      (registerDto : UserUncheckedCreateInput.t) (w : World) :
  let found :=
    List.find (prisma.user.matches
                 (prisma.user.WhereEmail
                    (UserUncheckedCreateInput.email registerDto)))
              (users w) in
  let data :=
    UserUncheckedCreateInput.with_password registerDto
      (bcrypt.hash (UserUncheckedCreateInput.password registerDto) 10) in
  let row := prisma.user.inserted data w in
  let taken :=
    existsb (fun r => String.eqb (User.email r) (User.email row)
                      || Z.eqb (User.id r) (User.id row)) (users w) in
  let access :=
    issued w (User.email row) (User.id row) (Minutes 15) in
  let refresh :=
    issued w (User.email row) (User.id row) (Days 7) in
  wp (AuthService.register registerDto)
     (fun r w' =>
        found = None
        /\ r = AuthResponse.mk access refresh
                 (AuthUser.mk (User.id row) (User.email row) (User.name row))
        /\ users w' = set_refreshToken (clock w) (User.id row) (Some refresh)
                        (users w ++ [row])
        /\ users_id_seq w' = prisma.user.drawn data w
        /\ clock w' = clock w
        /\ (healthy w -> healthy w')
        /\ taken = false)
     (fun e w' =>
        clock w' = clock w
        /\ (healthy w -> healthy w')
        /\ ((e = UnauthorizedException "User already exists"
             /\ (exists u, found = Some u)
             /\ users w' = users w
             /\ users_id_seq w' = users_id_seq w)
            \/ (e = PrismaClientKnownRequestError P2002
                /\ found = None
                /\ taken = true
                /\ users w' = users w
                /\ users_id_seq w' = prisma.user.drawn data w)
            \/ (outage e w
                /\ ((users w' = users w
                     /\ users_id_seq w' = users_id_seq w)
                    \/ (found = None
                        /\ taken = false
                        /\ users w' = users w ++ [row]
                        /\ users_id_seq w' = prisma.user.drawn data w)))))
     w.
Proof.
  intros found data row taken access refresh.
  unfold AuthService.register.
  apply wp_bind.
  eapply wp_mono; [apply findByEmail_spec | |].
  2:{ intros e w' [Ho ->]. repeat split; auto. right. right. auto. }
  intros r w1 [-> Hd]. fold found.
  destruct found as [u|] eqn:Ef.
  { apply wp_throw. destruct Hd as (Hu & Hs & Hc & Hl).
    repeat split; auto. left. eauto. }
  pose proof Hd as (Hu & Hs & Hc & Hl).
  apply wp_bind. unfold UserService.create.
  apply wp_bind, wp_create.
  { intros Hdown. repeat split; auto. right. right. split.
    - split; [reflexivity|]. intros Hh. apply Hl in Hh.
      unfold healthy in Hh. congruence.
    - left. auto. }
  intros l Hl1. fold data. cbv zeta.
  destruct (inserted_drift data w w1 Hd) as [-> ->]. fold row.
  rewrite Hu, Hc. fold taken.
  destruct taken eqn:Et.
  { repeat split; auto.
    - intros Hh. unfold healthy. simpl. auto.
    - right. left. repeat split; auto. }
  apply wp_ret.
  rewrite number_prop_public_id, string_prop_public_email,
    string_prop_public_name.
  apply wp_bind, wp_sign, wp_bind, wp_sign, wp_bind.
  set (w2 := mkWorld (users w ++ [row]) (prisma.user.drawn data w)
                     (clock w) l).
  assert (Hi : forall e, issued w2 (User.email row) (User.id row) e
                         = issued w (User.email row) (User.id row) e)
    by reflexivity.
  simpl Payload.email. simpl Payload.sub. rewrite !Hi.
  fold access. fold refresh.
  assert (Hl2 : healthy w -> healthy w2)
    by (intros Hh; unfold healthy, w2; simpl; auto).
  eapply wp_mono; [apply updateRefreshToken_spec | |].
  - intros _ w3 [_ (Hu3 & Hs3 & Hc3 & Hl3)]. apply wp_ret.
    repeat split; auto.
  - intros e w3 [(Hu3 & Hs3 & Hc3 & Hl3) Hcause].
    destruct Hcause as [[-> Ho] | [_ Hno]].
    + repeat split; auto. right. right. split.
      * split; [reflexivity|]. intros Hh. apply Ho.
        unfold healthy, w2. simpl. auto.
      * right. auto.
    + exfalso. apply (Hno row); [|reflexivity].
      unfold w2. simpl. apply in_or_app. right. now left.
Qed.

(** ** Which failures are rewritten *)


Lemma outcome_Return {A} (m : M A) (w : World) a :
  outcome (m w) = Return a -> exists w', m w = (Return a, w').
Proof.
  unfold outcome. destruct (m w) as [r w']. simpl. intros ->. eauto.
Qed.





(** ** The invariant of the table *)

Lemma map_id_set_refreshToken t i tok rows :
  List.map User.id (set_refreshToken t i tok rows) = List.map User.id rows.
Proof.
  unfold set_refreshToken. rewrite List.map_map. apply List.map_ext.
  intros r. now destruct (prisma.user.matches _ r).
Qed.

Lemma NoDup_map_filter {A B} (f : A -> B) (p : A -> bool) (l : list A) :
  NoDup (List.map f l) -> NoDup (List.map f (List.filter p l)).
Proof.
  induction l as [|a l IH]; simpl; [auto|].
  intros Hnd. apply NoDup_cons in Hnd as [Hnotin Hnd].
  destruct (p a); simpl; [|auto].
  apply NoDup_cons. split; [|auto].
  intros Hin. apply Hnotin.
  apply list_elem_of_In, in_map_iff in Hin as (x & Hx & Hin).
  apply filter_In in Hin as [Hin _].
  apply list_elem_of_In, in_map_iff. eauto.
Qed.

(** An insert that passed the check of the primary key keeps the ids
    apart. *)
Lemma NoDup_inserted (rows : list User.t) (u : User.t) :
  NoDup (List.map User.id rows) ->
  existsb (fun r => String.eqb (User.email r) (User.email u)
                    || Z.eqb (User.id r) (User.id u)) rows = false ->
  NoDup (List.map User.id (rows ++ [u])).
Proof.
  intros Hnd Hfree. rewrite List.map_app. simpl. apply NoDup_app.
  split; [exact Hnd|]. split; [|apply NoDup_singleton].
  intros x Hx Hx'. apply list_elem_of_In in Hx, Hx'.
  destruct Hx' as [<-|[]].
  apply in_map_iff in Hx as (r & Hr & Hin).
  assert (Hm : existsb (fun r => String.eqb (User.email r) (User.email u)
                                 || Z.eqb (User.id r) (User.id u)) rows
               = true).
  { apply existsb_exists. exists r. split; [exact Hin|].
    apply orb_true_iff. right. now apply Z.eqb_eq. }
  congruence.
Qed.

Lemma unique_taken_id (rows : list User.t) (u : User.t) d j :
  prisma.user.unique_taken rows u d = false ->
  UserUncheckedUpdateInput.id d = Some j ->
  forall r, In r rows -> User.id r <> User.id u -> User.id r <> j.
Proof.
  unfold prisma.user.unique_taken. intros Hfree Hj r Hin Hne Heq.
  apply orb_false_iff in Hfree as [_ Hfree]. rewrite Hj in Hfree.
  assert (Hm : existsb (fun r => negb (Z.eqb (User.id r) (User.id u))
                                 && Z.eqb (User.id r) j) rows = true).
  { apply existsb_exists. exists r. split; [exact Hin|].
    apply andb_true_intro. split.
    - apply negb_true_iff. now apply Z.eqb_neq.
    - now apply Z.eqb_eq. }
  congruence.
Qed.

(** An update by id that passed the check of the primary key keeps the
    ids apart, also when it moves the row to another id. *)
Lemma NoDup_overwrite t d i (rows : list User.t) :
  NoDup (List.map User.id rows) ->
  (forall j, UserUncheckedUpdateInput.id d = Some j ->
             forall r, In r rows -> User.id r <> i -> User.id r <> j) ->
  NoDup (List.map User.id
           (List.map (fun r => if prisma.user.matches (prisma.user.WhereId i) r
                               then prisma.user.overwrite t d r
                               else r) rows)).
Proof.
  intros Hnd Hfree.
  destruct (UserUncheckedUpdateInput.id d) as [j|] eqn:Hj.
  2:{ rewrite List.map_map. erewrite List.map_ext; [exact Hnd|].
      intros r. destruct (prisma.user.matches _ r); [|reflexivity].
      simpl. now rewrite Hj. }
  specialize (Hfree j eq_refl).
  induction rows as [|r rows IH]; [constructor|].
  cbn [List.map] in Hnd |- *. apply NoDup_cons in Hnd as [Hnotin Hnd].
  assert (Hrest : forall x,
             In x (List.map User.id
                     (List.map (fun r => if prisma.user.matches
                                              (prisma.user.WhereId i) r
                                         then prisma.user.overwrite t d r
                                         else r) rows)) ->
             exists r', In r' rows
                        /\ (x = User.id r' /\ User.id r' <> i
                            \/ x = j /\ User.id r' = i)).
  { intros x Hx. apply in_map_iff in Hx as (y & <- & Hy).
    apply in_map_iff in Hy as (r' & <- & Hin'). exists r'.
    split; [exact Hin'|]. simpl.
    destruct (Z.eqb_spec (User.id r') i) as [Hi|Hi].
    - right. simpl. now rewrite Hj.
    - left. auto. }
  apply NoDup_cons. split.
  - intros Hin. apply list_elem_of_In, Hrest in Hin as (r' & Hin' & Hcase).
    simpl in Hcase.
    destruct (Z.eqb_spec (User.id r) i) as [Hi|Hi]; simpl in Hcase.
    + rewrite Hj in Hcase. simpl in Hcase.
      destruct Hcase as [[Hx Hne] | [_ Hi']].
      * apply (Hfree r'); [now right | exact Hne | congruence].
      * apply Hnotin. apply list_elem_of_In, in_map_iff. exists r'.
        split; [congruence | exact Hin'].
    + destruct Hcase as [[Hx _] | [Hx _]].
      * apply Hnotin. apply list_elem_of_In, in_map_iff. exists r'.
        split; [congruence | exact Hin'].
      * apply (Hfree r); [now left | exact Hi | exact Hx].
  - apply IH; [exact Hnd|]. intros r' Hin'. apply Hfree. now right.
Qed.

Lemma wf_same (w w' : World) : users w' = users w -> wf w -> wf w'.
Proof. unfold wf. now intros ->. Qed.

Lemma wf_writes rows (w w' : World) :
  writes rows w w' -> NoDup (List.map User.id rows) -> wf w'.
Proof. unfold wf. now intros (-> & _). Qed.

Lemma issued_sub `{JwtModuleOptions} (w : World) email sub e :
  token_sub (issued w email sub e) = Some sub.
Proof. reflexivity. Qed.

Lemma after_map_result {A B} (f : A -> B) (r : Result A * World) :
  after (map_result f r) = after r.
Proof. now destruct r as [[a|e] w']. Qed.

Lemma wp_after {A} (m : M A) (P : World -> Prop) (w : World) :
  wp m (fun _ w' => P w') (fun _ w' => P w') w -> P (after (m w)).
Proof. unfold wp, after. now destruct (m w) as [[a|e] w']. Qed.

Section invariant.
Context `{bcrypt.impl} `{JwtModuleOptions}.

Lemma login_wf loginDto (w : World) :
  wf w -> wf (after (AuthService.login loginDto w)).
Proof.
  intros Hwf. pose proof (login_spec loginDto w) as Hspec.
  unfold wp in Hspec. unfold after.
  destruct (AuthService.login loginDto w) as [[r|e] w']; simpl.
  - destruct Hspec as (u & _ & _ & _ & Hw).
    eapply wf_writes; [exact Hw|]. now rewrite map_id_set_refreshToken.
  - destruct Hspec as (Hd & _). eapply wf_writes; [exact Hd | exact Hwf].
Qed.

Lemma refreshTokens_wf refreshToken (w : World) :
  wf w -> wf (after (AuthService.refreshTokens refreshToken w)).
Proof.
  intros Hwf. pose proof (refreshTokens_spec refreshToken w) as Hspec.
  unfold wp in Hspec. unfold after.
  destruct (AuthService.refreshTokens refreshToken w) as [[r|e] w']; simpl.
  - destruct Hspec as (p & u & _ & _ & _ & _ & _ & Hw).
    eapply wf_writes; [exact Hw|]. now rewrite map_id_set_refreshToken.
  - destruct Hspec as (_ & Hd & _). eapply wf_writes; [exact Hd | exact Hwf].
Qed.

Lemma register_wf registerDto (w : World) :
  wf w -> wf (after (AuthService.register registerDto w)).
Proof.
  intros Hwf. pose proof (register_spec registerDto w) as Hspec.
  cbv zeta in Hspec. unfold wp in Hspec. unfold after.
  destruct (AuthService.register registerDto w) as [[r|e] w']; simpl.
  - destruct Hspec as (_ & _ & Hu & _ & _ & _ & Hfree). unfold wf.
    rewrite Hu, map_id_set_refreshToken. now apply NoDup_inserted.
  - destruct Hspec
      as (_ & _ & [(_ & _ & Hu & _)
                  | [(_ & _ & _ & Hu & _) | (_ & Hcase)]]).
    + now apply (wf_same w).
    + now apply (wf_same w).
    + destruct Hcase as [(Hu & _) | (_ & Hfree & Hu & _)].
      * now apply (wf_same w).
      * unfold wf. rewrite Hu. now apply NoDup_inserted.
Qed.

Lemma updateRefreshToken_wf userId tok (w : World) :
  wf w -> wf (after (UserService.updateRefreshToken userId tok w)).
Proof.
  intros Hwf. pose proof (updateRefreshToken_spec userId tok w) as Hspec.
  unfold wp in Hspec. unfold after.
  destruct (UserService.updateRefreshToken userId tok w) as [[r|e] w']; simpl.
  - destruct Hspec as (_ & Hw). eapply wf_writes; [exact Hw|].
    now rewrite map_id_set_refreshToken.
  - destruct Hspec as (Hd & _). eapply wf_writes; [exact Hd | exact Hwf].
Qed.

Lemma findAll_wf (w : World) : wf w -> wf (after (UserService.findAll w)).
Proof.
  intros Hwf. apply wp_after. unfold UserService.findAll.
  apply wp_bind, wp_findMany; [auto|]. intros l _. now apply wp_ret.
Qed.

Lemma findOne_wf id (w : World) :
  wf w -> wf (after (UserService.findOne id w)).
Proof.
  intros Hwf. apply wp_after. unfold UserService.findOne.
  apply wp_bind, wp_findUnique; [auto|]. intros l _. now apply wp_ret.
Qed.

Lemma update_wf id data (w : World) :
  wf w -> wf (after (UserService.update id data w)).
Proof.
  intros Hwf. apply wp_after. unfold UserService.update.
  apply wp_bind, wp_update; [auto|]. intros l _.
  destruct (List.find _ (users w)) as [u|] eqn:Hf; [|exact Hwf].
  destruct (UserUncheckedUpdateInput.no_keys data);
    [apply wp_ret; exact Hwf|].
  destruct (prisma.user.unique_taken _ _ _) eqn:Hfree; [exact Hwf|].
  apply wp_ret. unfold wf. cbn [users prisma.user.store].
  apply NoDup_overwrite; [exact Hwf|].
  intros j Hj r Hin Hne. apply find_some in Hf as [_ Hm].
  simpl in Hm. apply Z.eqb_eq in Hm.
  apply (unique_taken_id _ _ _ _ Hfree Hj r Hin). congruence.
Qed.

Lemma remove_wf id (w : World) :
  wf w -> wf (after (UserService.remove id w)).
Proof.
  intros Hwf. apply wp_after. unfold UserService.remove.
  apply wp_bind, wp_delete; [auto|]. intros l _.
  destruct (List.find _ (users w)); [|exact Hwf].
  apply wp_ret. now apply NoDup_map_filter.
Qed.

Lemma serve_wf (c : Call) (w : World) : wf w -> wf (serve c w).
Proof.
  intros Hwf. destruct c; simpl.
  - now apply register_wf.
  - rewrite registerWithCookies_register, after_map_result.
    now apply register_wf.
  - now apply login_wf.
  - rewrite loginWithCookies_login, after_map_result. now apply login_wf.
  - now apply refreshTokens_wf.
  - now apply refreshTokens_wf.
  - now apply updateRefreshToken_wf.
  - now apply findAll_wf.
  - now apply findOne_wf.
  - now apply update_wf.
  - now apply remove_wf.
Qed.

Lemma reachable_wf (w : World) : reachable w -> wf w.
Proof.
  induction 1 as [w [Hu Hs] | w w' _ IH Hstep].
  - unfold wf. rewrite Hu. constructor.
  - destruct Hstep as [c w | ms w _ | l w].
    + now apply serve_wf.
    + exact IH.
    + exact IH.
Qed.

End invariant.

(** ** One slot per user *)

Lemma filter_id_absent (rows : list User.t) i :
  ~ In i (List.map User.id rows) ->
  List.filter (fun u => Z.eqb (User.id u) i) rows = [].
Proof.
  induction rows as [|r rows IH]; [reflexivity|]. simpl. intros Hnot.
  destruct (Z.eqb_spec (User.id r) i) as [Hi|Hi].
  - exfalso. apply Hnot. now left.
  - apply IH. intros Hin. apply Hnot. now right.
Qed.

Lemma filter_id_unique (rows : list User.t) i :
  NoDup (List.map User.id rows) ->
  (length (List.filter (fun u => Z.eqb (User.id u) i) rows) <= 1)%nat.
Proof.
  induction rows as [|r rows IH]; simpl; [lia|]. intros Hnd.
  apply NoDup_cons in Hnd as [Hnot Hnd].
  destruct (Z.eqb_spec (User.id r) i) as [Hi|Hi]; [|auto].
  rewrite filter_id_absent; [simpl; lia|].
  rewrite <- Hi. intros Hin. apply Hnot. now apply list_elem_of_In.
Qed.

Lemma filter_id_row (rows : list User.t) i :
  NoDup (List.map User.id rows) ->
  (exists u, In u rows /\ User.id u = i) ->
  exists u, List.filter (fun u => Z.eqb (User.id u) i) rows = [u]
            /\ In u rows /\ User.id u = i.
Proof.
  intros Hnd (u & Hin & Hi).
  assert (Hf : In u (List.filter (fun u => Z.eqb (User.id u) i) rows))
    by (apply filter_In; split; [exact Hin | now apply Z.eqb_eq]).
  pose proof (filter_id_unique rows i Hnd) as Hlen.
  destruct (List.filter _ rows) as [|u0 [|u1 rest]]; simpl in *.
  - contradiction.
  - destruct Hf as [->|[]]. eauto.
  - lia.
Qed.

Lemma NoDup_id_eq (rows : list User.t) (u1 u2 : User.t) :
  NoDup (List.map User.id rows) ->
  In u1 rows -> In u2 rows -> User.id u1 = User.id u2 -> u1 = u2.
Proof.
  intros Hnd H1 H2 Hid.
  destruct (filter_id_row rows (User.id u1) Hnd) as (u & Hf & _); [eauto|].
  assert (In u1 (List.filter (fun u => Z.eqb (User.id u) (User.id u1)) rows))
    by (apply filter_In; split; [exact H1 | apply Z.eqb_refl]).
  assert (In u2 (List.filter (fun u => Z.eqb (User.id u) (User.id u1)) rows))
    by (apply filter_In; split; [exact H2 | now apply Z.eqb_eq]).
  rewrite Hf in *. simpl in *. intuition congruence.
Qed.

Lemma filter_set_refreshToken uid t i tok rows :
  List.filter (fun u => Z.eqb (User.id u) uid) (set_refreshToken t i tok rows)
  = set_refreshToken t i tok
      (List.filter (fun u => Z.eqb (User.id u) uid) rows).
Proof.
  unfold set_refreshToken.
  set (f := fun r : User.t => if prisma.user.matches _ r then _ else r).
  assert (Hid : forall r, User.id (f r) = User.id r)
    by (intros r; unfold f; now destruct (prisma.user.matches _ r)).
  induction rows as [|r rows IH]; [reflexivity|].
  cbn [List.map List.filter]. rewrite Hid.
  destruct (Z.eqb (User.id r) uid); cbn [List.map]; now rewrite IH.
Qed.

Lemma set_refreshToken_untouched t i tok (rows : list User.t) :
  (forall r, In r rows -> User.id r <> i) ->
  set_refreshToken t i tok rows = rows.
Proof.
  intros Hne. unfold set_refreshToken.
  rewrite <- (List.map_id rows) at 2. apply List.map_ext_in.
  intros r Hin. simpl.
  destruct (Z.eqb_spec (User.id r) i) as [Hi|Hi]; [|reflexivity].
  now apply Hne in Hin.
Qed.

Lemma slot_set_refreshToken_same t i tok rows :
  NoDup (List.map User.id rows) ->
  (exists u : User.t, In u rows /\ User.id u = i) ->
  List.map User.refreshToken
    (List.filter (fun u => Z.eqb (User.id u) i) (set_refreshToken t i tok rows))
  = [tok].
Proof.
  intros Hnd Hex. rewrite filter_set_refreshToken.
  destruct (filter_id_row rows i Hnd Hex) as (u & -> & _ & Hi).
  simpl. now rewrite (proj2 (Z.eqb_eq _ _) Hi).
Qed.

Lemma slot_set_refreshToken_other uid t i tok rows :
  uid <> i ->
  List.map User.refreshToken
    (List.filter (fun u => Z.eqb (User.id u) uid)
                 (set_refreshToken t i tok rows))
  = List.map User.refreshToken
      (List.filter (fun u => Z.eqb (User.id u) uid) rows).
Proof.
  intros Hne. rewrite filter_set_refreshToken.
  rewrite set_refreshToken_untouched; [reflexivity|].
  intros r Hin. apply filter_In in Hin as [_ Hid].
  apply Z.eqb_eq in Hid. congruence.
Qed.

Lemma slot_writes_same t i tok (w w' : World) :
  wf w ->
  (exists u, In u (users w) /\ User.id u = i) ->
  writes (set_refreshToken t i tok (users w)) w w' ->
  slot w' i = [tok] /\ forall uid, uid <> i -> slot w' uid = slot w uid.
Proof.
  intros Hnd Hex (Hu & _). unfold slot, rows_of. rewrite Hu. split.
  - now apply slot_set_refreshToken_same.
  - intros uid Hne. now apply slot_set_refreshToken_other.
Qed.

(** C5: in every reachable state a user has at most one row, hence one
    refresh-token slot, and at most one token can be exchanged for a pair
    of that user.  A successful Register, Login or Refresh leaves exactly
    the refresh token it returned in the slot of its user, a successful
    Logout leaves [null] there, and none of them touches the slot of
    another user.  The cookie variants are the same computations with the
    result repackaged. *)
Theorem one_refresh_token_per_user
        `{bcrypt.impl} `{JwtModuleOptions} (w : World) :
  reachable w ->
  (forall uid, (length (slot w uid) <= 1)%nat)
  /\ (forall uid t1 t2,
         redeemable w uid t1 -> redeemable w uid t2 -> t1 = t2)
  /\ (forall registerDto r w',
         AuthService.register registerDto w = (Return r, w') ->
         slot w (AuthUser.id (AuthResponse.user r)) = []
         /\ slot w' (AuthUser.id (AuthResponse.user r))
            = [Some (AuthResponse.refresh_token r)]
         /\ forall uid, uid <> AuthUser.id (AuthResponse.user r) ->
                        slot w' uid = slot w uid)
  /\ (forall loginDto r w',
         AuthService.login loginDto w = (Return r, w') ->
         slot w' (AuthUser.id (AuthResponse.user r))
         = [Some (AuthResponse.refresh_token r)]
         /\ forall uid, uid <> AuthUser.id (AuthResponse.user r) ->
                        slot w' uid = slot w uid)
  /\ (forall refreshToken r w',
         AuthService.refreshTokens refreshToken w = (Return r, w') ->
         exists uid,
           token_sub (TokenResponse.refresh_token r) = Some uid
           /\ slot w uid = [Some refreshToken]
           /\ slot w' uid = [Some (TokenResponse.refresh_token r)]
           /\ forall uid', uid' <> uid -> slot w' uid' = slot w uid')
  /\ (forall userId w',
         AuthService.logout userId w = (Return tt, w') ->
         slot w' userId = [None]
         /\ forall uid, uid <> userId -> slot w' uid = slot w uid)
  /\ (forall registerDto loginDto refreshToken,
         AuthService.registerWithCookies registerDto w
         = map_result repackage (AuthService.register registerDto w)
         /\ AuthService.loginWithCookies loginDto w
            = map_result repackage (AuthService.login loginDto w)
         /\ AuthService.refreshTokensWithCookies refreshToken w
            = AuthService.refreshTokens refreshToken w).
Proof.
  intros Hreach. pose proof (reachable_wf w Hreach) as Hwf.
  pose proof Hwf as Hnd. unfold wf in Hnd.
  split; [|split; [|split; [|split; [|split; [|split]]]]].
  - intros uid. unfold slot, rows_of. rewrite length_map.
    now apply filter_id_unique.
  - intros uid t1 t2 (r1 & Hr1 & Hs1) (r2 & Hr2 & Hs2).
    apply outcome_Return in Hr1 as [w1 Hr1].
    apply outcome_Return in Hr2 as [w2 Hr2].
    pose proof (refreshTokens_spec t1 w) as Hspec1.
    pose proof (refreshTokens_spec t2 w) as Hspec2.
    eapply wp_Return in Hspec1; [|exact Hr1].
    eapply wp_Return in Hspec2; [|exact Hr2].
    destruct Hspec1 as (p1 & u1 & _ & _ & Hf1 & Hst1 & -> & _).
    destruct Hspec2 as (p2 & u2 & _ & _ & Hf2 & Hst2 & -> & _).
    simpl in Hs1, Hs2. injection Hs1 as Hs1. injection Hs2 as Hs2.
    apply find_some in Hf1 as [Hin1 _]. apply find_some in Hf2 as [Hin2 _].
    assert (u1 = u2) by (apply (NoDup_id_eq (users w)); congruence).
    congruence.
  - intros dto r w' Hrun.
    pose proof (register_spec dto w) as Hspec. cbv zeta in Hspec.
    eapply wp_Return in Hspec; [|exact Hrun].
    destruct Hspec as (_ & -> & Hu & _ & _ & _ & Hfree).
    set (row := prisma.user.inserted _ w) in *.
    cbn [AuthResponse.user AuthResponse.refresh_token AuthUser.id].
    assert (Hfresh : ~ In (User.id row) (List.map User.id (users w))).
    { intros Hin. apply in_map_iff in Hin as (u & Hid & Hin).
      assert (Hm : existsb
                     (fun r => String.eqb (User.email r) (User.email row)
                               || Z.eqb (User.id r) (User.id row))
                     (users w) = true).
      { apply existsb_exists. exists u. split; [exact Hin|].
        apply orb_true_iff. right. now apply Z.eqb_eq. }
      congruence. }
    assert (Hnd' : NoDup (List.map User.id (users w ++ [row])))
      by now apply NoDup_inserted.
    unfold slot, rows_of. rewrite Hu. split; [|split].
    + now rewrite filter_id_absent.
    + apply slot_set_refreshToken_same; [exact Hnd'|].
      exists row. split; [|reflexivity]. apply in_or_app. right. now left.
    + intros uid Hne. rewrite slot_set_refreshToken_other by exact Hne.
      rewrite List.filter_app. cbn [List.filter].
      destruct (Z.eqb_spec (User.id row) uid) as [Heq|_]; [congruence|].
      now rewrite app_nil_r.
  - intros dto r w' Hrun.
    pose proof (login_spec dto w) as Hspec.
    eapply wp_Return in Hspec; [|exact Hrun].
    destruct Hspec as (u & Hf & _ & -> & Hw). simpl.
    apply find_some in Hf as [Hin _].
    eapply slot_writes_same; [exact Hwf | eauto | exact Hw].
  - intros tok r w' Hrun.
    pose proof (refreshTokens_spec tok w) as Hspec.
    eapply wp_Return in Hspec; [|exact Hrun].
    destruct Hspec as (p & u & _ & _ & Hf & Hst & -> & Hw). simpl.
    apply find_some in Hf as [Hin _].
    exists (User.id u). split; [reflexivity|]. split.
    + unfold slot, rows_of.
      destruct (filter_id_row (users w) (User.id u) Hnd) as (u0 & -> & Hin0 & Hid0);
        [eauto|].
      assert (u0 = u) by (apply (NoDup_id_eq (users w)); auto).
      subst u0. simpl. now rewrite Hst.
    + eapply slot_writes_same; [exact Hwf | eauto | exact Hw].
  - intros userId w' Hrun.
    pose proof (updateRefreshToken_spec userId None w) as Hspec.
    eapply wp_Return in Hspec; [|exact Hrun].
    destruct Hspec as (Hex & Hw).
    eapply slot_writes_same; [exact Hwf | exact Hex | exact Hw].
  - intros rdto ldto tok. split; [|split].
    + apply registerWithCookies_register.
    + apply loginWithCookies_login.
    + apply refreshTokensWithCookies_refreshTokens.
Qed.

Lemma one_refresh_token_per_user_witness :
  slot (elapse 2000 registered) 1 = [Some alice_refresh]
  /\ (forall t, redeemable (elapse 2000 registered) 1 t -> t = alice_refresh)
  /\ forall r w',
      AuthService.login (LoginDto.mk "a@x.com" "p1") (elapse 2000 registered)
      = (Return r, w') ->
      slot w' 1 = [Some (AuthResponse.refresh_token r)].
Proof.
  assert (Hreach : reachable (elapse 2000 registered)).
  { apply (reachable_step registered); [|apply step_time; lia].
    apply (reachable_step empty).
    - apply reachable_initial. split; reflexivity.
    - exact (step_call (CallRegister alice) empty). }
  destruct (one_refresh_token_per_user (elapse 2000 registered) Hreach)
    as (_ & Hone & _ & Hlogin & _).
  split; [reflexivity|]. split.
  - intros t Ht. apply (Hone 1); [exact Ht|].
    eexists. split; reflexivity.
  - intros r w' Hrun. pose proof (Hlogin _ r w' Hrun) as [Hslot _].
    vm_compute in Hrun. injection Hrun as <- <-. exact Hslot.
Defined.

(** ** Logout *)

Lemma set_refreshToken_twice t i tok (rows : list User.t) :
  set_refreshToken t i tok (set_refreshToken t i tok rows)
  = set_refreshToken t i tok rows.
Proof.
  unfold set_refreshToken. rewrite List.map_map. apply List.map_ext.
  intros r. simpl. destruct (Z.eqb (User.id r) i) eqn:Ei; simpl; now rewrite Ei.
Qed.

Lemma logout_healthy userId (w : World) :
  healthy w ->
  (exists u, In u (users w) /\ User.id u = userId) ->
  AuthService.logout userId w
  = (Return tt,
     prisma.user.store (set_refreshToken (clock w) userId None (users w)) w).
Proof.
  intros Hh Hex. pose proof (updateRefreshToken_spec userId None w) as Hspec.
  unfold AuthService.logout.
  destruct (UserService.updateRefreshToken userId None w) as [[[]|e] w'] eqn:Hrun.
  - eapply wp_Return in Hspec; [|exact Hrun]. destruct Hspec as (_ & Hw).
    apply writes_healthy in Hw; [|exact Hh]. now subst w'.
  - eapply wp_Throw in Hspec; [|exact Hrun].
    destruct Hspec as (_ & [[_ Hn] | [_ Hno]]); [contradiction|].
    destruct Hex as (u & Hin & Hid). now apply Hno in Hin.
Qed.

Lemma rows_of_unique (w : World) (u : User.t) :
  NoDup (List.map User.id (users w)) ->
  In u (users w) ->
  rows_of w (User.id u) = [u].
Proof.
  intros Hnd Hin. unfold rows_of.
  destruct (filter_id_row (users w) (User.id u) Hnd) as (u0 & -> & Hin0 & Hid0);
    [eauto|].
  f_equal. now apply (NoDup_id_eq (users w)).
Qed.

(** C6, as the code has it.  For a user who has a row, with the store
    reachable, Logout returns and writes [null] into the refresh-token
    column of that row whatever it held, stamps its [updatedAt], and
    leaves every other column and every other row as it was.  Applied
    again at the same reading of the clock it changes nothing; applied
    again later it moves [updatedAt] to the time of the second call and
    changes nothing else.  From the first logout on, at any later time, a
    Refresh (either variant) that presents a token the slot held, and that
    no other row stores, is refused with [UnauthorizedException]. *)
Theorem logout_clears_refresh_token
        `{JwtModuleOptions} (w : World) (u : User.t) :
  NoDup (List.map User.id (users w)) ->
  healthy w ->
  In u (users w) ->
  let cleared t :=
    User.mk (User.id u) (User.email u) (User.name u) (User.password u)
            (User.age u) None (User.createdAt u) t in
  exists w1,
    AuthService.logout (User.id u) w = (Return tt, w1)
    /\ rows_of w1 (User.id u) = [cleared (clock w)]
    /\ slot w1 (User.id u) = [None]
    /\ (forall uid, uid <> User.id u -> rows_of w1 uid = rows_of w uid)
    /\ AuthService.logout (User.id u) w1 = (Return tt, w1)
    /\ (forall ms,
          exists w2,
            AuthService.logout (User.id u) (elapse ms w1) = (Return tt, w2)
            /\ rows_of w2 (User.id u) = [cleared (clock w + ms)]
            /\ (forall uid, uid <> User.id u ->
                            rows_of w2 uid = rows_of w uid))
    /\ (forall t ms,
          User.refreshToken u = Some t ->
          (forall r, In r (users w) -> User.refreshToken r = Some t ->
                     User.id r = User.id u) ->
          AuthService.refreshTokens t (elapse ms w1)
          = (Throw (UnauthorizedException "Invalid refresh token"),
             elapse ms w1)
          /\ AuthService.refreshTokensWithCookies t (elapse ms w1)
             = (Throw (UnauthorizedException "Invalid refresh token"),
                elapse ms w1)).
Proof.
  intros Hnd Hh Hin cleared.
  assert (Hex : exists r, In r (users w) /\ User.id r = User.id u) by eauto.
  set (w1 := prisma.user.store
               (set_refreshToken (clock w) (User.id u) None (users w)) w).
  assert (Hh1 : healthy w1) by exact Hh.
  assert (Hex1 : forall ms,
             exists r, In r (users (elapse ms w1))
                       /\ User.id r = User.id u).
  { intros ms. simpl. now apply set_refreshToken_row. }
  assert (Hrows : forall t rows,
             List.filter (fun r => Z.eqb (User.id r) (User.id u)) rows = [u]
             \/ List.filter (fun r => Z.eqb (User.id r) (User.id u)) rows
                = [cleared (clock w)] ->
             List.filter (fun r => Z.eqb (User.id r) (User.id u))
                         (set_refreshToken t (User.id u) None rows)
             = [cleared t]).
  { intros t rows Hf. rewrite filter_set_refreshToken.
    destruct Hf as [-> | ->]; unfold set_refreshToken; simpl;
      now rewrite Z.eqb_refl. }
  assert (Hothers : forall t uid rows,
             uid <> User.id u ->
             List.filter (fun r => Z.eqb (User.id r) uid)
                         (set_refreshToken t (User.id u) None rows)
             = List.filter (fun r => Z.eqb (User.id r) uid) rows).
  { intros t uid rows Hne. rewrite filter_set_refreshToken.
    apply set_refreshToken_untouched. intros r Hr.
    apply filter_In in Hr as [_ Hid]. apply Z.eqb_eq in Hid. congruence. }
  pose proof (rows_of_unique w u Hnd Hin) as Hu.
  assert (Hu1 : rows_of w1 (User.id u) = [cleared (clock w)]).
  { unfold rows_of, w1. cbn [users prisma.user.store].
    apply Hrows. left. exact Hu. }
  exists w1. split; [now apply logout_healthy|].
  split; [exact Hu1|]. split; [unfold slot; now rewrite Hu1|].
  split; [intros uid Hne; apply Hothers; exact Hne|].
  split; [|split].
  - rewrite logout_healthy; [|exact Hh1|apply (Hex1 0)].
    unfold w1, prisma.user.store. simpl. now rewrite set_refreshToken_twice.
  - intros ms. eexists. split; [|split].
    + apply logout_healthy; [exact Hh1 | apply Hex1].
    + unfold rows_of. cbn [users prisma.user.store elapse clock w1].
      apply Hrows. right. exact Hu1.
    + intros uid Hne. unfold rows_of.
      cbn [users prisma.user.store elapse clock w1].
      rewrite !Hothers by exact Hne. reflexivity.
  - intros t ms Hst Honly.
    assert (Hrefused : AuthService.refreshTokens t (elapse ms w1)
                       = (Throw (UnauthorizedException "Invalid refresh token"),
                          elapse ms w1)); [|split; exact Hrefused].
    pose proof (refreshTokens_spec t (elapse ms w1)) as Hspec.
    destruct (AuthService.refreshTokens t (elapse ms w1))
      as [[r|e] w2] eqn:Hrun.
    + exfalso. eapply wp_Return in Hspec; [|exact Hrun].
      destruct Hspec as (p & u2 & _ & _ & Hf & Hst2 & _).
      apply find_some in Hf as [Hin2 _]. simpl in Hin2.
      apply set_refreshToken_In in Hin2
        as (u0 & Hin0 & Hid0 & _ & Hsame & Hother).
      destruct (Z.eq_dec (User.id u0) (User.id u)) as [Hi|Hi].
      * rewrite (Hsame Hi) in Hst2. discriminate.
      * rewrite (Hother Hi) in Hst2. apply Hi. now apply Honly.
    + eapply wp_Throw in Hspec; [|exact Hrun].
      destruct Hspec as (-> & Hd & _).
      apply drift_healthy in Hd; [|exact Hh1]. now subst w2.
Qed.

Lemma logout_clears_refresh_token_witness :
  exists w1,
    AuthService.logout 1 registered = (Return tt, w1)
    /\ slot registered 1 = [Some alice_refresh]
    /\ slot w1 1 = [None]
    /\ AuthService.logout 1 w1 = (Return tt, w1)
    /\ AuthService.refreshTokens alice_refresh (elapse 2000 w1)
       = (Throw (UnauthorizedException "Invalid refresh token"),
          elapse 2000 w1).
Proof.
  destruct (logout_clears_refresh_token registered
              (User.mk 1 "a@x.com" "A" "$2b$10$p1" None (Some alice_refresh)
                       1700000000250 1700000000250))
    as (w1 & Hrun & _ & Hslot & _ & Hagain & _ & Hrefused).
  - apply NoDup_singleton.
  - reflexivity.
  - left. reflexivity.
  - exists w1. split; [exact Hrun|]. split; [reflexivity|].
    split; [exact Hslot|]. split; [exact Hagain|].
    apply (Hrefused alice_refresh 2000); [reflexivity|].
    intros r [<-|[]] _. reflexivity.
Defined.

(** C6 as stated fails for the second logout: Alice logs out, and two
    seconds later logs out again; both calls return, and the table after
    the second is not the table after the first, the row's [updatedAt]
    having moved. *)
Lemma logout_twice_moves_updatedAt :
  let once := after (AuthService.logout 1 registered) in
  let twice := after (AuthService.logout 1 (elapse 2000 once)) in
  outcome (AuthService.logout 1 registered) = Return tt
  /\ outcome (AuthService.logout 1 (elapse 2000 once)) = Return tt
  /\ users twice <> users once
  /\ List.map User.updatedAt (users once) = [1700000000250]
  /\ List.map User.updatedAt (users twice) = [1700000002250]
  /\ List.map without_updatedAt (users twice)
     = List.map without_updatedAt (users once).
Proof.
  cbv zeta. split; [reflexivity|]. split; [reflexivity|].
  split; [|repeat split].
  intros Heq. apply (f_equal (List.map User.updatedAt)) in Heq.
  vm_compute in Heq. discriminate.
Qed.

(** * Further properties: the handlers, the guard and the rest of the
      services *)

Import Walkthrough.

Ltac run_handler :=
  unfold mbind, H_bind, H_then, mret, H_ret, H_unit, H_throw, await,
    res_cookie in *;
  cbv beta in *.

(** ** [AppController.getHealth] *)

(** The health report never fails and always says [status: 'OK']: with
    the link up it reports [database: 'connected'], with the link down
    [database: 'error'], and the initial ['disconnected'] is never
    reported.  The table, the sequence and the clock are left alone. *)
Theorem getHealth_never_throws `{Process} (w : World) :
  exists report w',
    AppController.getHealth w = (Return report, w')
    /\ HealthReport.status report = "OK"
    /\ HealthReport.timestamp report = clock w
    /\ HealthReport.database report
       = (if bool_decide (link w = Some O) then "error" else "connected")
    /\ HealthReport.database report <> "disconnected"
    /\ drift w w'.
Proof.
  unfold AppController.getHealth, AppController.queryRaw, prisma.user.query.
  run. destruct w as [us sq ck [[|n]|]]; simpl.
  - eexists _, _. split; [reflexivity|]. repeat split; discriminate.
  - eexists _, _. split; [reflexivity|]. repeat split; discriminate.
  - eexists _, _. split; [reflexivity|]. repeat split; discriminate.
Qed.

(** ** What the guard does before it asks the store *)

(** A request whose token the guard cannot use costs no query: when no
    extractor yields a token, or the extracted token does not verify under
    the strategy's key at the current second, the answer is
    [UnauthorizedException] and the world, link included, is untouched,
    also when the link is down. *)
Theorem guard_rejects_before_store `{ProcessEnv} (req : Request) (w : World) :
  (JwtStrategy.jwtFromRequest req = None
   \/ exists token e,
       JwtStrategy.jwtFromRequest req = Some token
       /\ outcome (jwt_verify JwtStrategy.secretOrKey token w) = Throw e) ->
  JwtStrategy.canActivate req w
  = (Throw (UnauthorizedException "Unauthorized"), w).
Proof.
  unfold JwtStrategy.canActivate.
  intros [-> | (token & e & -> & Hv)]; [reflexivity|].
  run. unfold outcome in Hv.
  destruct (jwt_verify JwtStrategy.secretOrKey token w) as [[p|e'] w'] eqn:Hrun;
    [discriminate|].
  assert (Hwp : wp (jwt_verify JwtStrategy.secretOrKey token)
                   (fun _ _ => True) (fun _ w' => w' = w) w)
    by (apply wp_jwt_verify; auto).
  eapply wp_Throw in Hwp; [|exact Hrun]. now subst w'.
Qed.

Lemma guard_rejects_before_store_witness :
  JwtStrategy.canActivate (mkRequest None (Some (OtherScheme "Basic",
                                                 alice_access))) down
  = (Throw (UnauthorizedException "Unauthorized"), down)
  /\ JwtStrategy.canActivate with_cookie (elapse 900000 registered)
     = (Throw (UnauthorizedException "Unauthorized"),
        elapse 900000 registered).
Proof.
  split.
  - apply guard_rejects_before_store. left. reflexivity.
  - apply guard_rejects_before_store. right.
    exists alice_access, TokenExpiredError. split; reflexivity.
Defined.

(** A non-empty [access_token] cookie is the token the guard judges,
    whatever the [Authorization] header says: a cookie that does not verify
    gets the request rejected even when the header carries a valid Bearer
    token.  Only without such a cookie is the Bearer token used. *)
Theorem cookie_shadows_header `{ProcessEnv} (req : Request) :
  (forall jar t,
      cookies req = Some jar -> jar !! "access_token" = Some t ->
      truthy t = true ->
      JwtStrategy.jwtFromRequest req = Some t
      /\ forall w e,
          outcome (jwt_verify JwtStrategy.secretOrKey t w) = Throw e ->
          JwtStrategy.canActivate req w
          = (Throw (UnauthorizedException "Unauthorized"), w))
  /\ ((cookies req = None
       \/ exists jar, cookies req = Some jar
                      /\ (jar !! "access_token" = None
                          \/ jar !! "access_token" = Some (Opaque ""))) ->
      JwtStrategy.jwtFromRequest req
      = match authorization req with
        | Some (Bearer, t) => Some t
        | _ => None
        end).
Proof.
  split.
  - intros jar t Hjar Ht Htruthy.
    assert (Hfrom : JwtStrategy.jwtFromRequest req = Some t).
    { unfold JwtStrategy.jwtFromRequest, JwtStrategy.fromExtractors,
        JwtStrategy.extractJWTFromCookie. now rewrite Hjar, Ht, Htruthy. }
    split; [exact Hfrom|]. intros w e Hv.
    apply guard_rejects_before_store. right. eauto.
  - intros Hnone.
    unfold JwtStrategy.jwtFromRequest, JwtStrategy.fromExtractors,
      JwtStrategy.extractJWTFromCookie,
      JwtStrategy.fromAuthHeaderAsBearerToken.
    destruct Hnone as [-> | (jar & -> & [-> | ->])]; simpl;
      destruct (authorization req) as [[[|name] t]|]; reflexivity.
Qed.

Lemma cookie_shadows_header_witness :
  JwtStrategy.canActivate
    (mkRequest (Some {[ "access_token" := Opaque "junk" ]})
               (Some (Bearer, alice_access)))
    registered
  = (Throw (UnauthorizedException "Unauthorized"), registered)
  /\ JwtStrategy.jwtFromRequest with_header = Some alice_access.
Proof.
  split.
  - eapply (proj1 (cookie_shadows_header _)); try reflexivity.
  - rewrite (proj2 (cookie_shadows_header with_header)); [reflexivity|].
    right. eexists. split; [reflexivity|]. right. reflexivity.
Defined.

(** ** Running the services on a reachable store *)

Lemma login_run `{bcrypt.impl} `{JwtModuleOptions}
      (loginDto : LoginDto.t) (u : User.t) (w : World) :
  healthy w ->
  List.find (prisma.user.matches
               (prisma.user.WhereEmail (LoginDto.email loginDto)))
            (users w) = Some u ->
  bcrypt.compare (LoginDto.password loginDto) (User.password u) = true ->
  AuthService.login loginDto w
  = (Return (AuthResponse.mk
               (issued w (User.email u) (User.id u) (Minutes 15))
               (issued w (User.email u) (User.id u) (Days 7))
               (AuthUser.mk (User.id u) (User.email u) (User.name u))),
     prisma.user.store
       (set_refreshToken (clock w) (User.id u)
          (Some (issued w (User.email u) (User.id u) (Days 7))) (users w))
       w).
Proof.
  intros Hh Hf Hc. pose proof (login_spec loginDto w) as Hspec.
  destruct (AuthService.login loginDto w) as [[r|e] w'] eqn:Hrun.
  - eapply wp_Return in Hspec; [|exact Hrun].
    destruct Hspec as (u' & Hf' & _ & -> & Hw).
    assert (u' = u) by congruence. subst u'.
    apply writes_healthy in Hw; [|exact Hh]. now subst w'.
  - eapply wp_Throw in Hspec; [|exact Hrun].
    destruct Hspec as (_ & [[_ Hn] | (_ & [Hno | (u' & Hf' & Hc')])]).
    + contradiction.
    + congruence.
    + congruence.
Qed.

Lemma refreshTokens_run `{JwtModuleOptions}
      (payload : JwtPayload.t) (u : User.t) (w : World) :
  healthy w ->
  clockTimestamp w < JwtPayload.exp payload ->
  List.find (prisma.user.matches
               (prisma.user.WhereEmail (JwtPayload.email payload)))
            (users w) = Some u ->
  User.refreshToken u = Some (Jws payload secret) ->
  AuthService.refreshTokens (Jws payload secret) w
  = (Return (TokenResponse.mk
               (issued w (User.email u) (User.id u) (Minutes 15))
               (issued w (User.email u) (User.id u) (Days 7))),
     prisma.user.store
       (set_refreshToken (clock w) (User.id u)
          (Some (issued w (User.email u) (User.id u) (Days 7))) (users w))
       w).
Proof.
  intros Hh Hexp Hf Hst.
  pose proof (refreshTokens_spec (Jws payload secret) w) as Hspec.
  destruct (AuthService.refreshTokens (Jws payload secret) w)
    as [[r|e] w'] eqn:Hrun.
  - eapply wp_Return in Hspec; [|exact Hrun].
    destruct Hspec as (p & u' & [= <-] & _ & Hf' & _ & -> & Hw).
    assert (u' = u) by congruence. subst u'.
    apply writes_healthy in Hw; [|exact Hh]. now subst w'.
  - eapply wp_Throw in Hspec; [|exact Hrun].
    destruct Hspec as (_ & _ & [Hn | [Hno | (p & [= <-] & Hcause)]]).
    + contradiction.
    + now destruct (Hno payload).
    + destruct Hcause as [Hle | [Hnone | (u' & Hf' & Hne)]];
        [lia | congruence | congruence].
Qed.

Lemma refreshTokens_refused `{JwtModuleOptions} (token : Token) (w : World) :
  healthy w ->
  (forall payload u,
      token = Jws payload secret ->
      clockTimestamp w < JwtPayload.exp payload ->
      List.find (prisma.user.matches
                   (prisma.user.WhereEmail (JwtPayload.email payload)))
                (users w) = Some u ->
      User.refreshToken u <> Some token) ->
  AuthService.refreshTokens token w
  = (Throw (UnauthorizedException "Invalid refresh token"), w).
Proof.
  intros Hh Hno. pose proof (refreshTokens_spec token w) as Hspec.
  destruct (AuthService.refreshTokens token w) as [[r|e] w'] eqn:Hrun.
  - eapply wp_Return in Hspec; [|exact Hrun].
    destruct Hspec as (p & u & Htok & Hexp & Hf & Hst & _).
    now destruct (Hno p u).
  - eapply wp_Throw in Hspec; [|exact Hrun].
    destruct Hspec as (-> & Hd & _).
    apply drift_healthy in Hd; [|exact Hh]. now subst w'.
Qed.

Lemma find_email_after_set_refreshToken e t i tok rows :
  List.find (prisma.user.matches (prisma.user.WhereEmail e))
            (set_refreshToken t i tok rows)
  = option_map
      (fun r => if prisma.user.matches (prisma.user.WhereId i) r
                then prisma.user.patch t
                       (prisma.user.mkUpdate None None None None (Some tok)) r
                else r)
      (List.find (prisma.user.matches (prisma.user.WhereEmail e)) rows).
Proof. apply find_set_refreshToken. intros. apply matches_patch_token. Qed.

Lemma find_id_after_set_refreshToken j t i tok rows :
  List.find (prisma.user.matches (prisma.user.WhereId j))
            (set_refreshToken t i tok rows)
  = option_map
      (fun r => if prisma.user.matches (prisma.user.WhereId i) r
                then prisma.user.patch t
                       (prisma.user.mkUpdate None None None None (Some tok)) r
                else r)
      (List.find (prisma.user.matches (prisma.user.WhereId j)) rows).
Proof. apply find_set_refreshToken. intros. apply matches_patch_token. Qed.

Lemma clockTimestamp_elapse ms (w : World) :
  0 <= ms -> clockTimestamp w <= clockTimestamp (elapse ms w).
Proof.
  intros Hms. unfold clockTimestamp, elapse. simpl.
  apply Z.div_le_mono; lia.
Qed.

(** ** The lifetime of the tokens Login returns *)

(** The refresh token Login returns is accepted by Refresh, for the same
    user, at any later time up to but excluding the second [iat + 7 days];
    from that second on it is refused. *)
Theorem login_refresh_token_lives_seven_days
        `{bcrypt.impl} `{JwtModuleOptions}
        (loginDto : LoginDto.t) (r : AuthResponse.t) (w w' : World)
        (ms : Z) :
  healthy w ->
  AuthService.login loginDto w = (Return r, w') ->
  0 <= ms ->
  (clockTimestamp (elapse ms w') < clockTimestamp w + 604800 ->
   exists r2 w2,
     AuthService.refreshTokens (AuthResponse.refresh_token r) (elapse ms w')
     = (Return r2, w2)
     /\ token_sub (TokenResponse.refresh_token r2)
        = Some (AuthUser.id (AuthResponse.user r))
     /\ token_sub (TokenResponse.access_token r2)
        = Some (AuthUser.id (AuthResponse.user r)))
  /\ (clockTimestamp w + 604800 <= clockTimestamp (elapse ms w') ->
      AuthService.refreshTokens (AuthResponse.refresh_token r) (elapse ms w')
      = (Throw (UnauthorizedException "Invalid refresh token"),
         elapse ms w')).
Proof.
  intros Hh Hrun Hms.
  pose proof (login_spec loginDto w) as Hspec.
  eapply wp_Return in Hspec; [|exact Hrun].
  destruct Hspec as (u & Hf & _ & -> & Hw).
  apply writes_healthy in Hw; [|exact Hh]. subst w'. simpl.
  assert (He : User.email u = LoginDto.email loginDto).
  { apply find_some in Hf as [_ Hm]. now apply String.eqb_eq in Hm. }
  rewrite <- He in Hf.
  split.
  - intros Hlive. eexists _, _. split.
    + unfold issued. apply refreshTokens_run.
      * exact Hh.
      * unfold clockTimestamp in *. simpl in *. lia.
      * simpl. rewrite find_email_after_set_refreshToken, Hf. simpl.
        rewrite Z.eqb_refl. reflexivity.
      * reflexivity.
    + simpl. split; reflexivity.
  - intros Hdead. apply refreshTokens_refused; [exact Hh|].
    intros p u2 [= <-] Hexp _. unfold clockTimestamp in *. simpl in *. lia.
Qed.

Lemma login_refresh_token_lives_seven_days_witness :
  (exists r2 w2,
      AuthService.refreshTokens second_refresh (elapse 604799000 logged_in)
      = (Return r2, w2)
      /\ token_sub (TokenResponse.refresh_token r2) = Some 1
      /\ token_sub (TokenResponse.access_token r2) = Some 1)
  /\ AuthService.refreshTokens second_refresh (elapse 604800000 logged_in)
     = (Throw (UnauthorizedException "Invalid refresh token"),
        elapse 604800000 logged_in).
Proof.
  pose proof (login_refresh_token_lives_seven_days alice_login login_response
                (elapse 5000 registered) logged_in 604799000) as Hlive.
  pose proof (login_refresh_token_lives_seven_days alice_login login_response
                (elapse 5000 registered) logged_in 604800000) as Hdead.
  split.
  - apply Hlive; [reflexivity | reflexivity | lia | reflexivity].
  - apply Hdead; [reflexivity | reflexivity | lia | vm_compute; discriminate].
Defined.

(** The access token Login returns is never accepted by Refresh: the
    slot holds the refresh token, which differs from it in [exp]. *)
Theorem access_token_is_no_refresh_token
        `{bcrypt.impl} `{JwtModuleOptions}
        (loginDto : LoginDto.t) (r : AuthResponse.t) (w w' : World)
        (ms : Z) :
  healthy w ->
  AuthService.login loginDto w = (Return r, w') ->
  0 <= ms ->
  AuthResponse.access_token r <> AuthResponse.refresh_token r
  /\ AuthService.refreshTokens (AuthResponse.access_token r) (elapse ms w')
     = (Throw (UnauthorizedException "Invalid refresh token"), elapse ms w').
Proof.
  intros Hh Hrun Hms.
  pose proof (login_spec loginDto w) as Hspec.
  eapply wp_Return in Hspec; [|exact Hrun].
  destruct Hspec as (u & Hf & _ & -> & Hw).
  apply writes_healthy in Hw; [|exact Hh]. subst w'. simpl.
  assert (Hne : issued w (User.email u) (User.id u) (Minutes 15)
                <> issued w (User.email u) (User.id u) (Days 7)).
  { unfold issued. intros [= Heq]. simpl in Heq. lia. }
  split; [exact Hne|].
  apply refreshTokens_refused; [exact Hh|].
  assert (He : User.email u = LoginDto.email loginDto).
  { apply find_some in Hf as [_ Hm]. now apply String.eqb_eq in Hm. }
  rewrite <- He in Hf.
  intros p u2 [= <-] _ Hf2. simpl in Hf2.
  rewrite find_email_after_set_refreshToken, Hf in Hf2. simpl in Hf2.
  rewrite Z.eqb_refl in Hf2. injection Hf2 as <-. simpl.
  intros Heq. apply Hne. unfold issued. congruence.
Qed.

Lemma access_token_is_no_refresh_token_witness :
  second_access <> second_refresh
  /\ AuthService.refreshTokens second_access (elapse 1000 logged_in)
     = (Throw (UnauthorizedException "Invalid refresh token"),
        elapse 1000 logged_in).
Proof.
  pose proof (access_token_is_no_refresh_token alice_login login_response
                (elapse 5000 registered) logged_in 1000) as Hno.
  apply Hno; [reflexivity | reflexivity | lia].
Defined.

(** ** What the guard decides on a reachable store *)

Lemma canActivate_healthy `{ProcessEnv} (req : Request) (w : World) :
  healthy w ->
  JwtStrategy.canActivate req w
  = match JwtStrategy.jwtFromRequest req with
    | Some (Jws payload key) =>
        if String.eqb key JwtStrategy.secretOrKey
           && negb (JwtPayload.exp payload <=? clockTimestamp w)
        then match List.find (prisma.user.matches
                                (prisma.user.WhereId (JwtPayload.sub payload)))
                             (users w) with
             | Some _ =>
                 (Return (mkRequestUser (JwtPayload.sub payload)
                                        (JwtPayload.email payload)), w)
             | None => (Throw (UnauthorizedException "Unauthorized"), w)
             end
        else (Throw (UnauthorizedException "Unauthorized"), w)
    | _ => (Throw (UnauthorizedException "Unauthorized"), w)
    end.
Proof.
  intros Hh. unfold JwtStrategy.canActivate.
  destruct (JwtStrategy.jwtFromRequest req) as [[raw|payload key]|];
    [reflexivity| |reflexivity].
  unfold jwt_verify, JwtStrategy.validate. run.
  destruct (String.eqb key JwtStrategy.secretOrKey); [|reflexivity].
  destruct (JwtPayload.exp payload <=? clockTimestamp w); [reflexivity|].
  simpl. rewrite findOne_healthy by exact Hh.
  now destruct (List.find _ (users w)).
Qed.

(** Tokens carry no mark of their kind.  When the strategy verifies with
    the key the service signs with, the refresh token Login returns is
    admitted by the guard as if it were an access token, for the whole
    seven days, long after the access token of the same login has expired
    at fifteen minutes. *)
Theorem guard_admits_refresh_token
        `{bcrypt.impl} `{JwtModuleOptions} `{ProcessEnv}
        (loginDto : LoginDto.t) (r : AuthResponse.t) (w w' : World)
        (ms : Z) :
  JwtStrategy.secretOrKey = secret ->
  healthy w ->
  AuthService.login loginDto w = (Return r, w') ->
  0 <= ms ->
  (forall req,
      JwtStrategy.jwtFromRequest req = Some (AuthResponse.refresh_token r) ->
      clockTimestamp (elapse ms w') < clockTimestamp w + 604800 ->
      JwtStrategy.canActivate req (elapse ms w')
      = (Return (mkRequestUser (AuthUser.id (AuthResponse.user r))
                               (AuthUser.email (AuthResponse.user r))),
         elapse ms w'))
  /\ (forall req,
         JwtStrategy.jwtFromRequest req = Some (AuthResponse.access_token r) ->
         (clockTimestamp (elapse ms w') < clockTimestamp w + 900 ->
          JwtStrategy.canActivate req (elapse ms w')
          = (Return (mkRequestUser (AuthUser.id (AuthResponse.user r))
                                   (AuthUser.email (AuthResponse.user r))),
             elapse ms w'))
         /\ (clockTimestamp w + 900 <= clockTimestamp (elapse ms w') ->
             JwtStrategy.canActivate req (elapse ms w')
             = (Throw (UnauthorizedException "Unauthorized"),
                elapse ms w'))).
Proof.
  intros Hkey Hh Hrun Hms.
  pose proof (login_spec loginDto w) as Hspec.
  eapply wp_Return in Hspec; [|exact Hrun].
  destruct Hspec as (u & Hf & _ & -> & Hw).
  apply writes_healthy in Hw; [|exact Hh]. subst w'. simpl.
  apply find_some in Hf as [Hin _].
  destruct (find_WhereId_Some (User.id u) (users w)) as (u0 & Hf0 & _);
    [eauto|].
  unfold issued in *.
  assert (Hrow : exists x,
             List.find (prisma.user.matches
                          (prisma.user.WhereId (User.id u)))
               (set_refreshToken (clock w) (User.id u)
                  (Some (Jws (JwtPayload.mk (User.email u) (User.id u)
                                (clockTimestamp w)
                                (clockTimestamp w + seconds (Days 7)))
                             secret))
                  (users w))
             = Some x).
  { rewrite find_id_after_set_refreshToken, Hf0. simpl. eauto. }
  destruct Hrow as [x Hx].
  split; [|intros req Hreq; split].
  - intros req Hreq Hlive. rewrite canActivate_healthy by exact Hh.
    rewrite Hreq, Hkey, String.eqb_refl.
    match goal with
    | |- context [?a <=? ?b] => destruct (Z.leb_spec a b) as [Hle|_]
    end.
    { unfold clockTimestamp in Hlive, Hle. simpl in Hlive, Hle. lia. }
    cbn [andb negb JwtPayload.sub JwtPayload.email elapse users
         prisma.user.store]. now rewrite Hx.
  - intros Hlive. rewrite canActivate_healthy by exact Hh.
    rewrite Hreq, Hkey, String.eqb_refl.
    match goal with
    | |- context [?a <=? ?b] => destruct (Z.leb_spec a b) as [Hle|_]
    end.
    { unfold clockTimestamp in Hlive, Hle. simpl in Hlive, Hle. lia. }
    cbn [andb negb JwtPayload.sub JwtPayload.email elapse users
         prisma.user.store]. now rewrite Hx.
  - intros Hdead. rewrite canActivate_healthy by exact Hh.
    rewrite Hreq, Hkey, String.eqb_refl.
    match goal with
    | |- context [?a <=? ?b] => destruct (Z.leb_spec a b) as [_|Hgt]
    end; [reflexivity|].
    unfold clockTimestamp in Hdead, Hgt. simpl in Hdead, Hgt. lia.
Qed.

Lemma guard_admits_refresh_token_witness :
  JwtStrategy.canActivate
    (mkRequest (Some {[ "access_token" := second_refresh ]}) None)
    (elapse 3600000 logged_in)
  = (Return (mkRequestUser 1 "a@x.com"), elapse 3600000 logged_in)
  /\ JwtStrategy.canActivate
       (mkRequest (Some {[ "access_token" := second_access ]}) None)
       (elapse 3600000 logged_in)
     = (Throw (UnauthorizedException "Unauthorized"),
        elapse 3600000 logged_in).
Proof.
  pose proof (guard_admits_refresh_token alice_login login_response
                (elapse 5000 registered) logged_in 3600000) as Hw.
  destruct Hw as [Hrefresh Haccess];
    [reflexivity | reflexivity | reflexivity | lia |].
  split.
  - apply Hrefresh; reflexivity.
  - apply Haccess; [reflexivity | vm_compute; discriminate].
Defined.

(** Logout ends no access token: whatever the guard decided about a
    request before a logout, of any user, it decides after it. *)
Theorem logout_keeps_access_tokens
        `{JwtModuleOptions} `{ProcessEnv}
        (req : Request) (userId : Z) (w : World) :
  healthy w ->
  outcome (JwtStrategy.canActivate req (after (AuthService.logout userId w)))
  = outcome (JwtStrategy.canActivate req w).
Proof.
  intros Hh. pose proof (updateRefreshToken_spec userId None w) as Hspec.
  unfold AuthService.logout.
  destruct (UserService.updateRefreshToken userId None w)
    as [[[]|e] w'] eqn:Hrun; unfold after; simpl.
  - eapply wp_Return in Hspec; [|exact Hrun]. destruct Hspec as (_ & Hw).
    apply writes_healthy in Hw; [|exact Hh]. subst w'.
    rewrite !canActivate_healthy by exact Hh.
    destruct (JwtStrategy.jwtFromRequest req) as [[raw|payload key]|];
      [reflexivity| |reflexivity].
    change (clockTimestamp (prisma.user.store _ w)) with (clockTimestamp w).
    destruct (String.eqb key JwtStrategy.secretOrKey
              && negb (JwtPayload.exp payload <=? clockTimestamp w));
      [|reflexivity].
    simpl. rewrite find_id_after_set_refreshToken.
    now destruct (List.find _ (users w)).
  - eapply wp_Throw in Hspec; [|exact Hrun]. destruct Hspec as (Hd & _).
    apply drift_healthy in Hd; [|exact Hh]. now subst w'.
Qed.

Lemma logout_keeps_access_tokens_witness :
  outcome (JwtStrategy.canActivate with_cookie
             (after (AuthService.logout 1 registered)))
  = Return (mkRequestUser 1 "a@x.com").
Proof.
  rewrite (logout_keeps_access_tokens with_cookie 1 registered eq_refl).
  reflexivity.
Defined.

(** ** [UserService.update] and [UserService.remove] *)

Lemma UserService_update_healthy id (data : UserUncheckedUpdateInput.t)
      (w : World) :
  healthy w ->
  UserService.update id data w
  = match List.find (prisma.user.matches (prisma.user.WhereId id))
                    (users w) with
    | None => (Throw (PrismaClientKnownRequestError P2025), w)
    | Some u =>
        if UserUncheckedUpdateInput.no_keys data
        then (Return (Some (prisma.user.project select_public u)), w)
        else if prisma.user.unique_taken (users w) u data
        then (Throw (PrismaClientKnownRequestError P2002), w)
        else (Return (Some (prisma.user.project select_public
                              (prisma.user.overwrite (clock w) data u))),
              prisma.user.store
                (List.map (fun r => if prisma.user.matches
                                         (prisma.user.WhereId id) r
                                    then prisma.user.overwrite (clock w)
                                                               data r
                                    else r) (users w))
                w)
    end.
Proof.
  intros Hh. healthy_world w Hh.
  unfold UserService.update, prisma.user.update. run. simpl.
  destruct (List.find _ us) as [u|]; [|reflexivity].
  destruct (UserUncheckedUpdateInput.no_keys data); [reflexivity|].
  destruct (prisma.user.unique_taken us u data); reflexivity.
Qed.

Lemma no_keys_email (d : UserUncheckedUpdateInput.t) e :
  UserUncheckedUpdateInput.email d = Some e ->
  UserUncheckedUpdateInput.no_keys d = false.
Proof. unfold UserUncheckedUpdateInput.no_keys. now intros ->. Qed.

Lemma no_keys_id (d : UserUncheckedUpdateInput.t) j :
  UserUncheckedUpdateInput.id d = Some j ->
  UserUncheckedUpdateInput.no_keys d = false.
Proof.
  unfold UserUncheckedUpdateInput.no_keys. intros ->.
  now destruct (UserUncheckedUpdateInput.email d),
    (UserUncheckedUpdateInput.name d), (UserUncheckedUpdateInput.password d),
    (UserUncheckedUpdateInput.age d).
Qed.


(** [update] answers a miss with an error, never with the [null] its
    type allows.  For an id in the range of the column that no row carries
    it throws P2025; when the body, its numbers in range, would give the
    row the email or the id of another row it throws P2002; in each case
    nothing is written.  What it returns is always an object. *)
Theorem update_fails_loudly
        (id : Z) (data : UserUncheckedUpdateInput.t) (w : World) :
  healthy w ->
  int4 id ->
  update_in_range data ->
  ((forall u, In u (users w) -> User.id u <> id) ->
   UserService.update id data w
   = (Throw (PrismaClientKnownRequestError P2025), w))
  /\ (forall u other e,
         List.find (prisma.user.matches (prisma.user.WhereId id)) (users w)
         = Some u ->
         UserUncheckedUpdateInput.email data = Some e ->
         In other (users w) -> User.id other <> User.id u ->
         User.email other = e ->
         UserService.update id data w
         = (Throw (PrismaClientKnownRequestError P2002), w))
  /\ (forall u other j,
         List.find (prisma.user.matches (prisma.user.WhereId id)) (users w)
         = Some u ->
         UserUncheckedUpdateInput.id data = Some j ->
         In other (users w) -> User.id other <> User.id u ->
         User.id other = j ->
         UserService.update id data w
         = (Throw (PrismaClientKnownRequestError P2002), w))
  /\ (forall r w', UserService.update id data w = (Return r, w') ->
                   r <> None).
Proof.
  intros Hh _ _. pose proof (UserService_update_healthy id data w Hh) as Hrun.
  split; [|split; [|split]].
  - intros Hno. apply find_WhereId_None in Hno. now rewrite Hrun, Hno.
  - intros u other e Hf He Hin Hid Hem. rewrite Hrun, Hf.
    rewrite (no_keys_email _ _ He).
    unfold prisma.user.unique_taken. rewrite He.
    assert (Htaken : existsb
                       (fun r => negb (User.id r =? User.id u)
                                 && String.eqb (User.email r) e)
                       (users w) = true).
    { apply existsb_exists. exists other. split; [exact Hin|].
      apply andb_true_intro. split.
      - apply negb_true_iff. now apply Z.eqb_neq.
      - now apply String.eqb_eq. }
    now rewrite Htaken.
  - intros u other j Hf Hj Hin Hid Hoj. rewrite Hrun, Hf.
    rewrite (no_keys_id _ _ Hj).
    unfold prisma.user.unique_taken. rewrite Hj.
    assert (Htaken : existsb
                       (fun r => negb (User.id r =? User.id u)
                                 && (User.id r =? j))
                       (users w) = true).
    { apply existsb_exists. exists other. split; [exact Hin|].
      apply andb_true_intro. split.
      - apply negb_true_iff. now apply Z.eqb_neq.
      - now apply Z.eqb_eq. }
    rewrite Htaken. now rewrite orb_true_r.
  - intros r w' Heq. rewrite Hrun in Heq.
    destruct (List.find _ (users w)) as [u|]; [|discriminate].
    destruct (UserUncheckedUpdateInput.no_keys data);
      [injection Heq as <- _; discriminate|].
    destruct (prisma.user.unique_taken _ _ _); [discriminate|].
    injection Heq as <- _. discriminate.
Qed.

Lemma update_fails_loudly_witness :
  UserService.update 7 (PartialCreateUserDto.mk None (Some "Z") None None)
    two_users
  = (Throw (PrismaClientKnownRequestError P2025), two_users)
  /\ UserService.update 2
       (PartialCreateUserDto.mk (Some "a@x.com") None None None) two_users
     = (Throw (PrismaClientKnownRequestError P2002), two_users)
  /\ UserService.update 2
       (UserUncheckedUpdateInput.mk None None None None (Some 1) None None
                                    None)
       two_users
     = (Throw (PrismaClientKnownRequestError P2002), two_users).
Proof.
  assert (Hrange : forall (d : PartialCreateUserDto.t),
             PartialCreateUserDto.age d = None ->
             update_in_range (PartialCreateUserDto.body d)).
  { intros d Ha. split; simpl; [exact I | now rewrite Ha]. }
  split; [|split].
  - apply (update_fails_loudly 7 _ two_users eq_refl).
    + unfold int4. lia.
    + now apply Hrange.
    + intros u [<-|[<-|[]]]; vm_compute; discriminate.
  - eapply (proj1 (proj2 (update_fails_loudly 2 _ two_users eq_refl _ _))).
    + reflexivity.
    + reflexivity.
    + left. reflexivity.
    + vm_compute. discriminate.
    + reflexivity.
  - eapply (proj1 (proj2 (proj2
              (update_fails_loudly 2 _ two_users eq_refl _ _)))).
    + reflexivity.
    + reflexivity.
    + left. reflexivity.
    + vm_compute. discriminate.
    + reflexivity.
  Unshelve.
  all: try (unfold int4; lia).
  all: try (split; simpl; try exact I; unfold int4; lia).
Defined.





Lemma find_email_map_overwrite e wh t d (rows : list User.t) :
  UserUncheckedUpdateInput.email d = None ->
  List.find (prisma.user.matches (prisma.user.WhereEmail e))
    (List.map (fun r => if prisma.user.matches wh r
                        then prisma.user.overwrite t d r else r) rows)
  = option_map (fun r => if prisma.user.matches wh r
                         then prisma.user.overwrite t d r else r)
      (List.find (prisma.user.matches (prisma.user.WhereEmail e)) rows).
Proof.
  intros Hd. induction rows as [|r rows IH]; [reflexivity|]. simpl.
  assert (He : User.email (if prisma.user.matches wh r
                           then prisma.user.overwrite t d r else r)
               = User.email r).
  { destruct (prisma.user.matches wh r); [|reflexivity].
    simpl. now rewrite Hd. }
  rewrite He. destruct (String.eqb (User.email r) e); [reflexivity|exact IH].
Qed.

(** [update] writes a new password into the row exactly as it was given,
    without hashing it: afterwards the column holds the plaintext, and
    whether a login with some password is accepted is decided by
    [bcrypt.compare] against that plaintext. *)
Theorem update_stores_password_verbatim
        `{bcrypt.impl} (u : User.t) (p q : string) (w : World) :
  healthy w ->
  List.find (prisma.user.matches (prisma.user.WhereEmail (User.email u)))
            (users w) = Some u ->
  exists o w',
    UserService.update (User.id u)
      (PartialCreateUserDto.mk None None (Some p) None) w
    = (Return (Some o), w')
    /\ (forall u', In u' (users w') -> User.id u' = User.id u ->
                   User.password u' = p)
    /\ AuthService.validateUser (User.email u) q w'
       = (Return (if bcrypt.compare q p
                  then Some (prisma.user.patch (clock w)
                               (prisma.user.mkUpdate None None (Some p)
                                                     None None) u)
                  else None), w').
Proof.
  intros Hh Hf.
  pose proof (UserService_update_healthy (User.id u)
                (PartialCreateUserDto.mk None None (Some p) None) w Hh)
    as Hrun.
  apply find_some in Hf as Hin. destruct Hin as [Hin _].
  destruct (find_WhereId_Some (User.id u) (users w)) as (u0 & Hf0 & _ & Hid0);
    [eauto|].
  rewrite Hf0 in Hrun.
  change (UserUncheckedUpdateInput.no_keys _) with false in Hrun.
  change (prisma.user.unique_taken (users w) u0 _) with false in Hrun.
  cbv iota in Hrun.
  eexists _, _. split; [exact Hrun|]. split.
  - intros u' Hin' Hid'. cbn [users prisma.user.store] in Hin'.
    apply in_map_iff in Hin' as (r & <- & _).
    destruct (prisma.user.matches (prisma.user.WhereId (User.id u)) r)
      eqn:Hm; [reflexivity|].
    simpl in Hm. apply Z.eqb_neq in Hm. contradiction.
  - unfold AuthService.validateUser. run.
    rewrite findByEmail_healthy by exact Hh.
    cbn [users prisma.user.store].
    rewrite (find_email_map_overwrite (User.email u)
               (prisma.user.WhereId (User.id u))) by reflexivity.
    rewrite Hf. simpl. rewrite Z.eqb_refl. simpl.
    now destruct (bcrypt.compare q p).
Qed.

Lemma update_stores_password_verbatim_witness :
  exists o w',
    UserService.update 1 (PartialCreateUserDto.mk None None (Some "new") None)
      registered
    = (Return (Some o), w')
    /\ List.map User.password (users w') = ["new"]
    /\ outcome (AuthService.validateUser "a@x.com" "new" w') = Return None.
Proof.
  destruct (update_stores_password_verbatim
              (User.mk 1 "a@x.com" "A" "$2b$10$p1" None (Some alice_refresh)
                       1700000000250 1700000000250)
              "new" "new" registered eq_refl eq_refl)
    as (o & w' & Hrun & _ & Hlogin).
  exists o, w'. split; [exact Hrun|].
  vm_compute in Hrun. injection Hrun as _ <-.
  split; [reflexivity|]. reflexivity.
Defined.

Lemma remove_healthy id (w : World) :
  healthy w ->
  UserService.remove id w
  = match List.find (prisma.user.matches (prisma.user.WhereId id))
                    (users w) with
    | None => (Throw (PrismaClientKnownRequestError P2025), w)
    | Some _ =>
        (Return tt,
         prisma.user.store
           (List.filter (fun r => negb (prisma.user.matches
                                          (prisma.user.WhereId id) r))
                        (users w))
           w)
    end.
Proof.
  intros Hh. unfold UserService.remove. run.
  rewrite delete_healthy by exact Hh.
  now destruct (List.find _ (users w)).
Qed.

(** Removing a user that exists, by an id in the range of the column,
    deletes exactly the rows with that id: every other row stays as it
    is, [findOne] then answers [null], and from then on the guard rejects
    every token naming that id and Refresh refuses every token that no
    row with another id stores. *)
Theorem remove_ends_the_user
        `{JwtModuleOptions} `{ProcessEnv} (id : Z) (w : World) :
  healthy w ->
  int4 id ->
  (exists u, In u (users w) /\ User.id u = id) ->
  exists w',
    UserService.remove id w = (Return tt, w')
    /\ (forall r, In r (users w') <-> In r (users w) /\ User.id r <> id)
    /\ UserService.findOne id w' = (Return None, w')
    /\ (forall req payload key ms,
           JwtStrategy.jwtFromRequest req = Some (Jws payload key) ->
           JwtPayload.sub payload = id ->
           JwtStrategy.canActivate req (elapse ms w')
           = (Throw (UnauthorizedException "Unauthorized"), elapse ms w'))
    /\ (forall t ms,
           (forall r, In r (users w) -> User.refreshToken r = Some t ->
                      User.id r = id) ->
           AuthService.refreshTokens t (elapse ms w')
           = (Throw (UnauthorizedException "Invalid refresh token"),
              elapse ms w')).
Proof.
  intros Hh _ Hex.
  apply find_WhereId_Some in Hex as (u & Hf & _).
  pose proof (remove_healthy id w Hh) as Hrun. rewrite Hf in Hrun.
  eexists. split; [exact Hrun|].
  set (rows' := List.filter _ (users w)).
  assert (Hrows : forall r, In r rows' <-> In r (users w) /\ User.id r <> id).
  { intros r. unfold rows'. rewrite filter_In. simpl.
    rewrite negb_true_iff, Z.eqb_neq. reflexivity. }
  assert (Hgone : List.find (prisma.user.matches (prisma.user.WhereId id))
                            rows' = None).
  { apply find_WhereId_None. intros r Hin. now apply Hrows in Hin. }
  split; [exact Hrows|]. split; [|split].
  - rewrite findOne_healthy by exact Hh. simpl. now rewrite Hgone.
  - intros req payload key ms Hreq Hid.
    rewrite canActivate_healthy by exact Hh. rewrite Hreq.
    destruct (_ && _); [|reflexivity].
    simpl. rewrite Hid. now rewrite Hgone.
  - intros t ms Honly. apply refreshTokens_refused; [exact Hh|].
    intros p u2 _ _ Hf2 Hst. simpl in Hf2.
    apply find_some in Hf2 as [Hin2 _]. apply Hrows in Hin2 as [Hin2 Hne].
    apply Hne. now apply Honly.
Qed.

Lemma remove_ends_the_user_witness :
  exists w',
    UserService.remove 1 two_users = (Return tt, w')
    /\ List.map User.id (users w') = [2]
    /\ JwtStrategy.canActivate with_cookie w'
       = (Throw (UnauthorizedException "Unauthorized"), w')
    /\ AuthService.refreshTokens alice_refresh w'
       = (Throw (UnauthorizedException "Invalid refresh token"), w').
Proof.
  destruct (remove_ends_the_user 1 two_users eq_refl)
    as (w' & Hrun & _ & _ & Hguard & Hrefresh).
  - unfold int4. lia.
  - eexists. split; [left; reflexivity | reflexivity].
  - exists w'. split; [exact Hrun|].
    specialize (Hguard with_cookie
                  (JwtPayload.mk "a@x.com" 1 1700000000 1700000900)
                  "s3cret" 0 eq_refl eq_refl).
    assert (Honly : forall r, In r (users two_users) ->
                              User.refreshToken r = Some alice_refresh ->
                              User.id r = 1).
    { intros r [<-|[<-|[]]] Hst; [reflexivity|]. vm_compute in Hst.
      discriminate. }
    specialize (Hrefresh alice_refresh 0 Honly).
    vm_compute in Hrun. injection Hrun as <-.
    split; [reflexivity|]. split; [exact Hguard | exact Hrefresh].
Defined.

(** ** Register, and the login that follows *)

Lemma find_app_None {A} (f : A -> bool) (l1 l2 : list A) :
  List.find f l1 = None -> List.find f (l1 ++ l2) = List.find f l2.
Proof.
  induction l1 as [|a l1 IH]; [reflexivity|]. simpl.
  destruct (f a); [discriminate | exact IH].
Qed.

Lemma set_refreshToken_app t i tok (rows rows' : list User.t) :
  set_refreshToken t i tok (rows ++ rows')
  = set_refreshToken t i tok rows ++ set_refreshToken t i tok rows'.
Proof. apply List.map_app. Qed.

(** The row a registration leaves: the inserted row with the issued
    refresh token written over whatever the body named. *)
Lemma register_Return `{bcrypt.impl} `{JwtModuleOptions}
      (registerDto : UserUncheckedCreateInput.t) (r : AuthResponse.t)
      (w w' : World) :
  healthy w ->
  AuthService.register registerDto w = (Return r, w') ->
  let assigned :=
    default (users_id_seq w) (UserUncheckedCreateInput.id registerDto) in
  let email := UserUncheckedCreateInput.email registerDto in
  let refresh := issued w email assigned (Days 7) in
  let row :=
    User.mk assigned email
            (UserUncheckedCreateInput.name registerDto)
            (bcrypt.hash (UserUncheckedCreateInput.password registerDto) 10)
            (UserUncheckedCreateInput.age registerDto) (Some refresh)
            (default (clock w)
                     (UserUncheckedCreateInput.createdAt registerDto))
            (clock w) in
  (forall u, In u (users w) -> User.email u <> email)
  /\ (forall u, In u (users w) -> User.id u <> assigned)
  /\ r = AuthResponse.mk (issued w email assigned (Minutes 15)) refresh
           (AuthUser.mk assigned email
                        (UserUncheckedCreateInput.name registerDto))
  /\ w' = mkWorld (users w ++ [row])
                  (match UserUncheckedCreateInput.id registerDto with
                   | None => users_id_seq w + 1
                   | Some _ => users_id_seq w
                   end)
                  (clock w) None.
Proof.
  intros Hh Hrun assigned email refresh row.
  pose proof (register_spec registerDto w) as Hspec. cbv zeta in Hspec.
  eapply wp_Return in Hspec; [|exact Hrun].
  destruct Hspec as (Hnone & -> & Hu & Hs & Hc & Hl & Hfree).
  specialize (Hl Hh).
  assert (Hemail : forall u, In u (users w) -> User.email u <> email).
  { intros u Hin He. eapply find_none in Hnone; [|exact Hin].
    simpl in Hnone. unfold email in He.
    rewrite He, String.eqb_refl in Hnone. discriminate. }
  assert (Hid : forall u, In u (users w) -> User.id u <> assigned).
  { intros u Hin Hi.
    assert (Hm : existsb
                   (fun r => String.eqb (User.email r) email
                             || Z.eqb (User.id r) assigned)
                   (users w) = true).
    { apply existsb_exists. exists u. split; [exact Hin|].
      apply orb_true_iff. right. now apply Z.eqb_eq. }
    unfold prisma.user.inserted in Hfree. simpl in Hfree.
    fold assigned email in Hfree. congruence. }
  split; [exact Hemail|]. split; [exact Hid|]. split; [reflexivity|].
  unfold prisma.user.inserted in Hu. cbn [User.id User.email] in Hu.
  cbn [UserUncheckedCreateInput.with_password UserUncheckedCreateInput.id
       UserUncheckedCreateInput.email UserUncheckedCreateInput.name
       UserUncheckedCreateInput.password UserUncheckedCreateInput.age
       UserUncheckedCreateInput.refreshToken
       UserUncheckedCreateInput.createdAt
       UserUncheckedCreateInput.updatedAt] in Hu.
  fold assigned email in Hu.
  rewrite set_refreshToken_app, set_refreshToken_untouched in Hu
    by (intros u Hin; now apply Hid).
  unfold set_refreshToken in Hu. cbn [List.map] in Hu.
  cbn [prisma.user.matches User.id] in Hu. rewrite Z.eqb_refl in Hu.
  cbn in Hu. unfold prisma.user.drawn in Hs. cbn in Hs.
  destruct w' as [us' sq' ck' lk']. unfold healthy in Hl.
  cbn in Hu, Hs, Hc, Hl. subst us' sq' ck' lk'. reflexivity.
Qed.

Lemma register_run `{bcrypt.impl} `{JwtModuleOptions}
      (registerDto : UserUncheckedCreateInput.t) (w : World) :
  healthy w ->
  (forall u, In u (users w) ->
             User.email u <> UserUncheckedCreateInput.email registerDto) ->
  (forall u, In u (users w) ->
             User.id u <> default (users_id_seq w)
                            (UserUncheckedCreateInput.id registerDto)) ->
  exists r w', AuthService.register registerDto w = (Return r, w').
Proof.
  intros Hh Hemail Hid.
  apply find_WhereEmail_None in Hemail.
  pose proof (register_spec registerDto w) as Hspec. cbv zeta in Hspec.
  destruct (AuthService.register registerDto w) as [[r|e] w'] eqn:Hrun;
    [eauto|].
  exfalso. eapply wp_Throw in Hspec; [|exact Hrun].
  destruct Hspec
    as (_ & _ & [(_ & (u & Hf) & _)
                | [(_ & _ & Htaken & _) | ([_ Hn] & _)]]).
  - congruence.
  - apply existsb_exists in Htaken as (u & Hin & Hm).
    apply orb_true_iff in Hm as [Hm|Hm].
    + eapply find_none in Hemail; [|exact Hin]. simpl in Hemail, Hm.
      congruence.
    + apply Z.eqb_eq in Hm. now apply (Hid u Hin).
  - contradiction.
Qed.

(** Registering an email no row carries, with the numbers of the body in
    range and the id to be assigned free, adds one row and changes no
    other.  The row gets the id the body names, and otherwise the next of
    the sequence, which advances only in that case; it gets the bcrypt
    hash of the password at cost 10 rather than the password, the given
    name and age, and the refresh token that is returned, whatever
    [refreshToken] the body named.  The row is then found by its email,
    and [findOne] on the returned id yields its public fields. *)
Theorem register_then_lookup
        `{bcrypt.impl} `{JwtModuleOptions}
        (registerDto : UserUncheckedCreateInput.t) (w : World) :
  healthy w ->
  create_in_range registerDto ->
  let assigned :=
    default (users_id_seq w) (UserUncheckedCreateInput.id registerDto) in
  (forall u, In u (users w) ->
             User.email u <> UserUncheckedCreateInput.email registerDto) ->
  (forall u, In u (users w) -> User.id u <> assigned) ->
  exists r w',
    AuthService.register registerDto w = (Return r, w')
    /\ AuthResponse.user r
       = AuthUser.mk assigned (UserUncheckedCreateInput.email registerDto)
                     (UserUncheckedCreateInput.name registerDto)
    /\ Permutation
         (users w')
         (User.mk assigned (UserUncheckedCreateInput.email registerDto)
                  (UserUncheckedCreateInput.name registerDto)
                  (bcrypt.hash
                     (UserUncheckedCreateInput.password registerDto) 10)
                  (UserUncheckedCreateInput.age registerDto)
                  (Some (AuthResponse.refresh_token r))
                  (default (clock w)
                     (UserUncheckedCreateInput.createdAt registerDto))
                  (clock w)
          :: users w)
    /\ users_id_seq w'
       = match UserUncheckedCreateInput.id registerDto with
         | Some _ => users_id_seq w
         | None => users_id_seq w + 1
         end
    /\ (exists row,
           UserService.findByEmail
             (UserUncheckedCreateInput.email registerDto) w'
           = (Return (Some row), w')
           /\ User.id row = assigned)
    /\ (exists o,
           UserService.findOne assigned w' = (Return (Some o), w')
           /\ o !! "id" = Some (VNumber assigned)
           /\ o !! "email"
              = Some (VString (UserUncheckedCreateInput.email registerDto))
           /\ o !! "name"
              = Some (VString (UserUncheckedCreateInput.name registerDto))
           /\ o !! "age"
              = Some (from_option VNumber VNull
                        (UserUncheckedCreateInput.age registerDto))
           /\ hides_secrets o).
Proof.
  intros Hh _ assigned Hemail Hid.
  destruct (register_run registerDto w Hh Hemail Hid) as (r & w' & Hrun).
  destruct (register_Return registerDto r w w' Hh Hrun)
    as (_ & _ & -> & ->).
  eexists _, _. split; [exact Hrun|].
  cbn [AuthResponse.user AuthResponse.refresh_token users users_id_seq].
  fold assigned.
  split; [reflexivity|].
  split; [symmetry; apply Permutation_cons_append|].
  split; [reflexivity|].
  split.
  - eexists. rewrite findByEmail_healthy by reflexivity. cbn [users].
    rewrite find_app_None by now apply find_WhereEmail_None.
    simpl. rewrite String.eqb_refl. split; reflexivity.
  - eexists. rewrite findOne_healthy by reflexivity. cbn [users].
    rewrite find_app_None by now apply find_WhereId_None.
    simpl. rewrite Z.eqb_refl. simpl.
    split; [reflexivity|]. repeat split.
Qed.

Lemma register_then_lookup_witness :
  (exists r w',
      AuthService.register bob (elapse 400 registered) = (Return r, w')
      /\ AuthResponse.user r = AuthUser.mk 2 "b@x.com" "B"
      /\ List.map User.password (users w') = ["$2b$10$p1"; "$2b$10$p2"]
      /\ users_id_seq w' = 3)
  /\ (exists r w',
         AuthService.register
           (UserUncheckedCreateInput.mk "c@x.com" "p3" "C" None (Some 9)
              (Some alice_refresh) None None)
           (elapse 400 registered)
         = (Return r, w')
         /\ List.map User.id (users w') = [1; 9]
         /\ slot w' 9 = [Some (AuthResponse.refresh_token r)]
         /\ users_id_seq w' = 2).
Proof.
  split.
  - destruct (register_then_lookup bob (elapse 400 registered) eq_refl)
      as (r & w' & Hrun & Huser & _ & Hseq & _).
    + split; simpl; [exact I | unfold int4; lia].
    + intros u [<-|[]]. vm_compute. discriminate.
    + intros u [<-|[]]. vm_compute. discriminate.
    + exists r, w'. split; [exact Hrun|]. split; [exact Huser|].
      split; [|exact Hseq].
      vm_compute in Hrun. injection Hrun as _ <-. reflexivity.
  - destruct (register_then_lookup
                (UserUncheckedCreateInput.mk "c@x.com" "p3" "C" None (Some 9)
                   (Some alice_refresh) None None)
                (elapse 400 registered) eq_refl)
      as (r & w' & Hrun & Huser & _ & Hseq & _).
    + split; simpl; [unfold int4; lia | exact I].
    + intros u [<-|[]]. vm_compute. discriminate.
    + intros u [<-|[]]. vm_compute. discriminate.
    + exists r, w'. split; [exact Hrun|].
      split; [|split; [|exact Hseq]];
        vm_compute in Hrun; injection Hrun as <- <-; reflexivity.
Defined.

(** After a registration, a login with the same email and password
    succeeds, for the same user, provided bcrypt accepts a password against
    its own hash, and a login with a password bcrypt rejects against that
    hash is refused.  When the login happens in a later second than the
    registration, the refresh token handed out at registration is refused
    from then on. *)
Theorem register_then_login
        `{bcrypt.impl} `{JwtModuleOptions}
        (registerDto : RegisterDto.t) (r : AuthResponse.t) (w w' : World)
        (ms : Z) :
  reachable w ->
  healthy w ->
  AuthService.register registerDto w = (Return r, w') ->
  0 <= ms ->
  (forall q,
      bcrypt.compare q (bcrypt.hash (RegisterDto.password registerDto) 10)
      = false ->
      AuthService.login (LoginDto.mk (RegisterDto.email registerDto) q)
        (elapse ms w')
      = (Throw (UnauthorizedException "Invalid credentials"), elapse ms w'))
  /\ (bcrypt.compare (RegisterDto.password registerDto)
        (bcrypt.hash (RegisterDto.password registerDto) 10) = true ->
      exists r2 w2,
        AuthService.login
          (LoginDto.mk (RegisterDto.email registerDto)
                       (RegisterDto.password registerDto))
          (elapse ms w')
        = (Return r2, w2)
        /\ AuthResponse.user r2 = AuthResponse.user r
        /\ (clockTimestamp (elapse ms w') <> clockTimestamp w ->
            forall ms2,
              AuthService.refreshTokens (AuthResponse.refresh_token r)
                (elapse ms2 w2)
              = (Throw (UnauthorizedException "Invalid refresh token"),
                 elapse ms2 w2))).
Proof.
  intros _ Hh Hrun Hms.
  destruct (register_Return registerDto r w w' Hh Hrun)
    as (Hfresh & _ & -> & ->).
  cbn [RegisterDto.body UserUncheckedCreateInput.id
       UserUncheckedCreateInput.email UserUncheckedCreateInput.name
       UserUncheckedCreateInput.password UserUncheckedCreateInput.age
       UserUncheckedCreateInput.createdAt default from_option] in *.
  set (rt := issued w (RegisterDto.email registerDto) (users_id_seq w)
                    (Days 7)).
  set (row := User.mk _ _ _ _ _ (Some rt) _ _).
  set (w1 := elapse ms _).
  assert (Hh1 : healthy w1) by reflexivity.
  assert (Hf : List.find (prisma.user.matches
                            (prisma.user.WhereEmail
                               (RegisterDto.email registerDto)))
                         (users w1) = Some row).
  { unfold w1. simpl.
    rewrite find_app_None by now apply find_WhereEmail_None.
    simpl. now rewrite String.eqb_refl. }
  split.
  - intros q Hq.
    pose proof (login_spec (LoginDto.mk (RegisterDto.email registerDto) q) w1)
      as Hspec.
    destruct (AuthService.login _ w1) as [[r2|e] w2] eqn:Hlogin.
    + eapply wp_Return in Hspec; [|exact Hlogin].
      destruct Hspec as (u & Hf' & Hc & _).
      pose proof (eq_trans (eq_sym Hf') Hf) as Hu. injection Hu as ->.
      simpl in Hc. congruence.
    + eapply wp_Throw in Hspec; [|exact Hlogin].
      destruct Hspec as (Hd & [[_ Hn] | (-> & _)]); [contradiction|].
      apply drift_healthy in Hd; [|exact Hh1]. now subst w2.
  - intros Hok. eexists _, _. split.
    + apply (login_run _ row); [exact Hh1 | exact Hf | exact Hok].
    + split; [reflexivity|]. intros Hlater ms2.
      apply refreshTokens_refused; [reflexivity|].
      intros p u2 Htok _ Hf2 Hst. simpl in Hf2.
      unfold rt, issued in Htok. injection Htok as <-. simpl in Hf2.
      rewrite find_email_after_set_refreshToken in Hf2.
      simpl in Hf. rewrite Hf in Hf2. simpl in Hf2.
      rewrite Z.eqb_refl in Hf2. injection Hf2 as <-. simpl in Hst.
      unfold rt, issued in Hst. injection Hst as Hiat _.
      apply Hlater. exact Hiat.
Qed.

Lemma register_then_login_witness :
  AuthService.login (LoginDto.mk "a@x.com" "wrong") (elapse 5000 registered)
  = (Throw (UnauthorizedException "Invalid credentials"),
     elapse 5000 registered)
  /\ exists r2 w2,
      AuthService.login alice_login (elapse 5000 registered) = (Return r2, w2)
      /\ AuthResponse.user r2 = AuthUser.mk 1 "a@x.com" "A"
      /\ AuthService.refreshTokens alice_refresh (elapse 10 w2)
         = (Throw (UnauthorizedException "Invalid refresh token"),
            elapse 10 w2).
Proof.
  pose proof (register_then_login alice
                (AuthResponse.mk alice_access alice_refresh
                   (AuthUser.mk 1 "a@x.com" "A"))
                empty registered 5000) as Hw.
  destruct Hw as [Hbad Hgood].
  - apply reachable_initial. split; reflexivity.
  - reflexivity.
  - reflexivity.
  - lia.
  - split; [apply (Hbad "wrong"); reflexivity|].
    destruct Hgood as (r2 & w2 & Hrun & Huser & Hold); [reflexivity|].
    exists r2, w2. split; [exact Hrun|]. split; [exact Huser|].
    apply Hold. vm_compute. discriminate.
Defined.

(** ** The handlers of [AuthController] *)

Lemma issued_lifetime `{JwtModuleOptions} (w : World) email sub e :
  lifetime_ms (issued w email sub e) = Some (1000 * seconds e).
Proof. unfold issued, lifetime_ms. simpl. f_equal. lia. Qed.

Lemma setCookies_run `{NodeEnv} (access refresh : Token) (x : Exchange) :
  AuthController.setCookies access refresh x
  = (Return tt,
     mkExchange (world x)
       (response x
        ++ [mkSetCookie "access_token" access
              (CookieOptions.mk true production "strict"
                                (Some (15 * 60 * 1000)) None);
            mkSetCookie "refresh_token" refresh
              (CookieOptions.mk true production "strict"
                                (Some (7 * 24 * 60 * 60 * 1000)) None)])).
Proof.
  unfold AuthController.setCookies. run_handler. simpl.
  now rewrite <- app_assoc.
Qed.

Lemma clearCookies_run `{NodeEnv} (x : Exchange) :
  AuthController.clearCookies x
  = (Return tt,
     mkExchange (world x)
       (response x
        ++ [mkSetCookie "access_token" (Opaque "")
              (CookieOptions.mk true production "strict" None (Some 0));
            mkSetCookie "refresh_token" (Opaque "")
              (CookieOptions.mk true production "strict" None (Some 0))])).
Proof.
  unfold AuthController.clearCookies. run_handler. simpl.
  now rewrite <- app_assoc.
Qed.

Lemma session_cookies_issued `{JwtModuleOptions} `{NodeEnv}
      (w : World) email sub :
  session_cookie "access_token"
    (mkSetCookie "access_token" (issued w email sub (Minutes 15))
       (CookieOptions.mk true production "strict"
                         (Some (15 * 60 * 1000)) None))
  /\ session_cookie "refresh_token"
       (mkSetCookie "refresh_token" (issued w email sub (Days 7))
          (CookieOptions.mk true production "strict"
                            (Some (7 * 24 * 60 * 60 * 1000)) None)).
Proof.
  split; repeat (split; [reflexivity|]); eexists; split;
    try reflexivity; apply issued_lifetime.
Qed.

(** The three handlers that open or renew a session write the two
    cookies when the service call has returned and write nothing when it
    threw.  Each cookie is [httpOnly], [sameSite: 'strict'], [secure]
    exactly in production, and its [maxAge] is the lifetime of the token
    it carries: fifteen minutes for ['access_token'], seven days for
    ['refresh_token']. *)
Theorem session_cookies_written_only_on_success
        `{bcrypt.impl} `{JwtModuleOptions} `{NodeEnv} :
  (forall registerDto,
      cookies_on_success_only (AuthController.register registerDto)
        (fun a b => session_cookie "access_token" a
                    /\ session_cookie "refresh_token" b))
  /\ (forall loginDto,
         cookies_on_success_only (AuthController.login loginDto)
           (fun a b => session_cookie "access_token" a
                       /\ session_cookie "refresh_token" b))
  /\ (forall req,
         cookies_on_success_only (AuthController.refresh req)
           (fun a b => session_cookie "access_token" a
                       /\ session_cookie "refresh_token" b)).
Proof.
  split; [|split].
  - intros registerDto x. unfold AuthController.register.
    unfold mbind, H_bind, H_then, await.
    rewrite registerWithCookies_register.
    pose proof (register_spec registerDto (world x)) as Hspec.
    cbv zeta in Hspec. unfold wp in Hspec.
    destruct (AuthService.register registerDto (world x)) as [[r|e] w'];
      [|reflexivity].
    destruct Hspec as (_ & -> & _). cbn [map_result repackage].
    rewrite setCookies_run. cbn. eexists _, _. split; [reflexivity|].
    apply session_cookies_issued.
  - intros loginDto x. unfold AuthController.login.
    unfold mbind, H_bind, H_then, await.
    rewrite loginWithCookies_login.
    pose proof (login_spec loginDto (world x)) as Hspec.
    unfold wp in Hspec.
    destruct (AuthService.login loginDto (world x)) as [[r|e] w'];
      [|reflexivity].
    destruct Hspec as (u & _ & _ & -> & _). cbn [map_result repackage].
    rewrite setCookies_run. cbn. eexists _, _. split; [reflexivity|].
    apply session_cookies_issued.
  - intros req x. unfold AuthController.refresh.
    destruct (refresh_token_cookie req) as [refreshToken|]; [|reflexivity].
    destruct (truthy refreshToken); [|reflexivity].
    unfold mbind, H_bind, H_then, await.
    pose proof (refreshTokens_spec refreshToken (world x)) as Hspec.
    unfold wp in Hspec.
    change (AuthService.refreshTokensWithCookies refreshToken (world x))
      with (AuthService.refreshTokens refreshToken (world x)).
    destruct (AuthService.refreshTokens refreshToken (world x))
      as [[r|e] w']; [|reflexivity].
    destruct Hspec as (p & u & _ & _ & _ & _ & -> & _).
    rewrite setCookies_run. cbn. eexists _, _. split; [reflexivity|].
    apply session_cookies_issued.
Qed.

(** The guarded [logout] tells the client to drop its cookies only when
    the logout took effect: it writes the two clearing cookies, empty
    and expired at the epoch, when the guard admitted the request and the
    store write went through; when the guard rejects, or the write fails,
    it writes no cookie at all. *)
Theorem logout_clears_cookies_only_on_success
        `{NodeEnv} `{ProcessEnv} (req : Request) :
  cookies_on_success_only (UseGuards req AuthController.logout)
    (fun a b => clearing_cookie "access_token" a
                /\ clearing_cookie "refresh_token" b).
Proof.
  intros x. unfold UseGuards, AuthController.logout.
  unfold mbind, H_bind, H_then, await.
  destruct (JwtStrategy.canActivate req (world x)) as [[user|e] w1];
    [|reflexivity].
  cbn [world response].
  destruct (AuthService.logout (userId user) w1) as [[[]|e] w2];
    [|reflexivity].
  rewrite clearCookies_run. cbn. eexists _, _. split; [reflexivity|].
  repeat split.
Qed.

(** [refresh] answers every failure with [UnauthorizedException], and the
    message tells which check failed: without a [refresh_token] cookie,
    or with an empty one, it is ['Refresh token not found'] and the store
    is not asked, so the exchange is exactly what it was, also when the
    link is down; with any other cookie it is ['Invalid refresh token'].
    It returns only for a non-empty cookie. *)
Theorem refresh_handler_answers
        `{JwtModuleOptions} `{NodeEnv} (req : Request) (x : Exchange) :
  match AuthController.refresh req x with
  | (Return r, _) =>
      MessageResponse.message r = "Tokens refreshed successfully"
      /\ exists t, refresh_token_cookie req = Some t /\ truthy t = true
  | (Throw e, x') =>
      (e = UnauthorizedException "Refresh token not found"
       /\ x' = x
       /\ (refresh_token_cookie req = None
           \/ refresh_token_cookie req = Some (Opaque "")))
      \/ (e = UnauthorizedException "Invalid refresh token"
          /\ exists t, refresh_token_cookie req = Some t /\ truthy t = true)
  end.
Proof.
  unfold AuthController.refresh.
  destruct (refresh_token_cookie req) as [t|]; [|left; auto].
  destruct (truthy t) eqn:Ht.
  - unfold mbind, H_bind, H_then, await.
    pose proof (refreshTokens_spec t (world x)) as Hspec. unfold wp in Hspec.
    change (AuthService.refreshTokensWithCookies t (world x))
      with (AuthService.refreshTokens t (world x)).
    destruct (AuthService.refreshTokens t (world x)) as [[r|e] w'].
    + rewrite setCookies_run. cbn. eauto.
    + destruct Hspec as (-> & _). right. eauto.
  - left. split; [reflexivity|]. split; [reflexivity|]. right.
    destruct t as [raw|c k]; [|discriminate].
    destruct raw; [reflexivity | discriminate].
Qed.

Lemma jwtFromRequest_cookie `{ProcessEnv} (req : Request) payload key :
  sends "access_token" (Jws payload key) req ->
  JwtStrategy.jwtFromRequest req = Some (Jws payload key).
Proof.
  intros (jar & Hjar & Ht).
  unfold JwtStrategy.jwtFromRequest, JwtStrategy.fromExtractors,
    JwtStrategy.extractJWTFromCookie.
  now rewrite Hjar, Ht.
Qed.

Lemma refresh_token_cookie_sends (req : Request) (t : Token) :
  sends "refresh_token" t req -> refresh_token_cookie req = Some t.
Proof.
  intros (jar & Hjar & Ht). unfold refresh_token_cookie. now rewrite Hjar.
Qed.

(** The cookies [login] writes open a session.  A request that sends the
    ['access_token'] cookie back is admitted by the guard, and [getProfile]
    answers with the id and email of the user who logged in, up to but
    excluding the second [iat + 15 minutes]; from that second on the
    request is rejected.  A request that sends the ['refresh_token'] cookie
    back within seven days gets two new cookies from [refresh], for the
    same user. *)
Theorem login_cookies_open_a_session
        `{bcrypt.impl} `{JwtModuleOptions} `{NodeEnv} `{ProcessEnv}
        (loginDto : LoginDto.t) (r : CookieAuthResponse.t)
        (x x' : Exchange) (ms : Z) (req : Request) :
  JwtStrategy.secretOrKey = secret ->
  healthy (world x) ->
  AuthController.login loginDto x = (Return r, x') ->
  0 <= ms ->
  exists a b,
    response x' = response x ++ [a; b]
    /\ CookieAuthResponse.message r = "Login successful"
    /\ forall seen : list SetCookie,
        let later := mkExchange (elapse ms (world x')) seen in
        (sends "access_token" (cookie_value a) req ->
         UseGuards req AuthController.getProfile later
         = (if clockTimestamp (world later) <? clockTimestamp (world x) + 900
            then Return (mkRequestUser
                           (AuthUser.id (CookieAuthResponse.user r))
                           (AuthUser.email (CookieAuthResponse.user r)))
            else Throw (UnauthorizedException "Unauthorized"),
            later))
        /\ (sends "refresh_token" (cookie_value b) req ->
            clockTimestamp (world later) < clockTimestamp (world x) + 604800 ->
            exists x2 a2 b2,
              AuthController.refresh req later
              = (Return (MessageResponse.mk "Tokens refreshed successfully"),
                 x2)
              /\ response x2 = seen ++ [a2; b2]
              /\ token_sub (cookie_value a2)
                 = Some (AuthUser.id (CookieAuthResponse.user r))
              /\ token_sub (cookie_value b2)
                 = Some (AuthUser.id (CookieAuthResponse.user r))).
Proof.
  intros Hkey Hh Hrun Hms. unfold AuthController.login in Hrun.
  unfold mbind, H_bind, H_then, await in Hrun.
  rewrite loginWithCookies_login in Hrun.
  pose proof (login_spec loginDto (world x)) as Hspec. unfold wp in Hspec.
  destruct (AuthService.login loginDto (world x)) as [[r0|e] w'];
    [|discriminate].
  destruct Hspec as (u & Hf & _ & -> & Hw).
  apply writes_healthy in Hw; [|exact Hh]. subst w'.
  cbn [map_result repackage] in Hrun. rewrite setCookies_run in Hrun.
  cbn in Hrun. injection Hrun as <- <-.
  eexists _, _. split; [reflexivity|]. split; [reflexivity|].
  intros seen later. cbn [cookie_value CookieAuthResponse.user AuthUser.id
                           AuthUser.email].
  assert (Hlater : healthy (world later)) by exact Hh.
  apply find_some in Hf as Hin. destruct Hin as [Hin He].
  simpl in He. apply String.eqb_eq in He. rewrite <- He in Hf.
  split.
  - intros Hsend. unfold UseGuards, AuthController.getProfile.
    unfold mbind, H_bind, H_then, await, mret, H_ret, H_unit.
    rewrite canActivate_healthy by exact Hlater.
    unfold issued in Hsend.
    rewrite (jwtFromRequest_cookie req _ _ Hsend).
    rewrite Hkey, String.eqb_refl. cbn [JwtPayload.exp JwtPayload.sub
                                         JwtPayload.email andb].
    destruct (Z.ltb_spec (clockTimestamp (world later))
                         (clockTimestamp (world x) + 900)) as [Hlt|Hge].
    + destruct (Z.leb_spec (clockTimestamp (world x) + seconds (Minutes 15))
                           (clockTimestamp (world later))) as [Hle|_];
        [cbn [seconds] in Hle; lia|].
      cbn [negb]. unfold later. cbn [world users elapse prisma.user.store].
      rewrite find_id_after_set_refreshToken.
      destruct (find_WhereId_Some (User.id u) (users (world x)))
        as (u0 & -> & _); [eauto|].
      reflexivity.
    + destruct (Z.leb_spec (clockTimestamp (world x) + seconds (Minutes 15))
                           (clockTimestamp (world later))) as [_|Hgt];
        [reflexivity | cbn [seconds] in Hgt; lia].
  - intros Hsend Hlive. unfold AuthController.refresh.
    rewrite (refresh_token_cookie_sends req _ Hsend).
    assert (Hrefresh :
              AuthService.refreshTokensWithCookies
                (issued (world x) (User.email u) (User.id u) (Days 7))
                (world later)
              = (Return (TokenResponse.mk
                           (issued (world later) (User.email u) (User.id u)
                                   (Minutes 15))
                           (issued (world later) (User.email u) (User.id u)
                                   (Days 7))),
                 prisma.user.store
                   (set_refreshToken (clock (world later)) (User.id u)
                      (Some (issued (world later) (User.email u) (User.id u)
                                    (Days 7)))
                      (users (world later)))
                   (world later))).
    { assert (Hf' : List.find (prisma.user.matches
                                 (prisma.user.WhereEmail (User.email u)))
                              (users (world later))
                    = Some (prisma.user.patch (clock (world x))
                              (prisma.user.mkUpdate None None None None
                                 (Some (Some (issued (world x) (User.email u)
                                                     (User.id u) (Days 7)))))
                              u)).
      { unfold later. cbn [world users elapse prisma.user.store].
        rewrite find_email_after_set_refreshToken, Hf. simpl.
        now rewrite Z.eqb_refl. }
      pose proof (refreshTokens_run
                    (JwtPayload.mk (User.email u) (User.id u)
                       (clockTimestamp (world x))
                       (clockTimestamp (world x) + seconds (Days 7)))
                    (prisma.user.patch (clock (world x))
                       (prisma.user.mkUpdate None None None None
                          (Some (Some (issued (world x) (User.email u)
                                              (User.id u) (Days 7)))))
                       u)
                    (world later) Hlater) as Hr.
      cbn [JwtPayload.exp JwtPayload.email seconds] in Hr.
      specialize (Hr ltac:(lia) Hf' eq_refl). exact Hr. }
    cbn [truthy issued]. unfold mbind, H_bind, H_then, await.
    rewrite Hrefresh.
    rewrite setCookies_run. cbn. eexists _, _, _.
    split; [reflexivity|]. split; [reflexivity|]. split; reflexivity.
Qed.

Lemma login_cookies_open_a_session_witness :
  UseGuards session_request AuthController.getProfile
    (mkExchange (elapse 60000 logged_in) [])
  = (Return (mkRequestUser 1 "a@x.com"),
     mkExchange (elapse 60000 logged_in) [])
  /\ exists x2 a2 b2,
      AuthController.refresh session_request
        (mkExchange (elapse 60000 logged_in) [])
      = (Return (MessageResponse.mk "Tokens refreshed successfully"), x2)
      /\ response x2 = [a2; b2]
      /\ token_sub (cookie_value a2) = Some 1
      /\ token_sub (cookie_value b2) = Some 1.
Proof.
  pose proof (login_cookies_open_a_session alice_login
                (CookieAuthResponse.mk (AuthUser.mk 1 "a@x.com" "A")
                                       "Login successful")
                (mkExchange (elapse 5000 registered) []) login_exchange
                60000 session_request) as Hw.
  destruct Hw as (a & b & Hres & _ & Hsession).
  - reflexivity.
  - reflexivity.
  - reflexivity.
  - lia.
  - simpl in Hres. injection Hres as <- <-.
    specialize (Hsession []). cbv zeta in Hsession.
    destruct Hsession as [Hprofile Hrefresh]. split.
    + apply Hprofile. eexists. split; reflexivity.
    + apply Hrefresh; [eexists; split; reflexivity|].
      vm_compute. reflexivity.
Defined.

Lemma canActivate_admits `{ProcessEnv} (req : Request) (user : RequestUser)
      (w : World) :
  healthy w ->
  outcome (JwtStrategy.canActivate req w) = Return user ->
  JwtStrategy.canActivate req w = (Return user, w)
  /\ exists u, In u (users w) /\ User.id u = userId user.
Proof.
  intros Hh. rewrite canActivate_healthy by exact Hh.
  destruct (JwtStrategy.jwtFromRequest req) as [[raw|payload key]|];
    [discriminate| |discriminate].
  destruct (String.eqb key JwtStrategy.secretOrKey
            && negb (JwtPayload.exp payload <=? clockTimestamp w));
    [|discriminate].
  destruct (List.find _ (users w)) as [u|] eqn:Hf; [|discriminate].
  unfold outcome. simpl. intros [= <-]. split; [reflexivity|].
  apply find_some in Hf as [Hin Hm]. simpl in Hm. apply Z.eqb_eq in Hm.
  simpl. eauto.
Qed.

(** A logout the guard admitted cannot fail on a store that answers: the
    row the guard has just found is the row whose slot is set to [null],
    so the handler returns its message, the user's slot holds [null], and
    every other user's slot is what it was.  The access token that
    authenticated the logout is not revoked by it: the same request is
    still admitted afterwards. *)
Theorem admitted_logout_goes_through
        `{bcrypt.impl} `{JwtModuleOptions} `{NodeEnv} `{ProcessEnv}
        (req : Request) (user : RequestUser) (x : Exchange) :
  reachable (world x) ->
  healthy (world x) ->
  outcome (JwtStrategy.canActivate req (world x)) = Return user ->
  exists x',
    UseGuards req AuthController.logout x
    = (Return (MessageResponse.mk "Logged out successfully"), x')
    /\ slot (world x') (userId user) = [None]
    /\ (forall uid, uid <> userId user ->
                    slot (world x') uid = slot (world x) uid)
    /\ fst (UseGuards req AuthController.getProfile x') = Return user.
Proof.
  intros Hreach Hh Hadmit.
  pose proof (reachable_wf _ Hreach) as Hwf.
  destruct (canActivate_admits req user (world x) Hh Hadmit) as [Hrun Hex].
  unfold UseGuards, AuthController.logout.
  unfold mbind, H_bind, H_then, await. rewrite Hrun. cbn [world response].
  rewrite logout_healthy by assumption. rewrite clearCookies_run.
  eexists. split; [reflexivity|]. cbn [world response].
  destruct (slot_writes_same (clock (world x)) (userId user) None (world x)
              (prisma.user.store
                 (set_refreshToken (clock (world x)) (userId user) None
                                   (users (world x)))
                 (world x)) Hwf Hex) as [Hsame Hother].
  { repeat split. exact (fun h => h). }
  split; [exact Hsame|]. split; [exact Hother|].
  unfold AuthController.getProfile, mret, H_ret, H_unit.
  cbn [world response].
  assert (Hagain :
            JwtStrategy.canActivate req
              (prisma.user.store
                 (set_refreshToken (clock (world x)) (userId user) None
                                   (users (world x)))
                 (world x))
            = (Return user,
               prisma.user.store
                 (set_refreshToken (clock (world x)) (userId user) None
                                   (users (world x)))
                 (world x))).
  { rewrite canActivate_healthy in Hrun |- * by exact Hh.
    destruct (JwtStrategy.jwtFromRequest req) as [[raw|payload key]|];
      [discriminate| |discriminate].
    change (clockTimestamp (prisma.user.store _ (world x)))
      with (clockTimestamp (world x)).
    destruct (String.eqb key JwtStrategy.secretOrKey
              && negb (JwtPayload.exp payload <=? clockTimestamp (world x)));
      [|discriminate].
    cbn [users prisma.user.store]. rewrite find_id_after_set_refreshToken.
    destruct (List.find _ (users (world x))) as [u|]; [|discriminate].
    injection Hrun as <-. reflexivity. }
  rewrite Hagain. reflexivity.
Qed.

Lemma admitted_logout_goes_through_witness :
  exists x',
    UseGuards session_request AuthController.logout
      (mkExchange (elapse 60000 logged_in) [])
    = (Return (MessageResponse.mk "Logged out successfully"), x')
    /\ slot (world x') 1 = [None].
Proof.
  assert (Hreach : reachable (elapse 60000 logged_in)).
  { apply (reachable_step logged_in); [|apply step_time; lia].
    apply (reachable_step (elapse 5000 registered));
      [|exact (step_call (CallLogin alice_login) (elapse 5000 registered))].
    apply (reachable_step registered); [|apply step_time; lia].
    apply (reachable_step empty).
    - apply reachable_initial. split; reflexivity.
    - exact (step_call (CallRegister alice) empty). }
  pose proof (admitted_logout_goes_through session_request
                (mkRequestUser 1 "a@x.com")
                (mkExchange (elapse 60000 logged_in) [])) as Hw.
  destruct Hw as (x' & Hrun & Hslot & _).
  - exact Hreach.
  - reflexivity.
  - reflexivity.
  - exists x'. split; [exact Hrun | exact Hslot].
Defined.

(** ** The routes of [UserController] *)

(** The guard decides who may call, not on which row: once a request is
    admitted, [remove] and [update] act on the row named in the path
    whoever the caller is.  Any authenticated user can delete any other
    user's row and can overwrite any other user's password. *)
Theorem user_routes_check_no_owner
        `{ProcessEnv} (req : Request) (user : RequestUser) (id : Z)
        (x : Exchange) :
  healthy (world x) ->
  outcome (JwtStrategy.canActivate req (world x)) = Return user ->
  (exists u, In u (users (world x)) /\ User.id u = id) ->
  (exists x',
      UserController.remove req id x = (Return tt, x')
      /\ (forall u, In u (users (world x')) -> User.id u <> id)
      /\ response x' = response x)
  /\ (forall p,
         exists o x',
           UserController.update req id
             (PartialCreateUserDto.mk None None (Some p) None) x
           = (Return (Some o), x')
           /\ (forall u, In u (users (world x')) -> User.id u = id ->
                         User.password u = p)
           /\ List.map User.id (users (world x'))
              = List.map User.id (users (world x))).
Proof.
  intros Hh Hadmit Hex.
  destruct (canActivate_admits req user (world x) Hh Hadmit) as [Hrun _].
  destruct (find_WhereId_Some id (users (world x)) Hex) as (u0 & Hf0 & _ & _).
  split.
  - unfold UserController.remove, UseGuards.
    unfold mbind, H_bind, H_then, await. rewrite Hrun. cbn [world response].
    rewrite remove_healthy by exact Hh. rewrite Hf0.
    eexists. split; [reflexivity|]. split; [|reflexivity].
    cbn [world users prisma.user.store]. intros u Hin.
    apply filter_In in Hin as [_ Hm]. simpl in Hm.
    apply negb_true_iff, Z.eqb_neq in Hm. exact Hm.
  - intros p. unfold UserController.update, UseGuards.
    unfold mbind, H_bind, H_then, await. rewrite Hrun. cbn [world response].
    pose proof (UserService_update_healthy id
                  (PartialCreateUserDto.mk None None (Some p) None)
                  (world x) Hh) as Hup.
    rewrite Hf0 in Hup.
    change (UserUncheckedUpdateInput.no_keys _) with false in Hup.
    change (prisma.user.unique_taken (users (world x)) u0 _) with false
      in Hup.
    cbv iota in Hup. rewrite Hup.
    eexists _, _. split; [reflexivity|].
    cbn [world users prisma.user.store]. split.
    + intros u Hin Hid. apply in_map_iff in Hin as (r & <- & _).
      destruct (prisma.user.matches (prisma.user.WhereId id) r) eqn:Hm;
        [reflexivity|].
      simpl in Hm. apply Z.eqb_neq in Hm. contradiction.
    + rewrite List.map_map. apply List.map_ext.
      intros r. now destruct (prisma.user.matches _ r).
Qed.

Lemma user_routes_check_no_owner_witness :
  exists x',
    UserController.remove with_cookie 2 (mkExchange two_users [])
    = (Return tt, x')
    /\ List.map User.email (users (world x')) = ["a@x.com"].
Proof.
  pose proof (user_routes_check_no_owner with_cookie
                (mkRequestUser 1 "a@x.com") 2 (mkExchange two_users []))
    as Hw.
  destruct Hw as [(x' & Hrun & _) _].
  - reflexivity.
  - reflexivity.
  - eexists. split; [right; left; reflexivity | reflexivity].
  - exists x'. split; [exact Hrun|].
    vm_compute in Hrun. injection Hrun as <-. reflexivity.
Defined.

(** ** An id named by the body *)

(** An id no row carries can be claimed by a registration whose body
    names it, the id of a removed user included; the sequence is not
    advanced.  A request whose token names that id, rejected before because
    no row carried it, is admitted by the guard afterwards: the tokens of
    a removed user come to speak for the newcomer. *)
Theorem register_body_claims_a_free_id
        `{bcrypt.impl} `{JwtModuleOptions} `{ProcessEnv}
        (registerDto : UserUncheckedCreateInput.t) (i : Z)
        (req : Request) (payload : JwtPayload.t) (w : World) :
  healthy w ->
  create_in_range registerDto ->
  UserUncheckedCreateInput.id registerDto = Some i ->
  (forall u, In u (users w) ->
             User.email u <> UserUncheckedCreateInput.email registerDto) ->
  (forall u, In u (users w) -> User.id u <> i) ->
  JwtStrategy.jwtFromRequest req
  = Some (Jws payload JwtStrategy.secretOrKey) ->
  JwtPayload.sub payload = i ->
  clockTimestamp w < JwtPayload.exp payload ->
  JwtStrategy.canActivate req w
  = (Throw (UnauthorizedException "Unauthorized"), w)
  /\ exists r w',
      AuthService.register registerDto w = (Return r, w')
      /\ AuthUser.id (AuthResponse.user r) = i
      /\ users_id_seq w' = users_id_seq w
      /\ JwtStrategy.canActivate req w'
         = (Return (mkRequestUser i (JwtPayload.email payload)), w').
Proof.
  intros Hh _ Hi Hemail Hid Hreq Hsub Hexp.
  assert (Hlive : (JwtPayload.exp payload <=? clockTimestamp w) = false)
    by (apply Z.leb_gt; exact Hexp).
  split.
  - rewrite canActivate_healthy by exact Hh. rewrite Hreq.
    rewrite String.eqb_refl, Hlive. cbn [negb andb]. rewrite Hsub.
    now rewrite (find_WhereId_None i (users w) Hid).
  - destruct (register_run registerDto w Hh Hemail) as (r & w' & Hrun).
    { rewrite Hi. exact Hid. }
    destruct (register_Return registerDto r w w' Hh Hrun)
      as (_ & _ & -> & ->).
    eexists _, _. split; [exact Hrun|]. rewrite Hi.
    cbn [AuthResponse.user AuthUser.id default from_option users_id_seq].
    split; [reflexivity|]. split; [reflexivity|].
    rewrite canActivate_healthy by reflexivity. rewrite Hreq.
    rewrite String.eqb_refl.
    change (clockTimestamp (mkWorld _ _ (clock w) None))
      with (clockTimestamp w).
    rewrite Hlive. cbn [negb andb users]. rewrite Hsub.
    rewrite find_app_None by now apply find_WhereId_None.
    simpl. now rewrite Z.eqb_refl.
Qed.

Lemma register_body_claims_a_free_id_witness :
  JwtStrategy.canActivate with_cookie deleted
  = (Throw (UnauthorizedException "Unauthorized"), deleted)
  /\ exists r w',
      AuthService.register
        (UserUncheckedCreateInput.mk "c@x.com" "p3" "C" None (Some 1) None
                                     None None)
        deleted
      = (Return r, w')
      /\ AuthUser.id (AuthResponse.user r) = 1
      /\ JwtStrategy.canActivate with_cookie w'
         = (Return (mkRequestUser 1 "a@x.com"), w').
Proof.
  destruct (register_body_claims_a_free_id
              (UserUncheckedCreateInput.mk "c@x.com" "p3" "C" None (Some 1)
                 None None None)
              1 with_cookie
              (JwtPayload.mk "a@x.com" 1 1700000000 1700000900) deleted)
    as (Hbefore & r & w' & Hrun & Hid & _ & Hafter).
  - reflexivity.
  - split; simpl; [unfold int4; lia | exact I].
  - reflexivity.
  - intros u [].
  - intros u [].
  - reflexivity.
  - reflexivity.
  - vm_compute. reflexivity.
  - split; [exact Hbefore|]. exists r, w'. auto.
Defined.
